(** * Unite-Hub scraping core: a shallow embedding and its checked properties

    The development follows the Python modules under [src/lib/scraping]:

    - [web-scraper.py]      : [WebScraper] (fetch with tenacity retry, extraction)
    - [safe-scraper.py]     : [SafeScraper] (request budget, 24h response cache)
    - [vpn-integration.py]  : [VPNManager] (round-robin proxy rotation)
    - [competitor-intelligence.py] : [CompetitorIntelligence] ([full_analysis] and
      its stages, [monitor_changes])
    - [web-scraper.py], [safe-scraper.py], [web-scraper-vpn.py] : the analysers
      [CompetitorAnalyzer], [SafeCompetitorAnalyzer] and [VPNWebScraper]
    - [vpn-integration.py]  : [VPNManager] (loading, probing) and [VPNSession]

    Conventions.  Python [int] is [Z].  A Python [str] is a Rocq [string]
    (its UTF-8 bytes).  Durations and instants are integers counted in
    microseconds, the resolution of [datetime]; a float number of seconds
    is represented by the corresponding number of microseconds.  Code that
    can raise returns an [Outcome]; code that mutates an object or touches
    the network, the clock, the disk or the random generator threads the
    object and a [World] explicitly.  What the third-party packages do
    (the HTTP server's answers, [validators.url], [urljoin], the order in
    which a [set] is listed, ...) is supplied by an environment record and
    is never assumed to be anything in particular. *)

From Stdlib Require Import ZArith List String Ascii Bool Lia.
From stdpp Require Import base option list gmap strings.

Import ListNotations.
Local Open Scope string_scope.
Local Open Scope list_scope.
Local Open Scope Z_scope.

(** ** Python helpers *)

Module Py.

(** Truth value of an [Optional[str]]: [None] and [''] are falsy. *)
Definition truthy (o : option string) : bool :=
  match o with
  | None => false
  | Some s => negb (String.eqb s "")
  end.

(** [list[i]] with Python's negative indices; [None] stands for
    [IndexError]. *)
Definition index {A} (l : list A) (i : Z) : option A :=
  let n := Z.of_nat (length l) in
  if (0 <=? i) && (i <? n) then l !! Z.to_nat i
  else if (- n <=? i) && (i <? 0) then l !! Z.to_nat (i + n)
  else None.

(** [a % b] on integers: the sign of the result is the divisor's, which
    is what [Z.modulo] computes. *)
Definition mod_ (a b : Z) : Z := a mod b.

Definition seconds (n : Z) : Z := n * 1000000.
Definition hours (n : Z) : Z := seconds (n * 3600).

End Py.

(** ** hashlib.md5 (RFC 1321), on byte lists *)

Module MD5.

Definition word := Z.
Definition two32 : Z := 2 ^ 32.

Definition add32 (a b : word) : word := (a + b) mod two32.
Definition not32 (a : word) : word := Z.lxor a (two32 - 1).
Definition rotl32 (x : word) (c : Z) : word :=
  Z.lor (Z.shiftl x c mod two32) (Z.shiftr x (32 - c)).

Definition K : list word :=
  [ 0xd76aa478; 0xe8c7b756; 0x242070db; 0xc1bdceee;
    0xf57c0faf; 0x4787c62a; 0xa8304613; 0xfd469501;
    0x698098d8; 0x8b44f7af; 0xffff5bb1; 0x895cd7be;
    0x6b901122; 0xfd987193; 0xa679438e; 0x49b40821;
    0xf61e2562; 0xc040b340; 0x265e5a51; 0xe9b6c7aa;
    0xd62f105d; 0x02441453; 0xd8a1e681; 0xe7d3fbc8;
    0x21e1cde6; 0xc33707d6; 0xf4d50d87; 0x455a14ed;
    0xa9e3e905; 0xfcefa3f8; 0x676f02d9; 0x8d2a4c8a;
    0xfffa3942; 0x8771f681; 0x6d9d6122; 0xfde5380c;
    0xa4beea44; 0x4bdecfa9; 0xf6bb4b60; 0xbebfbc70;
    0x289b7ec6; 0xeaa127fa; 0xd4ef3085; 0x04881d05;
    0xd9d4d039; 0xe6db99e5; 0x1fa27cf8; 0xc4ac5665;
    0xf4292244; 0x432aff97; 0xab9423a7; 0xfc93a039;
    0x655b59c3; 0x8f0ccc92; 0xffeff47d; 0x85845dd1;
    0x6fa87e4f; 0xfe2ce6e0; 0xa3014314; 0x4e0811a1;
    0xf7537e82; 0xbd3af235; 0x2ad7d2bb; 0xeb86d391 ].

Definition S : list Z :=
  [ 7; 12; 17; 22; 7; 12; 17; 22; 7; 12; 17; 22; 7; 12; 17; 22;
    5; 9; 14; 20; 5; 9; 14; 20; 5; 9; 14; 20; 5; 9; 14; 20;
    4; 11; 16; 23; 4; 11; 16; 23; 4; 11; 16; 23; 4; 11; 16; 23;
    6; 10; 15; 21; 6; 10; 15; 21; 6; 10; 15; 21; 6; 10; 15; 21 ].

(** [n] little-endian bytes of [x]. *)
Fixpoint le_bytes (n : nat) (x : Z) : list Z :=
  match n with
  | O => []
  | Datatypes.S n' => (x mod 256) :: le_bytes n' (x / 256)
  end.

Fixpoint le_word (bs : list Z) : word :=
  match bs with
  | [] => 0
  | b :: bs' => b + 256 * le_word bs'
  end.

Definition pad (msg : list Z) : list Z :=
  let len := Z.of_nat (length msg) in
  msg ++ [0x80] ++ repeat 0 (Z.to_nat ((55 - len) mod 64))
      ++ le_bytes 8 ((8 * len) mod 2 ^ 64).

(** Cut a list into pieces of [n] elements ([fuel] bounds the number of
    pieces; [length l] is always enough). *)
Fixpoint chunks {A} (fuel n : nat) (l : list A) : list (list A) :=
  match fuel, l with
  | O, _ | _, [] => []
  | Datatypes.S fuel', _ => take n l :: chunks fuel' n (drop n l)
  end.

Definition state : Type := word * word * word * word.

Definition init : state :=
  (0x67452301, 0xefcdab89, 0x98badcfe, 0x10325476).

Definition step (M : list word) (st : state) (i : nat) : state :=
  let '(a, b, c, d) := st in
  let iz := Z.of_nat i in
  let '(f, g) :=
    if iz <? 16 then (Z.lor (Z.land b c) (Z.land (not32 b) d), iz)
    else if iz <? 32 then
      (Z.lor (Z.land d b) (Z.land (not32 d) c), (5 * iz + 1) mod 16)
    else if iz <? 48 then (Z.lxor b (Z.lxor c d), (3 * iz + 5) mod 16)
    else (Z.lxor c (Z.lor b (not32 d)), (7 * iz) mod 16) in
  let f' := add32 (add32 (add32 f a) (nth i K 0)) (nth (Z.to_nat g) M 0) in
  (d, add32 b (rotl32 f' (nth i S 0)), b, c).

Definition compress (st : state) (block : list Z) : state :=
  let M := map le_word (chunks 16 4 block) in
  let '(a, b, c, d) := st in
  let '(a', b', c', d') := fold_left (step M) (seq 0 64) st in
  (add32 a a', add32 b b', add32 c c', add32 d d').

Definition digest (msg : list Z) : list Z :=
  let p := pad msg in
  let '(a, b, c, d) := fold_left compress (chunks (length p) 64 p) init in
  le_bytes 4 a ++ le_bytes 4 b ++ le_bytes 4 c ++ le_bytes 4 d.

Definition hex_digit (n : Z) : ascii :=
  nth (Z.to_nat n) (list_ascii_of_string "0123456789abcdef") "0"%char.

Fixpoint hex (bs : list Z) : string :=
  match bs with
  | [] => ""
  | b :: bs' =>
      String (hex_digit (b / 16)) (String (hex_digit (b mod 16)) (hex bs'))
  end.

(** [str.encode()]: the bytes of the string. *)
Definition encode (s : string) : list Z :=
  map (fun c => Z.of_N (N_of_ascii c)) (list_ascii_of_string s).

(** [hashlib.md5(s.encode()).hexdigest()] *)
Definition hexdigest (s : string) : string := hex (digest (encode s)).

End MD5.

(** ** Effects: exceptions, the world, the environment *)

(** The [requests] exceptions the fetch path distinguishes.  All of them
    are subclasses of [requests.exceptions.RequestException]. *)
Inductive NetError := Timeout | ConnectionError | TooManyRedirects.

Inductive Exn :=
| HTTPError (status : Z)        (* raised by [response.raise_for_status()] *)
| RequestFailed (e : NetError)  (* raised by [session.get] *)
| ValueError                    (* [time.sleep] of a negative duration *)
| AttributeError                (* [.get] on a value that is not a dict *)
| IndexError                    (* list index out of range *)
| RetryError (last : Exn).      (* [tenacity.RetryError] *)

Definition is_RequestException (e : Exn) : bool :=
  match e with
  | HTTPError _ | RequestFailed _ => true
  | _ => false
  end.

(** What [session.get] produces: a response with its final status, or an
    exception. *)
Inductive Response :=
| HttpResponse (status : Z) (text : string)
| NetworkFailure (e : NetError).

(** One file of the cache directory: the JSON object written by
    [_save_to_cache], or anything that makes the reader raise. *)
Inductive CacheFile :=
| CacheJson (url html : string) (timestamp : Z)
| Unreadable.

Record World := mkWorld {
  now : Z;                        (* [datetime.now()], in microseconds *)
  requests : list string;         (* URLs of the GETs issued, oldest first *)
  sleeps : list Z;                (* every duration slept, oldest first *)
  draws : nat;                    (* calls of [random.uniform] so far *)
  files : gmap string CacheFile   (* the cache directory, by file name *)
}.

(** Everything the code obtains from outside.  [session_get n url] is the
    outcome of the GET issued when [n] GETs came before it. *)
Record Env := mkEnv {
  validators_url : string -> bool;
  session_get : nat -> string -> Response;
  random_uniform : nat -> Z -> Z -> Z;
  open_for_write : string -> bool
}.

Inductive Outcome (A : Type) :=
| Returned (a : A)
| Raised (e : Exn).
Arguments Returned {A} a.
Arguments Raised {A} e.

(** Computations over a state [S] (the world, or an object and the
    world) that return or raise. *)
Definition M (S A : Type) : Type := S -> Outcome A * S.

Definition ret {S A} (a : A) : M S A := fun s => (Returned a, s).
Definition raise {S A} (e : Exn) : M S A := fun s => (Raised e, s).
Definition bind {S A B} (c : M S A) (k : A -> M S B) : M S B :=
  fun s => match c s with
           | (Returned a, s') => k a s'
           | (Raised e, s') => (Raised e, s')
           end.
(** [try: c / except: h] *)
Definition try_except {S A} (c : M S A) (h : Exn -> M S A) : M S A :=
  fun s => match c s with
           | (Returned a, s') => (Returned a, s')
           | (Raised e, s') => h e s'
           end.

Notation "'do' x <- c ; k" := (bind c (fun x => k))
  (at level 10, x name, c at level 100, k at level 200).
Notation "'do_' c ; k" := (bind c (fun _ => k))
  (at level 10, c at level 100, k at level 200).

(** The world after one more GET, and after a sleep of [d]. *)
Definition after_request (w : World) (url : string) : World :=
  mkWorld (now w) (requests w ++ [url]) (sleeps w) (draws w) (files w).

Definition after_sleep (w : World) (d : Z) : World :=
  mkWorld (now w + d) (requests w) (sleeps w ++ [d]) (draws w) (files w).

(** [time.sleep(d)] *)
Definition sleep (d : Z) : M World unit :=
  fun w =>
    if d <? 0 then (Raised ValueError, w)
    else (Returned tt, after_sleep w d).

(** Time passing between two calls. *)
Definition elapse (d : Z) (w : World) : World :=
  mkWorld (now w + d) (requests w) (sleeps w) (draws w) (files w).

Definition http_get (env : Env) (url : string) : M World Response :=
  fun w =>
    (Returned (session_get env (length (requests w)) url), after_request w url).

Definition uniform (env : Env) (a b : Z) : M World Z :=
  fun w =>
    (Returned (random_uniform env (draws w) a b),
     mkWorld (now w) (requests w) (sleeps w) (Datatypes.S (draws w)) (files w)).

Definition get_now : M World Z := fun w => (Returned (now w), w).

(** ** tenacity *)

Module Tenacity.

(** [wait_exponential(multiplier, min, max)] after attempt number
    [attempt_number] (counted from 1), in seconds. *)
Definition wait_exponential (multiplier min max : Z) (attempt_number : Z) : Z :=
  let exp := 2 ^ (attempt_number - 1) in
  let result := multiplier * exp in
  Z.max (Z.max 0 min) (Z.min result max).

(** The retry loop for [stop_after_attempt]: [more] is how many attempts
    may still follow attempt [attempt_number].  Any exception is
    retried (the default [retry_if_exception_type()]); when the stop
    condition holds the last exception is wrapped in [RetryError]
    ([reraise] is left at its default). *)
Fixpoint retrying {A} (wait : Z -> Z) (more : nat) (attempt_number : Z)
    (f : M World A) : M World A :=
  fun w =>
    match f w with
    | (Returned a, w') => (Returned a, w')
    | (Raised e, w') =>
        match more with
        | O => (Raised (RetryError e), w')
        | Datatypes.S more' =>
            (do_ sleep (Py.seconds (wait attempt_number));
             retrying wait more' (attempt_number + 1) f) w'
        end
    end.

(** [@retry(stop=stop_after_attempt(n), wait=wait)] *)
Definition retry {A} (stop_after_attempt : nat) (wait : Z -> Z)
    (f : M World A) : M World A :=
  retrying wait (Nat.pred stop_after_attempt) 1 f.

End Tenacity.

(** ** web-scraper.py: fetching *)

Record WebScraper := mkWebScraper {
  delay : Z;      (* seconds between requests, in microseconds *)
  timeout : Z
}.

Module WebScraperFetch.

(** The body of [fetch_page], one attempt. *)
Definition fetch_page_body (env : Env) (self : WebScraper) (url : string)
    : M World (option string) :=
  if negb (validators_url env url) then ret None
  else
    try_except
      (do response <- http_get env url;
       match response with
       | NetworkFailure e => raise (RequestFailed e)
       | HttpResponse status text =>
           (* response.raise_for_status() *)
           if (400 <=? status) && (status <? 600) then raise (HTTPError status)
           else
             do_ sleep (delay self);
             ret (Some text)
       end)
      (fun e =>
         if is_RequestException e then raise e   (* logger.error(...); raise *)
         else raise e).                          (* not handled here *)

(** The exception an attempt raises on a given answer of [session.get],
    if it raises one: the exception of the request itself, or the
    [HTTPError] of [raise_for_status] on a 4xx or 5xx status. *)
Definition raised_for (response : Response) : option Exn :=
  match response with
  | NetworkFailure e => Some (RequestFailed e)
  | HttpResponse status _ =>
      if (400 <=? status) && (status <? 600) then Some (HTTPError status)
      else None
  end.

(** [fetch_page] as decorated:
    [@retry(stop=stop_after_attempt(3),
            wait=wait_exponential(multiplier=1, min=4, max=10))]. *)
Definition fetch_page (env : Env) (self : WebScraper) (url : string)
    : M World (option string) :=
  Tenacity.retry 3 (Tenacity.wait_exponential 1 4 10)
    (fetch_page_body env self url).

End WebScraperFetch.

(** ** safe-scraper.py *)

Record SafeScraper := mkSafeScraper {
  base : WebScraper;
  min_delay : Z;
  max_delay : Z;
  max_requests : Z;
  request_count : Z;
  cache_enabled : bool
}.

(** The dictionary returned by [get_session_stats]. *)
Record SessionStats := mkSessionStats {
  requests_made : Z;
  requests_remaining : Z;
  stats_cache_enabled : bool;
  stats_min_delay : Z;
  stats_max_delay : Z
}.

Module SafeScraperImpl.

Definition with_request_count (self : SafeScraper) (n : Z) : SafeScraper :=
  mkSafeScraper (base self) (min_delay self) (max_delay self)
    (max_requests self) n (cache_enabled self).

(** [SafeScraper.__init__] *)
Definition init (env : Env) (min_delay max_delay max_requests_per_session
    timeout : Z) (cache_enabled : bool) : M World SafeScraper :=
  do d <- uniform env min_delay max_delay;
  ret (mkSafeScraper (mkWebScraper d timeout) min_delay max_delay
         max_requests_per_session 0 cache_enabled).

Definition _get_cache_key (url : string) : string := MD5.hexdigest url.

(** [self.cache_dir / f"{cache_key}.json"] *)
Definition cache_file (url : string) : string :=
  (_get_cache_key url ++ ".json")%string.

Definition ttl : Z := Py.hours 24.

(** Object and world together form the state of a method call. *)
Definition St : Type := SafeScraper * World.

Definition get_self : M St SafeScraper := fun st => (Returned (fst st), st).
Definition set_request_count (n : Z) : M St unit :=
  fun st => (Returned tt, (with_request_count (fst st) n, snd st)).
Definition lift {A} (c : M World A) : M St A :=
  fun st => match c (snd st) with (r, w') => (r, (fst st, w')) end.

Definition _get_cached_response (url : string) : M St (option string) :=
  fun st =>
    let (self, w) := st in
    if negb (cache_enabled self) then (Returned None, st)
    else
      match files w !! cache_file url with
      | None => (Returned None, st)              (* not cache_file.exists() *)
      | Some Unreadable => (Returned None, st)   (* except Exception *)
      | Some (CacheJson _ html cached_time) =>
          if now w - cached_time >? ttl then (Returned None, st)
          else (Returned (Some html), st)
      end.

Definition _save_to_cache (env : Env) (url html : string) : M St unit :=
  fun st =>
    let (self, w) := st in
    if negb (cache_enabled self) then (Returned tt, st)
    else if open_for_write env (cache_file url) then
      (Returned tt,
       (self,
        mkWorld (now w) (requests w) (sleeps w) (draws w)
          (<[cache_file url := CacheJson url html (now w)]> (files w))))
    else (Returned tt, st).                      (* except Exception: warn *)

Definition fetch_page (env : Env) (url : string) : M St (option string) :=
  do self <- get_self;
  (* Check request limit *)
  if request_count self >=? max_requests self then ret None
  else
    (* Check cache first *)
    do cached_html <- _get_cached_response url;
    if Py.truthy cached_html then ret cached_html
    else
      (* Random delay to appear more human-like *)
      do actual_delay <- lift (uniform env (min_delay self) (max_delay self));
      do_ (if request_count self >? 0 then lift (sleep actual_delay)
           else ret tt);
      (* Fetch page using parent class method *)
      do html <- lift (WebScraperFetch.fetch_page env (base self) url);
      if Py.truthy html then
        do_ set_request_count (request_count self + 1);
        do_ _save_to_cache env url (default "" html);
        ret html
      else ret html.

(** A session: calls of [fetch_page] on one scraper, each after some
    time [d] has passed; a caller may go on after an exception. *)
Fixpoint session (env : Env) (calls : list (Z * string)) (st : St)
    : list (Outcome (option string)) * St :=
  match calls with
  | [] => ([], st)
  | (d, url) :: rest =>
      let (r, st1) := fetch_page env url (fst st, elapse d (snd st)) in
      let (rs, st2) := session env rest st1 in
      (r :: rs, st2)
  end.

(** When the cache entry of [url], if there is a readable one, was
    captured. *)
Definition captured_at (w : World) (url : string) : option Z :=
  match files w !! cache_file url with
  | Some (CacheJson _ _ cached_time) => Some cached_time
  | _ => None
  end.

(** The instant [t] lies in the 24-hour window of the entry of [url]. *)
Definition within_ttl (w : World) (url : string) (t : Z) : Prop :=
  forall cached_time, captured_at w url = Some cached_time ->
                      t - cached_time <= ttl.

(** How one call of [fetch_page] ends. *)
Inductive FetchEnd (env : Env) (url : string) (self : SafeScraper) (w : World)
    : Outcome (option string) -> SafeScraper -> World -> Prop :=
| EndBudget :
    max_requests self <= request_count self ->
    FetchEnd env url self w (Returned None) self w
| EndCacheHit html :
    request_count self < max_requests self ->
    _get_cached_response url (self, w) = (Returned (Some html), (self, w)) ->
    html <> "" ->
    FetchEnd env url self w (Returned (Some html)) self w
| EndNoContent r w' :
    request_count self < max_requests self ->
    (forall html, r = Returned (Some html) -> html = "") ->
    files w' = files w ->
    FetchEnd env url self w r self w'
| EndFetched html w' :
    request_count self < max_requests self ->
    html <> "" ->
    (cache_enabled self = true ->
     open_for_write env (cache_file url) = true ->
     files w' !! cache_file url = Some (CacheJson url html (now w'))) ->
    FetchEnd env url self w (Returned (Some html))
      (with_request_count self (request_count self + 1)) w'.

Definition get_session_stats (self : SafeScraper) : SessionStats :=
  mkSessionStats (request_count self) (max_requests self - request_count self)
    (cache_enabled self) (min_delay self) (max_delay self).

End SafeScraperImpl.

(** ** Python string methods used by the extractor *)

Module PyStr.

(** A [str] is held as its UTF-8 bytes.  A byte of the form 10xxxxxx
    continues the character begun before it; [chars] cuts a string into
    its characters, each with its bytes. *)
Definition is_continuation (c : ascii) : bool :=
  let n := nat_of_ascii c in
  ((128 <=? n) && (n <=? 191))%nat.

Fixpoint chars_go (cur : option string) (s : string) : list string :=
  match s with
  | EmptyString =>
      match cur with
      | Some ch => [ch]
      | None => []
      end
  | String c s' =>
      match cur with
      | Some ch =>
          if is_continuation c then chars_go (Some (ch ++ String c "")%string) s'
          else ch :: chars_go (Some (String c "")) s'
      | None => chars_go (Some (String c "")) s'
      end
  end.

Definition chars (s : string) : list string := chars_go None s.

(** [len(s)]: the number of characters. *)
Definition len (s : string) : Z := Z.of_nat (length (chars s)).

(** [''.join(parts)] *)
Definition concat (parts : list string) : string :=
  fold_right String.append "" parts.

(** The character with the given UTF-8 bytes. *)
Definition utf8 (bytes : list nat) : string :=
  string_of_list_ascii (map ascii_of_nat bytes).

(** The characters for which [str.isspace] holds: U+0009..U+000D,
    U+001C..U+0020, U+0085, U+00A0, U+1680, U+2000..U+200A, U+2028,
    U+2029, U+202F, U+205F and U+3000. *)
Definition whitespace : list string :=
  map utf8
    [ [9]; [10]; [11]; [12]; [13]; [28]; [29]; [30]; [31]; [32];
      [194; 133]; [194; 160]; [225; 154; 128];
      [226; 128; 128]; [226; 128; 129]; [226; 128; 130]; [226; 128; 131];
      [226; 128; 132]; [226; 128; 133]; [226; 128; 134]; [226; 128; 135];
      [226; 128; 136]; [226; 128; 137]; [226; 128; 138];
      [226; 128; 168]; [226; 128; 169]; [226; 128; 175]; [226; 129; 159];
      [227; 128; 128] ]%nat.

Definition is_space (ch : string) : bool := existsb (String.eqb ch) whitespace.

(** The characters at which [str.splitlines] cuts: U+000A..U+000D,
    U+001C..U+001E, U+0085, U+2028 and U+2029. *)
Definition linebreaks : list string :=
  map utf8
    [ [10]; [11]; [12]; [13]; [28]; [29]; [30];
      [194; 133]; [226; 128; 168]; [226; 128; 169] ]%nat.

Definition is_linebreak (ch : string) : bool :=
  existsb (String.eqb ch) linebreaks.

Fixpoint lstrip_chars (cs : list string) : list string :=
  match cs with
  | [] => []
  | ch :: cs' => if is_space ch then lstrip_chars cs' else cs
  end.

Definition lstrip (s : string) : string := concat (lstrip_chars (chars s)).

Definition rstrip (s : string) : string :=
  concat (rev (lstrip_chars (rev (chars s)))).

(** [s.strip()] *)
Definition strip (s : string) : string :=
  concat (rev (lstrip_chars (rev (lstrip_chars (chars s))))).

(** The bytes of [s] in reverse order. *)
Definition reverse (s : string) : string :=
  string_of_list_ascii (rev (list_ascii_of_string s)).

(** [sep.join(parts)] *)
Fixpoint join (sep : string) (parts : list string) : string :=
  match parts with
  | [] => ""
  | [x] => x
  | x :: rest => (x ++ sep ++ join sep rest)%string
  end.

(** [s.split(sep)] for a non-empty [sep]: [skip] counts the bytes of an
    already recognised separator still to be passed over, [acc] is the
    piece being read. *)
Fixpoint split_go (sep : string) (skip : nat) (acc : string) (s : string)
    : list string :=
  match s with
  | EmptyString => [acc]
  | String c s' =>
      match skip with
      | Datatypes.S k => split_go sep k acc s'
      | O =>
          if String.prefix sep s
          then acc :: split_go sep (Nat.pred (String.length sep)) "" s'
          else split_go sep 0 (acc ++ String c "")%string s'
      end
  end.

Definition split (sep s : string) : list string := split_go sep 0 "" s.

(** [s.splitlines()]: a carriage return followed by a line feed is one
    line break. *)
Fixpoint splitlines_go (acc : string) (cs : list string) : list string :=
  match cs with
  | [] => if String.eqb acc "" then [] else [acc]
  | ch :: cs' =>
      if is_linebreak ch then
        acc ::
        match cs' with
        | ch' :: cs'' =>
            if String.eqb ch (utf8 [13%nat]) && String.eqb ch' (utf8 [10%nat])
            then splitlines_go "" cs''
            else splitlines_go "" cs'
        | [] => []
        end
      else splitlines_go (acc ++ ch)%string cs'
  end.

Definition splitlines (s : string) : list string := splitlines_go "" (chars s).

(** [s.split()]: the maximal runs of characters that are not white
    space; these are also the matches of the pattern [\S+]. *)
Fixpoint split_ws_go (acc : string) (cs : list string) : list string :=
  match cs with
  | [] => if String.eqb acc "" then [] else [acc]
  | ch :: cs' =>
      if is_space ch then
        if String.eqb acc "" then split_ws_go "" cs'
        else acc :: split_ws_go "" cs'
      else split_ws_go (acc ++ ch)%string cs'
  end.

Definition split_ws (s : string) : list string := split_ws_go "" (chars s).

Definition nonempty (s : string) : bool := negb (String.eqb s "").

(** Whether every character of [s] is an ASCII character. *)
Definition is_ascii (s : string) : bool :=
  forallb (fun c => (nat_of_ascii c <? 128)%nat) (list_ascii_of_string s).

Definition lower_ascii_char (c : ascii) : ascii :=
  let n := nat_of_ascii c in
  if ((65 <=? n) && (n <=? 90))%nat then ascii_of_nat (n + 32) else c.

(** [s.lower()] for an ASCII [s]. *)
Fixpoint lower_ascii (s : string) : string :=
  match s with
  | EmptyString => EmptyString
  | String c s' => String (lower_ascii_char c) (lower_ascii s')
  end.

End PyStr.

(** ** The parsed document (BeautifulSoup) *)

(** The class of a string of the document: [NavigableString] itself or
    one of its subclasses, as the tree builder chose it (a string inside
    [script], [style], [template], [rt] or [rp] gets the container class
    of that tag; a comment, a CDATA section, a declaration, a doctype and
    a processing instruction have classes of their own). *)
Inductive StringClass :=
| NavigableString | CData | Comment | Declaration | Doctype
| ProcessingInstruction | Script | Stylesheet | TemplateString
| RubyTextString | RubyParenthesisString.

(** An attribute is held with its value as written in the page. *)
#[warnings="-register-all"]
Inductive Node :=
| Text (class : StringClass) (s : string)
| Element (name : string) (attrs : list (string * string)) (children : list Node).

(** A [BeautifulSoup] object: the top-level nodes of the document.  The
    object is mutable; methods that change it return the new contents. *)
Definition Soup : Type := list Node.

Module Bs4.

Definition class_eqb (c d : StringClass) : bool :=
  match c, d with
  | NavigableString, NavigableString | CData, CData | Comment, Comment
  | Declaration, Declaration | Doctype, Doctype
  | ProcessingInstruction, ProcessingInstruction | Script, Script
  | Stylesheet, Stylesheet | TemplateString, TemplateString
  | RubyTextString, RubyTextString
  | RubyParenthesisString, RubyParenthesisString => true
  | _, _ => false
  end.

(** [tag.get(key)] *)
Fixpoint get (attrs : list (string * string)) (key : string) : option string :=
  match attrs with
  | [] => None
  | (k, v) :: rest => if String.eqb k key then Some v else get rest key
  end.

Definition attrs_of (n : Node) : list (string * string) :=
  match n with
  | Text _ _ => []
  | Element _ attrs _ => attrs
  end.

(** Elements satisfying [p], in document order, nested ones included. *)
Fixpoint find_all_node (p : string -> list (string * string) -> bool)
    (n : Node) : list Node :=
  match n with
  | Text _ _ => []
  | Element name attrs children =>
      (if p name attrs then [n] else [])
        ++ flat_map (find_all_node p) children
  end.

Definition find_all (p : string -> list (string * string) -> bool)
    (soup : Soup) : list Node :=
  flat_map (find_all_node p) soup.

Definition find (p : string -> list (string * string) -> bool)
    (soup : Soup) : option Node :=
  head (find_all p soup).

(** [soup.find_all(tag)] / [soup.find(tag)] *)
Definition named (tag : string) : string -> list (string * string) -> bool :=
  fun name _ => String.eqb name tag.

(** The attributes of the HTML tree builders whose value is a list of
    white-space separated values ([cdata_list_attributes]). *)
Definition multi_valued (tag key : string) : bool :=
  existsb (String.eqb key) ["class"; "accesskey"; "dropzone"]
  || existsb
       (fun entry => String.eqb tag (fst entry) && String.eqb key (snd entry))
       [("a", "rel"); ("a", "rev"); ("link", "rel"); ("link", "rev");
        ("td", "headers"); ("th", "headers"); ("form", "accept-charset");
        ("object", "archive"); ("area", "rel"); ("icon", "sizes");
        ("iframe", "sandbox"); ("output", "for")].

(** Whether the attribute [key] of a [tag], written [raw] in the page,
    matches the string [value] of a search: a list-valued attribute
    matches by any of its values, or by its values joined with spaces. *)
Definition attr_matches (tag key value raw : string) : bool :=
  if multi_valued tag key then
    let values := PyStr.split_ws raw in
    existsb (String.eqb value) values
    || String.eqb (PyStr.join " " values) value
  else String.eqb raw value.

(** [soup.find(tag, attrs={key: value})] *)
Definition named_with (tag key value : string)
    : string -> list (string * string) -> bool :=
  fun name attrs =>
    String.eqb name tag &&
    match get attrs key with
    | Some raw => attr_matches name key value raw
    | None => false
    end.

(** [soup.find_all(tag, key=True)] *)
Definition named_having (tag key : string)
    : string -> list (string * string) -> bool :=
  fun name attrs =>
    String.eqb name tag &&
    match get attrs key with Some _ => true | None => false end.

(** The class of the strings a tag called [name] holds, for the tags
    that hold strings of a class of their own ([string_containers]). *)
Definition string_container (name : string) : option StringClass :=
  if String.eqb name "rt" then Some RubyTextString
  else if String.eqb name "rp" then Some RubyParenthesisString
  else if String.eqb name "style" then Some Stylesheet
  else if String.eqb name "script" then Some Script
  else if String.eqb name "template" then Some TemplateString
  else None.

(** The classes of string [get_text] collects below a tag called
    [name] ([interesting_string_types]). *)
Definition interesting (name : string) (c : StringClass) : bool :=
  match string_container name with
  | Some container => class_eqb c container
  | None => class_eqb c NavigableString || class_eqb c CData
  end.

(** The strings of the classes [p] at and below a node, in document
    order. *)
Fixpoint all_strings (p : StringClass -> bool) (n : Node) : list string :=
  match n with
  | Text c s => if p c then [s] else []
  | Element _ _ children => flat_map (all_strings p) children
  end.

(** The strings [tag.get_text] collects: those below the tag that are of
    the classes interesting for it. *)
Definition strings_node (n : Node) : list string :=
  match n with
  | Text _ s => [s]
  | Element name _ children =>
      flat_map (all_strings (interesting name)) children
  end.

(** The same for the document object, whose name is ['[document]']. *)
Definition strings (soup : Soup) : list string :=
  flat_map (all_strings (interesting "[document]")) soup.

(** [get_text(separator=sep, strip=True)]: every string stripped, the
    empty ones dropped. *)
Definition get_text_strip (sep : string) (ss : list string) : string :=
  PyStr.join sep (filter (fun s => PyStr.nonempty s) (map PyStr.strip ss)).

(** [for element in soup.find_all(tag): element.decompose()]: every
    element called [tag] leaves the tree with all that is below it. *)
Fixpoint decompose_node (tag : string) (n : Node) : list Node :=
  match n with
  | Text c s => [Text c s]
  | Element name attrs children =>
      if String.eqb name tag then []
      else [Element name attrs (flat_map (decompose_node tag) children)]
  end.

Definition decompose_all (tag : string) (soup : Soup) : Soup :=
  flat_map (decompose_node tag) soup.

(** Whether an element called [tag] occurs in the tree:
    [soup.find_all(tag)] is not empty. *)
Fixpoint has_tag (tag : string) (n : Node) : bool :=
  match n with
  | Text _ _ => false
  | Element name _ children =>
      String.eqb name tag || existsb (has_tag tag) children
  end.

Definition occurs (tag : string) (soup : Soup) : bool :=
  existsb (has_tag tag) soup.

End Bs4.

(** ** web-scraper.py: extraction *)

(** What [urllib.parse], [set], the HTML parser and the interpreter's
    Unicode tables contribute.  [urljoin] and [urlparse] raise
    [ValueError] on some inputs (a bracketed host that is no IPv6
    address, for one): [None] stands for that. *)
Record HtmlLib := mkHtmlLib {
  urljoin : string -> string -> option string;
  netloc : string -> option string;         (* [urlparse(url).netloc] *)
  list_of_set : list string -> list string; (* [list(set(xs))] *)
  parse : string -> Soup;                   (* [BeautifulSoup(html, 'lxml')] *)
  str_lower : string -> string   (* [s.lower()] for [s] with non-ASCII characters *)
}.

Record Metadata := mkMetadata {
  md_url : string;
  md_title : string;
  md_description : string;
  md_keywords : list string;
  md_og_title : string;
  md_og_description : string;
  md_og_image : string;
  md_canonical_url : string;
  md_language : string;
  md_author : string
}.

Record Image := mkImage {
  img_src : string;
  img_alt : string;
  img_title : string
}.

(** The extracted fields of the dictionary built by [scrape_page]. *)
Record Extracted := mkExtracted {
  ex_metadata : Metadata;
  ex_links : list string;
  ex_internal_links : list string;
  ex_images : list Image;
  ex_text_content : string
}.

Inductive ScrapeResult :=
| ScrapeError (error url : string)
| Scraped (url : string) (data : Extracted) (timestamp : Z).

Module WebScraperExtract.

(** [tag and tag.get(key)] used as a condition, then [tag[key]]:
    the attribute when the tag exists and the attribute is non-empty. *)
Definition attr_if_truthy (tag : option Node) (key : string) (dflt : string)
    : string :=
  match tag with
  | Some n =>
      match Bs4.get (Bs4.attrs_of n) key with
      | Some v => if PyStr.nonempty v then v else dflt
      | None => dflt
      end
  | None => dflt
  end.

Definition meta_content (soup : Soup) (key value : string) : string :=
  attr_if_truthy (Bs4.find (Bs4.named_with "meta" key value) soup) "content" "".

Definition extract_metadata (soup : Soup) (url : string) : Metadata :=
  let title :=
    match Bs4.find (Bs4.named "title") soup with
    | Some t => Bs4.get_text_strip "" (Bs4.strings_node t)
    | None => ""
    end in
  let keywords :=
    let c := meta_content soup "name" "keywords" in
    if PyStr.nonempty c then map PyStr.strip (PyStr.split "," c) else [] in
  mkMetadata url title
    (meta_content soup "name" "description")
    keywords
    (meta_content soup "property" "og:title")
    (meta_content soup "property" "og:description")
    (meta_content soup "property" "og:image")
    (attr_if_truthy (Bs4.find (Bs4.named_with "link" "rel" "canonical") soup)
       "href" "")
    (attr_if_truthy (Bs4.find (Bs4.named "html") soup) "lang" "")
    (meta_content soup "name" "author").

(** The [href] values of [soup.find_all('a', href=True)]. *)
Definition href_of (attrs : list (string * string)) : string :=
  default "" (Bs4.get attrs "href").

Definition anchor_hrefs (soup : Soup) : list string :=
  map (fun a_tag => href_of (Bs4.attrs_of a_tag))
      (Bs4.find_all (Bs4.named_having "a" "href") soup).

(** The loop of [extract_links] over the anchors still to be visited;
    [links] is the list built so far. *)
Fixpoint links_loop (lib : HtmlLib) (base_url base_domain : string)
    (internal_only : bool) (hrefs : list string) (links : list string)
    : Outcome (list string) :=
  match hrefs with
  | [] => Returned links
  | href :: rest =>
      match urljoin lib base_url href with
      | None => Raised ValueError
      | Some absolute_url =>
          if internal_only then
            match netloc lib absolute_url with
            | None => Raised ValueError
            | Some link_domain =>
                links_loop lib base_url base_domain internal_only rest
                  (if String.eqb link_domain base_domain
                   then links ++ [absolute_url] else links)
            end
          else
            links_loop lib base_url base_domain internal_only rest
              (links ++ [absolute_url])
      end
  end.

(** Whether the loop passes [href] without raising: [urljoin] accepts
    it and, for internal links, [urlparse] accepts the joined URL. *)
Definition resolves (lib : HtmlLib) (base_url : string) (internal_only : bool)
    (href : string) : bool :=
  match urljoin lib base_url href with
  | None => false
  | Some absolute_url =>
      if internal_only
      then match netloc lib absolute_url with Some _ => true | None => false end
      else true
  end.

Definition extract_links (lib : HtmlLib) (soup : Soup) (base_url : string)
    (internal_only : bool) : Outcome (list string) :=
  match netloc lib base_url with
  | None => Raised ValueError
  | Some base_domain =>
      match links_loop lib base_url base_domain internal_only
              (anchor_hrefs soup) [] with
      | Returned links => Returned (list_of_set lib links)
      | Raised e => Raised e
      end
  end.

(** The [src] handed to [urljoin] for an [img] tag with these attributes. *)
Definition src_of (attrs : list (string * string)) : string :=
  default "" (Bs4.get attrs "src").

(** The loop of [extract_images]. *)
Fixpoint images_loop (lib : HtmlLib) (base_url : string) (img_tags : list Node)
    (images : list Image) : Outcome (list Image) :=
  match img_tags with
  | [] => Returned images
  | img_tag :: rest =>
      let attrs := Bs4.attrs_of img_tag in
      match urljoin lib base_url (src_of attrs) with
      | None => Raised ValueError
      | Some src =>
          images_loop lib base_url rest
            (images ++ [mkImage src (default "" (Bs4.get attrs "alt"))
                                (default "" (Bs4.get attrs "title"))])
      end
  end.

Definition extract_images (lib : HtmlLib) (soup : Soup) (base_url : string)
    : Outcome (list Image) :=
  images_loop lib base_url (Bs4.find_all (Bs4.named "img") soup) [].

Definition default_strip_tags : list string :=
  ["script"; "style"; "nav"; "footer"; "header"; "aside"].

(** The loop of [extract_text_content] over [strip_tags]. *)
Definition strip (strip_tags : list string) (soup : Soup) : Soup :=
  fold_left (fun s tag => Bs4.decompose_all tag s) strip_tags soup.

(** [extract_text_content]: changes the document it is given; the
    result is the text together with the document as it is left. *)
Definition extract_text_content (soup : Soup) (strip_tags : option (list string))
    : string * Soup :=
  let strip_tags := default default_strip_tags strip_tags in
  (* Remove unwanted tags *)
  let soup' := strip strip_tags soup in
  (* Get text *)
  let text := Bs4.get_text_strip " " (Bs4.strings soup') in
  (* Clean up whitespace *)
  let lines := map PyStr.strip (PyStr.splitlines text) in
  let chunks :=
    flat_map (fun line => map PyStr.strip (PyStr.split "  " line)) lines in
  (PyStr.join " " (filter (fun chunk => PyStr.nonempty chunk) chunks), soup').

(** The extraction calls of [scrape_page], in the order in which the
    dictionary literal evaluates them, on one document object: the
    outcome, and the document as it is left (untouched when one of the
    calls before [extract_text_content] raises). *)
Definition extract_all (lib : HtmlLib) (url : string) (soup : Soup)
    : Outcome Extracted * Soup :=
  let metadata := extract_metadata soup url in
  match extract_links lib soup url false with
  | Raised e => (Raised e, soup)
  | Returned links =>
      match extract_links lib soup url true with
      | Raised e => (Raised e, soup)
      | Returned internal_links =>
          match extract_images lib soup url with
          | Raised e => (Raised e, soup)
          | Returned images =>
              let '(text_content, soup') := extract_text_content soup None in
              (Returned (mkExtracted metadata links internal_links images
                           text_content), soup')
          end
      end
  end.

Definition scrape_page (env : Env) (lib : HtmlLib) (self : WebScraper)
    (url : string) : M World ScrapeResult :=
  do html <- WebScraperFetch.fetch_page env self url;
  if negb (Py.truthy html) then ret (ScrapeError "Failed to fetch page" url)
  else
    let soup := parse lib (default "" html) in
    match fst (extract_all lib url soup) with
    | Raised e => raise e
    | Returned data =>
        do t <- get_now;
        ret (Scraped url data t)
    end.

End WebScraperExtract.

(** ** vpn-integration.py *)

Record VPNConfig := mkVPNConfig {
  protocol : string;
  host : string;
  port : Z;
  username : option string;
  password : option string;
  enabled : bool;
  name : option string
}.

Record VPNManager := mkVPNManager {
  vpn_configs : list VPNConfig;
  current_vpn_index : Z;
  active_vpn : option VPNConfig
}.

Module VPNManagerImpl.

(** [VPNManager()] without a configuration file. *)
Definition init : VPNManager := mkVPNManager [] 0 None.

Definition add_vpn (vpn : VPNConfig) : M VPNManager unit :=
  fun self =>
    if enabled vpn then
      let configs := vpn_configs self ++ [vpn] in
      (Returned tt,
       mkVPNManager configs (current_vpn_index self)
         (match active_vpn self with
          | None => Some vpn
          | Some a => Some a
          end))
    else (Returned tt, self).

(** The loop and the final assignment of [load_config], on the entries
    read from the file. *)
Definition load_config (entries : list VPNConfig) : M VPNManager unit :=
  fun self =>
    let configs := vpn_configs self ++ filter (fun v => enabled v) entries in
    (Returned tt,
     mkVPNManager configs (current_vpn_index self)
       (match configs with
        | [] => active_vpn self
        | first :: _ => Some first
        end)).

Definition rotate_vpn : M VPNManager (option VPNConfig) :=
  fun self =>
    match vpn_configs self with
    | [] => (Returned None, self)
    | _ :: _ =>
        let i := Py.mod_ (current_vpn_index self + 1)
                         (Z.of_nat (length (vpn_configs self))) in
        let self1 := mkVPNManager (vpn_configs self) i (active_vpn self) in
        match Py.index (vpn_configs self1) (current_vpn_index self1) with
        | None => (Raised IndexError, self1)
        | Some v =>
            let self2 := mkVPNManager (vpn_configs self1) i (Some v) in
            (Returned (active_vpn self2), self2)
        end
    end.

(** [n] calls of [rotate_vpn] in a row, then a look at [active_vpn]. *)
Fixpoint rotate_times (n : nat) : M VPNManager (option VPNConfig) :=
  match n with
  | O => fun self => (Returned (active_vpn self), self)
  | Datatypes.S n' => do_ rotate_vpn; rotate_times n'
  end.

(** The element under the cursor. *)
Definition at_cursor (self : VPNManager) : option VPNConfig :=
  Py.index (vpn_configs self) (current_vpn_index self).

End VPNManagerImpl.

(** ** competitor-intelligence.py: monitor_changes *)

(** Python values as they occur in the analysis dictionaries.  A [dict]
    keeps its items in insertion order. *)
#[warnings="-register-all"]
Inductive Value :=
| VNone
| VBool (b : bool)
| VInt (n : Z)
| VStr (s : string)
| VList (items : list Value)
| VDict (items : list (string * Value)).

Definition Dict : Type := list (string * Value).

Module PyDict.

Fixpoint lookup (d : Dict) (key : string) : option Value :=
  match d with
  | [] => None
  | (k, v) :: rest => if String.eqb k key then Some v else lookup rest key
  end.

(** [key in d] *)
Definition contains (d : Dict) (key : string) : bool :=
  match lookup d key with Some _ => true | None => false end.

(** [v.get(key, dflt)]: only a [dict] has the method. *)
Definition get (v : Value) (key : string) (dflt : Value) : Outcome Value :=
  match v with
  | VDict d => Returned (default dflt (lookup d key))
  | _ => Raised AttributeError
  end.

(** [a == b] *)
Fixpoint eq (a b : Value) : bool :=
  match a, b with
  | VNone, VNone => true
  | VBool x, VBool y => Bool.eqb x y
  | VBool x, VInt y | VInt y, VBool x => (if x then 1 else 0) =? y
  | VInt x, VInt y => x =? y
  | VStr x, VStr y => String.eqb x y
  | VList xs, VList ys =>
      (fix go (xs ys : list Value) : bool :=
         match xs, ys with
         | [], [] => true
         | x :: xs', y :: ys' => eq x y && go xs' ys'
         | _, _ => false
         end) xs ys
  | VDict d1, VDict d2 =>
      (length d1 =? length d2)%nat &&
      (fix go (d : list (string * Value)) : bool :=
         match d with
         | [] => true
         | (k, v) :: d' =>
             match lookup d2 k with
             | Some v' => eq v v'
             | None => false
             end && go d'
         end) d1
  | _, _ => false
  end.

End PyDict.

(** What [monitor_changes] obtains from the rest of the service:
    [full_analysis], which catches every exception of the analysis and
    returns its [results] dictionary, and the rendering of a timestamp. *)
Record Analysis := mkAnalysis {
  full_analysis : string -> World -> Dict * World;
  isoformat : Z -> string
}.

Module CompetitorIntelligence.

(** [d.get(k1, {}).get(k2, {}).get(k3, dflt)] *)
Definition get3 (d : Dict) (k1 k2 k3 : string) (dflt : Value) : M World Value :=
  fun w =>
    match PyDict.get (VDict d) k1 (VDict []) with
    | Raised e => (Raised e, w)
    | Returned v1 =>
        match PyDict.get v1 k2 (VDict []) with
        | Raised e => (Raised e, w)
        | Returned v2 => (PyDict.get v2 k3 dflt, w)
        end
    end.

(** [d.get(k1, {}).get(k2, dflt)] *)
Definition get2 (d : Dict) (k1 k2 : string) (dflt : Value) : M World Value :=
  fun w =>
    match PyDict.get (VDict d) k1 (VDict []) with
    | Raised e => (Raised e, w)
    | Returned v1 => (PyDict.get v1 k2 dflt, w)
    end.

Definition change_entry (field : string) (old_value new_value : Value) : Value :=
  VDict [("field", VStr field); ("old_value", old_value);
         ("new_value", new_value)].

(** [not previous_data]: [None] and the empty dictionary. *)
Definition falsy (previous_data : option Dict) : bool :=
  match previous_data with
  | None | Some [] => true
  | Some (_ :: _) => false
  end.

Definition monitor_changes (an : Analysis) (url : string)
    (previous_data : option Dict) : M World Dict :=
  do current_data <- (fun w => let (d, w') := full_analysis an url w in
                               (Returned d, w'));
  if falsy previous_data then
    ret [("url", VStr url);
         ("message", VStr "No previous data for comparison");
         ("current_data", VDict current_data)]
  else
    let previous_data := default [] previous_data in
    do t <- get_now;
    (* Compare title *)
    do old_title <- get3 previous_data "seo_analysis" "title" "text" (VStr "");
    do new_title <- get3 current_data "seo_analysis" "title" "text" (VStr "");
    let changes1 :=
      if negb (PyDict.eq old_title new_title)
      then [change_entry "title" old_title new_title] else [] in
    (* Compare pricing *)
    do old_pricing <- get2 previous_data "pricing_info" "has_pricing_page"
                        (VBool false);
    do new_pricing <- get2 current_data "pricing_info" "has_pricing_page"
                        (VBool false);
    let changes2 :=
      if negb (PyDict.eq old_pricing new_pricing)
      then [change_entry "pricing_page" old_pricing new_pricing] else [] in
    let changes := (changes1 ++ changes2)%list in
    ret [("url", VStr url);
         ("timestamp", VStr (isoformat an t));
         ("changes_detected",
          VBool (match changes with [] => false | _ :: _ => true end));
         ("changes", VList changes)].

End CompetitorIntelligence.

(** ** The key derivation as the specification words it *)

Module SpecSide.

Fixpoint insert_sorted (x : string) (l : list string) : list string :=
  match l with
  | [] => [x]
  | y :: l' => if String.leb x y then x :: l else y :: insert_sorted x l'
  end.

Definition sort_strings (l : list string) : list string :=
  fold_right insert_sorted [] l.

(** The specification's normalized URL: scheme, host and path as they
    are, followed by the query parameters in sorted order.  The source
    has no counterpart; the definition only serves to state what the
    specification says of the cache key. *)
Definition normalized_url (url : string) : string :=
  match PyStr.split "?" url with
  | [] => url
  | [front] => front
  | front :: rest =>
      (front ++ "?" ++
       PyStr.join "&" (sort_strings (PyStr.split "&" (PyStr.join "?" rest))))%string
  end.

End SpecSide.

(** ** Concrete instances *)

Definition url_query_ab : string := "https://example.com/search?a=1&b=2".
Definition url_query_ba : string := "https://example.com/search?b=2&a=1".

Definition pool3 : list VPNConfig :=
  [ mkVPNConfig "http" "proxy-a.example.com" 8080 None None true (Some "A");
    mkVPNConfig "socks5" "proxy-b.example.com" 1080 None None true (Some "B");
    mkVPNConfig "https" "proxy-c.example.com" 443 None None true (Some "C") ].

Definition manager3 : VPNManager :=
  mkVPNManager pool3 1 (pool3 !! 1%nat).

(** The manager after [add_vpn(A)], [add_vpn(B)], [rotate_vpn()] and a
    [load_config] of a file that holds C: the pool is [A, B, C], the
    cursor is at B and the active endpoint is A. *)
Definition manager_reloaded : VPNManager :=
  match pool3 with
  | [a; b; c] =>
      snd (VPNManagerImpl.load_config [c]
             (snd (VPNManagerImpl.rotate_vpn
                     (snd (VPNManagerImpl.add_vpn b
                             (snd (VPNManagerImpl.add_vpn a VPNManagerImpl.init)))))))
  | _ => VPNManagerImpl.init
  end.

(** The environments and states used as concrete instances. *)
Definition page_html : string := "<html><title>Example</title></html>".
Definition page_url : string := "https://example.com/".

Definition env_serving : Env :=
  mkEnv (fun _ => true) (fun _ _ => HttpResponse 200 page_html)
        (fun _ a _ => a) (fun _ => true).

Definition world_empty : World := mkWorld 0 [] [] 0 ∅.

(** A world whose cache holds an entry for [page_url] captured one hour
    before the current instant. *)
Definition world_cached : World :=
  mkWorld (Py.hours 1) [] [] 0
    {[ SafeScraperImpl.cache_file page_url := CacheJson page_url page_html 0 ]}.

Definition scraper_fresh (limit : Z) : SafeScraper :=
  mkSafeScraper (mkWebScraper (Py.seconds 7) 30) (Py.seconds 5) (Py.seconds 10)
    limit 0 true.

Definition scraper_spent : SafeScraper :=
  SafeScraperImpl.with_request_count (scraper_fresh 1) 1.

(** A server that times out once and answers afterwards. *)
Definition env_recovering : Env :=
  mkEnv (fun _ => true)
        (fun n _ => match n with
                    | O => NetworkFailure Timeout
                    | _ => HttpResponse 200 page_html
                    end)
        (fun _ a _ => a) (fun _ => true).

Definition env_not_found : Env :=
  mkEnv (fun _ => true) (fun _ _ => HttpResponse 404 "Not Found")
        (fun _ a _ => a) (fun _ => true).

Definition env_unreachable : Env :=
  mkEnv (fun _ => true) (fun _ _ => NetworkFailure ConnectionError)
        (fun _ a _ => a) (fun _ => true).

Definition web_scraper : WebScraper := mkWebScraper (Py.seconds 1) 30.

Definition missing_url : string := "https://example.com/missing".

(** A stand-in for the library functions on the pages used as instances:
    every reference in them is absolute and on one host. *)
Definition lib_plain : HtmlLib :=
  mkHtmlLib (fun _ href => Some href) (fun _ => Some "example.com")
            (fun links => links) (fun _ => []) PyStr.lower_ascii.

(** [<html><head><title>Shop</title></head><body>
      <header><a href=...><img src=... alt="Logo"></a></header>
      <p>Welcome</p></body></html>] *)
Definition soup_with_header : Soup :=
  [ Element "html" [("lang", "en")]
      [ Element "head" [] [ Element "title" [] [Text NavigableString "Shop"] ];
        Element "body" []
          [ Element "header" []
              [ Element "a" [("href", "https://example.com/home")]
                  [ Element "img"
                      [("src", "https://example.com/logo.png"); ("alt", "Logo")]
                      [] ] ];
            Element "p" [] [Text NavigableString "Welcome"] ] ] ].

(** The same page without the header. *)
Definition soup_plain : Soup :=
  [ Element "html" [("lang", "en")]
      [ Element "head" [] [ Element "title" [] [Text NavigableString "Shop"] ];
        Element "body" []
          [ Element "a" [("href", "https://example.com/home")] [Text NavigableString "Home"];
            Element "p" [] [Text NavigableString "Welcome"] ] ] ].

(** [<body><a href="http://[">broken</a><p>Welcome</p></body>]: a page
    with a reference [urljoin] rejects (a bracketed host that is no IPv6
    address). *)
Definition soup_bad_href : Soup :=
  [ Element "body" []
      [ Element "a" [("href", "http://[")] [Text NavigableString "broken"];
        Element "p" [] [Text NavigableString "Welcome"] ] ].

(** A stand-in for the library functions that rejects this reference and
    parses every page into [soup_bad_href]. *)
Definition lib_strict : HtmlLib :=
  mkHtmlLib (fun _ href => if String.eqb href "http://[" then None else Some href)
            (fun url => if String.eqb url "http://[" then None
                        else Some "example.com")
            (fun links => links) (fun _ => soup_bad_href) PyStr.lower_ascii.

(** [<head><link rel="canonical nofollow" href="https://example.com/">
      <title>Shop</title><script>var x = 1;</script></head>
     <ul><li>(NBSP)Unlimited projects(NBSP)</li><li><script>track();</script>Short</li></ul>] *)
Definition soup_with_scripts : Soup :=
  [ Element "head" []
      [ Element "link"
          [("rel", "canonical nofollow"); ("href", "https://example.com/")] [];
        Element "title" [] [Text NavigableString "Shop"];
        Element "script" [] [Text Script "var x = 1;"] ];
    Element "ul" []
      [ Element "li" []
          [ Text NavigableString
              (PyStr.utf8 [194; 160]%nat ++ "Unlimited projects"
               ++ PyStr.utf8 [194; 160]%nat) ];
        Element "li" []
          [ Element "script" [] [Text Script "track();"];
            Text NavigableString "Short" ] ] ].

(** ** Auxiliary notions and instances for safe-scraper.py *)

(** The world [w] with the cache directory replaced by [f]. *)
Definition with_files (w : World) (f : gmap string CacheFile) : World :=
  mkWorld (now w) (requests w) (sleeps w) (draws w) f.

(** A computation on the world that neither reads nor writes the cache
    directory: run on any other directory it does the same and hands the
    directory back. *)
Definition files_blind {A} (c : M World A) : Prop :=
  forall w f, c (with_files w f) = (fst (c w), with_files (snd (c w)) f).

(** The same for a method of a scraper whose cache is disabled; the flag
    stays off. *)
Definition uncached_blind {A} (c : M SafeScraperImpl.St A) : Prop :=
  forall self w f,
    cache_enabled self = false ->
    c (self, with_files w f)
    = (fst (c (self, w)),
       (fst (snd (c (self, w))), with_files (snd (snd (c (self, w)))) f)) /\
    cache_enabled (fst (snd (c (self, w)))) = false.


(** A world whose cache file for [page_url] cannot be read. *)
Definition world_corrupt : World :=
  mkWorld (Py.hours 1) [] [] 0 {[ SafeScraperImpl.cache_file page_url := Unreadable ]}.

Definition scraper_uncached : SafeScraper :=
  mkSafeScraper (mkWebScraper (Py.seconds 7) 30) (Py.seconds 5) (Py.seconds 10)
    50 0 false.

(** A server that answers 200 with an empty body. *)
Definition env_empty_body : Env :=
  mkEnv (fun _ => true) (fun _ _ => HttpResponse 200 "")
        (fun _ a _ => a) (fun _ => true).

(** ** More Python string methods *)

Module PyStr2.

(** [s.lower()]: computed for a string of ASCII characters, taken from
    the interpreter's Unicode tables otherwise. *)
Definition lower (lib : HtmlLib) (s : string) : string :=
  if PyStr.is_ascii s then PyStr.lower_ascii s else str_lower lib s.

(** [sub in s] *)
Fixpoint contains (sub s : string) : bool :=
  String.prefix sub s ||
  match s with
  | EmptyString => false
  | String _ s' => contains sub s'
  end.

(** [s.rstrip('/')] *)
Definition rstrip_slash (s : string) : string :=
  PyStr.reverse
    ((fix drop (t : string) : string :=
        match t with
        | String "/" t' => drop t'
        | _ => t
        end) (PyStr.reverse s)).

End PyStr2.

(** ** Dictionaries with string values, in insertion order *)

Module StrDict.

(** [d[key] = value] *)
Fixpoint dict_set (d : list (string * string)) (key value : string)
    : list (string * string) :=
  match d with
  | [] => [(key, value)]
  | (k, v) :: rest =>
      if String.eqb k key then (k, value) :: rest
      else (k, v) :: dict_set rest key value
  end.

(** [d.get(key)] *)
Fixpoint dict_get (d : list (string * string)) (key : string) : option string :=
  match d with
  | [] => None
  | (k, v) :: rest => if String.eqb k key then Some v else dict_get rest key
  end.

(** [d.update(other)] *)
Definition update (d other : list (string * string)) : list (string * string) :=
  fold_left (fun acc kv => dict_set acc (fst kv) (snd kv)) other d.

End StrDict.

(** ** web-scraper.py: CompetitorAnalyzer *)

Record ContentAnalysis := mkContentAnalysis {
  word_count : Z;
  character_count : Z;
  paragraph_count : Z;
  link_count : Z;
  internal_link_count : Z;
  external_link_count : Z;
  image_count : Z
}.

Record HeadingCounts := mkHeadingCounts {
  h1_count : Z; h2_count : Z; h3_count : Z;
  h4_count : Z; h5_count : Z; h6_count : Z
}.

Inductive Platform := Facebook | Twitter | Linkedin | Instagram | Youtube.

Module CompetitorAnalyzerImpl.

Definition len {A} (l : list A) : Z := Z.of_nat (length l).

Definition _analyze_content (soup : Soup) (page_data : Extracted)
    : ContentAnalysis :=
  let text := ex_text_content page_data in
  let words := PyStr.split_ws text in
  mkContentAnalysis
    (len words)
    (PyStr.len text)
    (len (Bs4.find_all (Bs4.named "p") soup))
    (len (ex_links page_data))
    (len (ex_internal_links page_data))
    (len (ex_links page_data) - len (ex_internal_links page_data))
    (len (ex_images page_data)).

Definition _analyze_headings (soup : Soup) : HeadingCounts :=
  mkHeadingCounts
    (len (Bs4.find_all (Bs4.named "h1") soup))
    (len (Bs4.find_all (Bs4.named "h2") soup))
    (len (Bs4.find_all (Bs4.named "h3") soup))
    (len (Bs4.find_all (Bs4.named "h4") soup))
    (len (Bs4.find_all (Bs4.named "h5") soup))
    (len (Bs4.find_all (Bs4.named "h6") soup)).

Definition platform_key (p : Platform) : string :=
  match p with
  | Facebook => "facebook"
  | Twitter => "twitter"
  | Linkedin => "linkedin"
  | Instagram => "instagram"
  | Youtube => "youtube"
  end.

Definition platform_eqb (p q : Platform) : bool :=
  String.eqb (platform_key p) (platform_key q).

(** The [if]/[elif] chain of [_extract_social_links] on one [href]. *)
Definition classify (lib : HtmlLib) (href_raw : string) : option Platform :=
  let href := PyStr2.lower lib href_raw in
  if PyStr2.contains "facebook.com" href then Some Facebook
  else if PyStr2.contains "twitter.com" href || PyStr2.contains "x.com" href
       then Some Twitter
  else if PyStr2.contains "linkedin.com" href then Some Linkedin
  else if PyStr2.contains "instagram.com" href then Some Instagram
  else if PyStr2.contains "youtube.com" href then Some Youtube
  else None.

Definition social_links_init : list (string * string) :=
  [("facebook", ""); ("twitter", ""); ("linkedin", ""); ("instagram", "");
   ("youtube", "")].

(** The [href] values of [soup.find_all('a', href=True)]. *)
Definition anchor_hrefs (soup : Soup) : list string :=
  map (fun a_tag => default "" (Bs4.get (Bs4.attrs_of a_tag) "href"))
      (Bs4.find_all (Bs4.named_having "a" "href") soup).

Definition social_step (lib : HtmlLib) (social_links : list (string * string))
    (href_raw : string) : list (string * string) :=
  match classify lib href_raw with
  | Some p => StrDict.dict_set social_links (platform_key p) href_raw
  | None => social_links
  end.

(** Whether the chain files [href_raw] under platform [p]. *)
Definition filed_under (lib : HtmlLib) (p : Platform) (href_raw : string) : bool :=
  match classify lib href_raw with
  | Some q => platform_eqb p q
  | None => false
  end.

Definition _extract_social_links (lib : HtmlLib) (soup : Soup)
    : list (string * string) :=
  let social_links :=
    fold_left (social_step lib) (anchor_hrefs soup) social_links_init in
  (* {k: v for k, v in social_links.items() if v} *)
  List.filter (fun kv => PyStr.nonempty (snd kv)) social_links.

End CompetitorAnalyzerImpl.

(** [list(set(xs))] lists every element of [xs] once. *)
Definition lists_sets (lib : HtmlLib) : Prop :=
  forall l : list string,
    List.NoDup (list_of_set lib l) /\
    forall x, List.In x (list_of_set lib l) <-> List.In x l.

(** A library instance whose [list(set(xs))] keeps first occurrences. *)
Definition lib_dedup : HtmlLib :=
  mkHtmlLib (fun _ href => Some href)
            (fun url => Some (if PyStr2.contains "example.com" url
                              then "example.com" else "elsewhere"))
            (List.nodup string_dec) (fun _ => soup_with_header)
            PyStr.lower_ascii.

(** [<body><a href=".../a">A</a><a href="https://other.org/">O</a>
      <a href=".../a">again</a><p>One  two</p></body>] *)
Definition soup_links : Soup :=
  [ Element "body" []
      [ Element "a" [("href", "https://example.com/a")] [Text NavigableString "A"];
        Element "a" [("href", "https://other.org/")] [Text NavigableString "O"];
        Element "a" [("href", "https://example.com/a")] [Text NavigableString "again"];
        Element "p" [] [Text NavigableString "One  two"] ] ].

(** A page with three social anchors, two of them for the same platform. *)
Definition soup_social : Soup :=
  [ Element "body" []
      [ Element "a" [("href", "https://Twitter.com/first")] [Text NavigableString "t"];
        Element "a" [("href", "https://www.linkedin.com/company/acme")] [Text NavigableString "l"];
        Element "a" [("href", "https://x.com/second")] [Text NavigableString "x"];
        Element "a" [("href", "/about")] [Text NavigableString "About"] ] ].

(** ** [str(n)] for an integer *)

Module PyInt.

Definition digit_char (d : Z) : ascii := ascii_of_nat (48 + Z.to_nat d).

(** Decimal digits of [n >= 0], most significant first, in front of
    [acc]; [fuel] bounds the number of digits. *)
Fixpoint digits (fuel : nat) (n : Z) (acc : string) : string :=
  match fuel with
  | O => acc
  | Datatypes.S fuel' =>
      let acc' := String (digit_char (n mod 10)) acc in
      if n / 10 =? 0 then acc' else digits fuel' (n / 10) acc'
  end.

Definition str (n : Z) : string :=
  if n <? 0 then String "-" (digits (Datatypes.S (Z.to_nat (Z.log2 (- n)))) (- n) "")
  else digits (Datatypes.S (Z.to_nat (Z.log2 n))) n "".

End PyInt.

(** ** vpn-integration.py: loading, proxies, probing, sessions *)

(** One entry of the ['vpns'] list of the configuration file, as parsed
    from JSON: a key that is absent is [None]. *)
Record RawEntry := mkRawEntry {
  raw_protocol : option string;
  raw_host : option string;
  raw_port : option Z;
  raw_username : option string;
  raw_password : option string;
  raw_enabled : option bool;
  raw_name : option string
}.

(** The answer of the IP echo service to a probe, or the text of the
    exception the probe ended with. *)
Inductive ProbeResponse :=
| ProbeAnswer (status_code : Z) (origin : option string) (latency_ms : Z)
| ProbeException (message : string).

Inductive TestResult :=
| TestSuccess (vpn_name : option string) (ip_address : option string)
              (latency_ms : Z) (protocol_used : string)
| TestFailure (error : string).

(** [probe_get n proxies]: what [requests.get('https://httpbin.org/ip',
    proxies=proxies, timeout=10)] and the reading of its JSON body give
    when [n] requests came before. *)
Record ProbeEnv := mkProbeEnv {
  probe_get : nat -> list (string * string) -> ProbeResponse
}.

Inductive PoolOp :=
| OpAdd (vpn : VPNConfig)
| OpLoad (file : option (list RawEntry))
| OpRotate.

Module VPNManagerMore.

(** The [VPNConfig(...)] call in the loop of [load_config]; [None] when a
    required key is missing ([KeyError]). *)
Definition build (vpn_data : RawEntry) : option VPNConfig :=
  match raw_protocol vpn_data, raw_host vpn_data, raw_port vpn_data with
  | Some protocol, Some host, Some port =>
      Some (mkVPNConfig protocol host port
              (raw_username vpn_data) (raw_password vpn_data)
              (default true (raw_enabled vpn_data))
              (Some (default (host ++ ":" ++ PyInt.str port)%string
                             (raw_name vpn_data))))
  | _, _, _ => None
  end.

(** The [for] loop of [load_config]: the pool after the loop, and whether
    the loop ran to its end ([false]: an entry raised). *)
Fixpoint load_loop (entries : list RawEntry) (configs : list VPNConfig)
    : list VPNConfig * bool :=
  match entries with
  | [] => (configs, true)
  | vpn_data :: rest =>
      match build vpn_data with
      | None => (configs, false)
      | Some vpn =>
          load_loop rest (if enabled vpn then configs ++ [vpn] else configs)
      end
  end.

(** [load_config]: [file] is the ['vpns'] list of the file, or [None]
    when the file cannot be opened or parsed.  Every exception ends in
    the handler, which only logs. *)
Definition load_config_file (file : option (list RawEntry)) : M VPNManager unit :=
  fun self =>
    match file with
    | None => (Returned tt, self)
    | Some entries =>
        match load_loop entries (vpn_configs self) with
        | (configs, false) =>
            (Returned tt,
             mkVPNManager configs (current_vpn_index self) (active_vpn self))
        | (configs, true) =>
            (Returned tt,
             mkVPNManager configs (current_vpn_index self)
               (match configs with
                | [] => active_vpn self
                | first :: _ => Some first
                end))
        end
    end.

(** [VPNManager(config_file)] *)
Definition init_from (file : option (list RawEntry)) : VPNManager :=
  snd (load_config_file file VPNManagerImpl.init).

Definition get_proxy_dict (self : VPNManager) (vpn : option VPNConfig)
    : list (string * string) :=
  let vpn := match vpn with
             | None => active_vpn self
             | Some v => Some v
             end in
  match vpn with
  | None => []
  | Some vpn =>
      let auth :=
        if Py.truthy (username vpn) && Py.truthy (password vpn)
        then (default "" (username vpn) ++ ":" ++ default "" (password vpn) ++ "@")%string
        else "" in
      let proxy_url :=
        (protocol vpn ++ "://" ++ auth ++ host vpn ++ ":" ++ PyInt.str (port vpn))%string in
      [("http", proxy_url); ("https", proxy_url)]
  end.

Definition probe_url : string := "https://httpbin.org/ip".

Definition test_vpn (penv : ProbeEnv) (self : VPNManager) (vpn : option VPNConfig)
    : M World TestResult :=
  let vpn := match vpn with
             | None => active_vpn self
             | Some v => Some v
             end in
  match vpn with
  | None => ret (TestFailure "No VPN configured")
  | Some vpn =>
      fun w =>
        let proxies := get_proxy_dict self (Some vpn) in
        let w' := after_request w probe_url in
        match probe_get penv (length (requests w)) proxies with
        | ProbeAnswer status_code origin latency =>
            if status_code =? 200
            then (Returned (TestSuccess (name vpn) origin latency (protocol vpn)), w')
            else (Returned (TestFailure ("HTTP " ++ PyInt.str status_code)%string), w')
        | ProbeException message => (Returned (TestFailure message), w')
        end
  end.

Fixpoint test_each (penv : ProbeEnv) (self : VPNManager) (vpns : list VPNConfig)
    : M World (list TestResult) :=
  match vpns with
  | [] => ret []
  | vpn :: rest =>
      do result <- test_vpn penv self (Some vpn);
      do_ sleep (Py.seconds 1);
      do results <- test_each penv self rest;
      ret (result :: results)
  end.

Definition test_all_vpns (penv : ProbeEnv) (self : VPNManager)
    : M World (list TestResult) :=
  test_each penv self (vpn_configs self).

(** One operation on the pool. *)
Definition apply_op (op : PoolOp) : M VPNManager unit :=
  match op with
  | OpAdd vpn => VPNManagerImpl.add_vpn vpn
  | OpLoad file => load_config_file file
  | OpRotate => do_ VPNManagerImpl.rotate_vpn; ret tt
  end.

Fixpoint apply_ops (ops : list PoolOp) : M VPNManager unit :=
  match ops with
  | [] => ret tt
  | op :: rest => do_ apply_op op; apply_ops rest
  end.

(** What every manager built from the constructor by the public
    operations satisfies. *)
Definition pool_ok (self : VPNManager) : Prop :=
  List.Forall (fun vpn => enabled vpn = true) (vpn_configs self) /\
  (forall vpn, active_vpn self = Some vpn -> List.In vpn (vpn_configs self)) /\
  0 <= current_vpn_index self /\
  (current_vpn_index self < Z.of_nat (length (vpn_configs self)) \/
   current_vpn_index self = 0).

End VPNManagerMore.

(** ** vpn-integration.py: VPNSession, and web-scraper-vpn.py *)

Record VPNSession := mkVPNSession {
  vs_manager : VPNManager;
  vs_auto_rotate : bool;
  vs_proxies : list (string * string)
}.

Record VPNWebScraper := mkVPNWebScraper {
  vw_manager : option VPNManager;
  vw_proxies : list (string * string)
}.

Module VPNSessionImpl.

Definition St : Type := VPNSession * World.

(** [_update_proxies] *)
Definition _update_proxies (self : VPNSession) : VPNSession :=
  mkVPNSession (vs_manager self) (vs_auto_rotate self)
    (StrDict.update (vs_proxies self)
       (VPNManagerMore.get_proxy_dict (vs_manager self) None)).

(** [VPNSession.rotate_vpn] *)
Definition rotate_vpn (self : VPNSession) : Outcome unit * VPNSession :=
  match VPNManagerImpl.rotate_vpn (vs_manager self) with
  | (Returned _, m) =>
      (Returned tt,
       _update_proxies (mkVPNSession m (vs_auto_rotate self) (vs_proxies self)))
  | (Raised e, m) =>
      (Raised e, mkVPNSession m (vs_auto_rotate self) (vs_proxies self))
  end.

(** [self.session.get(url, **kwargs)] *)
Definition session_get_raw (env : Env) (url : string) (w : World)
    : Outcome (Z * string) * World :=
  match session_get env (length (requests w)) url with
  | HttpResponse status text => (Returned (status, text), after_request w url)
  | NetworkFailure e => (Raised (RequestFailed e), after_request w url)
  end.

(** [VPNSession.get] *)
Definition get (env : Env) (url : string) : M St (Z * string) :=
  fun st =>
    let (self, w) := st in
    let attempt :=
      match session_get_raw env url w with
      | (Returned (status, text), w1) =>
          if (400 <=? status) && (status <? 600)
          then (Raised (HTTPError status), w1)       (* raise_for_status *)
          else (Returned (status, text), w1)
      | (Raised e, w1) => (Raised e, w1)
      end in
    match attempt with
    | (Returned response, w1) => (Returned response, (self, w1))
    | (Raised e, w1) =>
        if vs_auto_rotate self
           && negb (Nat.eqb (length (vpn_configs (vs_manager self))) 0)
        then
          match rotate_vpn self with
          | (Returned _, self1) =>
              match session_get_raw env url w1 with
              | (r, w2) => (r, (self1, w2))
              end
          | (Raised e', self1) => (Raised e', (self1, w1))
          end
        else (Raised e, (self, w1))
    end.

End VPNSessionImpl.

Module VPNWebScraperImpl.

(** [VPNWebScraper.rotate_vpn] *)
Definition rotate_vpn (self : VPNWebScraper) : Outcome unit * VPNWebScraper :=
  match vw_manager self with
  | None => (Returned tt, self)
  | Some m =>
      match VPNManagerImpl.rotate_vpn m with
      | (Raised e, m1) => (Raised e, mkVPNWebScraper (Some m1) (vw_proxies self))
      | (Returned _, m1) =>
          let proxies := VPNManagerMore.get_proxy_dict m1 None in
          let self1 := mkVPNWebScraper (Some m1)
                         (StrDict.update (vw_proxies self) proxies) in
          (* logger.info(f"... {self.vpn_manager.active_vpn.name}") *)
          match active_vpn m1 with
          | None => (Raised AttributeError, self1)
          | Some _ => (Returned tt, self1)
          end
      end
  end.

End VPNWebScraperImpl.

(** Instances. *)
Definition entry_a : RawEntry :=
  mkRawEntry (Some "http") (Some "proxy-a.example.com") (Some 8080)
    (Some "user") (Some "secret") (Some true) (Some "A").
Definition entry_disabled : RawEntry :=
  mkRawEntry (Some "socks5") (Some "proxy-b.example.com") (Some 1080)
    None None (Some false) None.
Definition entry_no_port : RawEntry :=
  mkRawEntry (Some "https") (Some "proxy-c.example.com") None
    None None None None.
Definition entry_d : RawEntry :=
  mkRawEntry (Some "socks5") (Some "proxy-d.example.com") (Some 1080)
    None None None None.

Definition probe_env_mixed : ProbeEnv :=
  mkProbeEnv (fun n _ => match n with
                         | O => ProbeAnswer 200 (Some "203.0.113.7") 120
                         | Datatypes.S O => ProbeException "timed out"
                         | _ => ProbeAnswer 502 None 80
                         end).

(** A server that fails the first request and answers 500 afterwards. *)
Definition env_flaky : Env :=
  mkEnv (fun _ => true)
        (fun n _ => match n with
                    | O => NetworkFailure Timeout
                    | _ => HttpResponse 500 "Internal Server Error"
                    end)
        (fun _ a _ => a) (fun _ => true).


(** ** Python operations on dynamically typed values *)

(** The exceptions of the code below: those of [Exn], and [TypeError]. *)
Inductive PyExn :=
| Base (e : Exn)
| TypeError.

Inductive Result (A : Type) :=
| Ok (a : A)
| Err (e : PyExn).
Arguments Ok {A} a.
Arguments Err {A} e.

Definition and_then {A B} (c : Result A) (k : A -> Result B) : Result B :=
  match c with
  | Ok a => k a
  | Err e => Err e
  end.

Notation "'let*' x ':=' c 'in' k" := (and_then c (fun x => k))
  (at level 10, x name, c at level 100, k at level 200).

Definition of_outcome {A} (o : Outcome A) : Result A :=
  match o with
  | Returned a => Ok a
  | Raised e => Err (Base e)
  end.

Module PyValue.

(** [bool(v)] *)
Definition truthy (v : Value) : bool :=
  match v with
  | VNone => false
  | VBool b => b
  | VInt n => negb (n =? 0)
  | VStr s => PyStr.nonempty s
  | VList items => match items with [] => false | _ :: _ => true end
  | VDict items => match items with [] => false | _ :: _ => true end
  end.

(** [key in v] for a string [key]: a key of a [dict], an element of a
    [list], a substring of a [str]; [TypeError] on the other values. *)
Definition contains (key : string) (v : Value) : Result bool :=
  match v with
  | VDict d => Ok (PyDict.contains d key)
  | VList items => Ok (existsb (fun item => PyDict.eq (VStr key) item) items)
  | VStr s => Ok (PyStr2.contains key s)
  | VNone | VBool _ | VInt _ => Err TypeError
  end.

(** [v.get(key, dflt)] *)
Definition get (v : Value) (key : string) (dflt : Value) : Result Value :=
  of_outcome (PyDict.get v key dflt).

(** [for x in v]: the elements of a [list], the keys of a [dict], the
    characters of a [str]. *)
Definition iter (v : Value) : Result (list Value) :=
  match v with
  | VList items => Ok items
  | VDict d => Ok (map (fun kv => VStr (fst kv)) d)
  | VStr s => Ok (map (fun c => VStr (String c "")) (list_ascii_of_string s))
  | VNone | VBool _ | VInt _ => Err TypeError
  end.

(** [len(v)] *)
Definition len (v : Value) : Result Z :=
  match v with
  | VList items => Ok (Z.of_nat (length items))
  | VDict d => Ok (Z.of_nat (length d))
  | VStr s => Ok (PyStr.len s)
  | VNone | VBool _ | VInt _ => Err TypeError
  end.

(** The number [v] is compared as in [v > 1000] and [v < 300]: an [int],
    or a [bool] taken as 0 or 1; an ordering comparison of any other
    value with an [int] is a [TypeError]. *)
Definition number (v : Value) : Result Z :=
  match v with
  | VInt n => Ok n
  | VBool b => Ok (if b then 1 else 0)
  | VNone | VStr _ | VList _ | VDict _ => Err TypeError
  end.

End PyValue.

(** ** competitor-intelligence.py: [_detect_technologies] *)

Record Technologies := mkTechnologies {
  frontend : list Value;
  analytics : list Value;
  marketing : list Value;
  frameworks : list Value
}.

Inductive Category := Frontend | Analytics | Marketing | Frameworks.

Record Insights := mkInsights {
  strengths : list string;
  weaknesses : list string;
  opportunities : list string;
  recommendations : list string
}.

Module CompetitorIntelligenceMore.

Definition frontend_tech : list string :=
  ["React"; "Vue.js"; "Angular"; "jQuery"; "Next.js"].
Definition analytics_tech : list string :=
  ["Google Analytics"; "Mixpanel"; "Segment"; "Hotjar"].
Definition marketing_tech : list string :=
  ["HubSpot"; "Mailchimp"; "Intercom"; "Drift"].

(** [any(name in tech for name in names)] *)
Fixpoint any_in (names : list string) (tech : Value) : Result bool :=
  match names with
  | [] => Ok false
  | name :: rest =>
      let* found := PyValue.contains name tech in
      if found then Ok true else any_in rest tech
  end.

(** The [if]/[elif] chain of the loop body. *)
Definition categorize (tech : Value) : Result Category :=
  let* is_frontend := any_in frontend_tech tech in
  if is_frontend then Ok Frontend else
  let* is_analytics := any_in analytics_tech tech in
  if is_analytics then Ok Analytics else
  let* is_marketing := any_in marketing_tech tech in
  if is_marketing then Ok Marketing else Ok Frameworks.

(** [technologies[category].append(tech)] *)
Definition file_under (technologies : Technologies) (c : Category) (tech : Value)
    : Technologies :=
  match c with
  | Frontend =>
      mkTechnologies (frontend technologies ++ [tech]) (analytics technologies)
        (marketing technologies) (frameworks technologies)
  | Analytics =>
      mkTechnologies (frontend technologies) (analytics technologies ++ [tech])
        (marketing technologies) (frameworks technologies)
  | Marketing =>
      mkTechnologies (frontend technologies) (analytics technologies)
        (marketing technologies ++ [tech]) (frameworks technologies)
  | Frameworks =>
      mkTechnologies (frontend technologies) (analytics technologies)
        (marketing technologies) (frameworks technologies ++ [tech])
  end.

Fixpoint categorize_all (detected : list Value) (technologies : Technologies)
    : Result Technologies :=
  match detected with
  | [] => Ok technologies
  | tech :: rest =>
      let* c := categorize tech in
      categorize_all rest (file_under technologies c tech)
  end.

Definition no_technologies : Technologies := mkTechnologies [] [] [] [].

Definition _detect_technologies (basic_analysis : Value) : Result Technologies :=
  let technologies := no_technologies in
  if negb (PyValue.truthy basic_analysis) then Ok technologies else
  let* has_error := PyValue.contains "error" basic_analysis in
  if has_error then Ok technologies else
  let* detected := PyValue.get basic_analysis "technology_stack" (VList []) in
  let* items := PyValue.iter detected in
  categorize_all items technologies.

(** The list a category names. *)
Definition filed (c : Category) (t : Technologies) : list Value :=
  match c with
  | Frontend => frontend t
  | Analytics => analytics t
  | Marketing => marketing t
  | Frameworks => frameworks t
  end.

Definition category_eqb (c d : Category) : bool :=
  match c, d with
  | Frontend, Frontend | Analytics, Analytics
  | Marketing, Marketing | Frameworks, Frameworks => true
  | _, _ => false
  end.

(** Whether the chain puts [tech] in category [c]. *)
Definition in_category (c : Category) (tech : Value) : bool :=
  match categorize tech with
  | Ok d => category_eqb c d
  | Err _ => false
  end.

Definition technologies_value (t : Technologies) : Value :=
  VDict [("frontend", VList (frontend t)); ("analytics", VList (analytics t));
         ("marketing", VList (marketing t)); ("frameworks", VList (frameworks t))].

(** ** [_generate_insights] *)

Definition no_insights : Insights := mkInsights [] [] [] [].

Definition strength (i : Insights) (s : string) : Insights :=
  mkInsights (strengths i ++ [s]) (weaknesses i) (opportunities i)
    (recommendations i).
Definition weakness (i : Insights) (s : string) : Insights :=
  mkInsights (strengths i) (weaknesses i ++ [s]) (opportunities i)
    (recommendations i).
Definition opportunity (i : Insights) (s : string) : Insights :=
  mkInsights (strengths i) (weaknesses i) (opportunities i ++ [s])
    (recommendations i).
Definition recommendation (i : Insights) (s : string) : Insights :=
  mkInsights (strengths i) (weaknesses i) (opportunities i)
    (recommendations i ++ [s]).

(** [v and 'error' not in v] *)
Definition usable (v : Value) : Result bool :=
  if PyValue.truthy v then
    let* has_error := PyValue.contains "error" v in Ok (negb has_error)
  else Ok false.

(** SEO strengths/weaknesses *)
Definition seo_insights (seo : Value) (insights : Insights) : Result Insights :=
  let* go := usable seo in
  if go then
    let* title := PyValue.get seo "title" (VDict []) in
    let* description := PyValue.get seo "description" (VDict []) in
    let* title_optimal := PyValue.get title "optimal" VNone in
    let insights :=
      if PyValue.truthy title_optimal
      then strength insights "Well-optimized title tag"
      else recommendation
             (weakness insights "Title tag needs optimization")
             "Optimize title tag to 30-60 characters" in
    let* description_optimal := PyValue.get description "optimal" VNone in
    Ok (if PyValue.truthy description_optimal
        then strength insights "Well-optimized meta description"
        else recommendation
               (weakness insights "Meta description needs optimization")
               "Optimize meta description to 120-160 characters")
  else Ok insights.

(** Content analysis and social presence *)
Definition content_insights (basic : Value) (insights : Insights)
    : Result Insights :=
  let* go := usable basic in
  if go then
    let* content := PyValue.get basic "content_analysis" (VDict []) in
    let* word_count_value := PyValue.get content "word_count" (VInt 0) in
    let* word_count := PyValue.number word_count_value in
    let insights :=
      if word_count >? 1000
      then strength insights "Rich content with good depth"
      else if word_count <? 300
      then recommendation
             (weakness insights "Thin content, lacks depth")
             "Add more comprehensive content (aim for 1000+ words)"
      else insights in
    (* Social presence *)
    let* social := PyValue.get basic "social_presence" (VDict []) in
    let* n := PyValue.len social in
    Ok (if n >=? 3
        then strength insights "Strong social media presence"
        else if n <? 2
        then recommendation
               (weakness insights "Limited social media presence")
               "Expand social media presence across more platforms"
        else insights)
  else Ok insights.

(** Pricing insights *)
Definition pricing_insights (pricing : Value) (insights : Insights)
    : Result Insights :=
  let* has_page :=
    if PyValue.truthy pricing then
      let* flag := PyValue.get pricing "has_pricing_page" VNone in
      Ok (PyValue.truthy flag)
    else Ok false in
  Ok (if has_page
      then opportunity
             (strength insights "Clear pricing page available")
             "Analyze pricing strategy for competitive positioning"
      else weakness insights "No clear pricing information").

Definition _generate_insights (analysis : Dict) : Result Insights :=
  let insights := no_insights in
  let* basic := PyValue.get (VDict analysis) "basic_analysis" (VDict []) in
  let* seo := PyValue.get (VDict analysis) "seo_analysis" (VDict []) in
  let* insights := seo_insights seo insights in
  let* insights := content_insights basic insights in
  let* pricing := PyValue.get (VDict analysis) "pricing_info" (VDict []) in
  pricing_insights pricing insights.

Definition insights_value (i : Insights) : Value :=
  VDict [("strengths", VList (map VStr (strengths i)));
         ("weaknesses", VList (map VStr (weaknesses i)));
         ("opportunities", VList (map VStr (opportunities i)));
         ("recommendations", VList (map VStr (recommendations i)))].

(** What a part of [_generate_insights] adds to the lists: [bal] more
    weaknesses and opportunities than recommendations, at most [opp]
    opportunities, and between [sw_min] and [sw_max] strengths and
    weaknesses. *)
Definition grows (i i' : Insights) (bal sw_min sw_max opp : nat) : Prop :=
  (length (weaknesses i') + length (opportunities i') + length (recommendations i)
   = length (weaknesses i) + length (opportunities i) + length (recommendations i')
     + bal)%nat /\
  (length (opportunities i) <= length (opportunities i')
   <= length (opportunities i) + opp)%nat /\
  (length (strengths i) + length (weaknesses i) + sw_min
   <= length (strengths i') + length (weaknesses i')
   <= length (strengths i) + length (weaknesses i) + sw_max)%nat.

End CompetitorIntelligenceMore.

(** A report as [full_analysis] leaves it when the first stage raised. *)
Definition report_failed : Dict :=
  [("url", VStr page_url); ("timestamp", VStr "2026-01-01T00:00:00");
   ("basic_analysis", VNone); ("seo_analysis", VNone); ("pricing_info", VNone);
   ("features", VNone); ("technologies", VNone);
   ("error", VStr "RetryError")].

Definition analysis_failed : Analysis :=
  mkAnalysis (fun _ w => (report_failed, w)) (fun _ => "2026-01-02T00:00:00").

(** A basic analysis as [analyze_website] builds it, reduced to the
    entries read later. *)
Definition basic_sample : Value :=
  VDict [("url", VStr page_url);
         ("content_analysis", VDict [("word_count", VInt 1200)]);
         ("technology_stack",
          VList [VStr "React"; VStr "Bootstrap"; VStr "HubSpot CMS";
                 VStr "Google Analytics 4"]);
         ("social_presence", VDict [("twitter", VStr "https://x.com/acme")])].

Definition report_sample : Dict :=
  [("url", VStr page_url); ("timestamp", VStr "2026-01-01T00:00:00");
   ("basic_analysis", basic_sample);
   ("seo_analysis",
    VDict [("title", VDict [("text", VStr "Acme"); ("optimal", VBool false)]);
           ("description", VDict [("text", VStr ""); ("optimal", VBool true)])]);
   ("pricing_info", VDict [("has_pricing_page", VBool true)]);
   ("features", VList []); ("technologies", VNone)].

(** ** competitor-intelligence.py: pricing and feature pages *)

(** What [JavaScriptScraper.scrape_page] gives for one URL: its result
    dictionary without an ['error'] key (of which the code below reads
    ['html'] and ['text_content']), its error dictionary, or an exception
    ([browser.new_page()] and [page.close()] are outside its handler). *)
Inductive JsResult :=
| JsPage (html text_content : string)
| JsErrorDict (error : string)
| JsRaised.

(** What Playwright and [re] contribute.  [js_enter n] tells whether
    [async with JavaScriptScraper() as scraper] enters its block when [n]
    requests came before ([false]: an exception, as when the browser
    does not start); [js_scrape_page n url] is the
    outcome of [scraper.scrape_page(url)]; the two [findall] are
    [re.findall] with the price and the plan-name pattern. *)
Record JsEnv := mkJsEnv {
  js_enter : nat -> bool;
  js_scrape_page : nat -> string -> JsResult;
  findall_prices : string -> list string;
  findall_plan_names : string -> list string
}.

Record PricingData := mkPricingData {
  has_pricing_page : bool;
  pricing_url : option string;
  detected_plans : list (string * option string);   (* name, price *)
  price_points : list string
}.

Module PricingAndFeatures.

(** [_extract_pricing_plans] on the ['text_content'] of a page. *)
Definition _extract_pricing_plans (js : JsEnv) (lib : HtmlLib) (text : string)
    : list (string * option string) :=
  let prices := findall_prices js text in
  let plan_names := findall_plan_names js text in
  imap (fun i name => (name, prices !! i)) (list_of_set lib plan_names).

Definition common_paths : list string :=
  ["/pricing"; "/plans"; "/pricing-plans"; "/buy"].

Definition no_pricing : PricingData := mkPricingData false None [] [].

(** The loop of [_analyze_pricing] over the paths still to be tried.  A
    call of [scraper.scrape_page] is entered in the request log. *)
Fixpoint probe_pricing (js : JsEnv) (lib : HtmlLib) (base_url : string)
    (paths : list string) (pricing_data : PricingData) (w : World)
    : PricingData * World :=
  match paths with
  | [] => (pricing_data, w)
  | path :: rest =>
      let test_url := (PyStr2.rstrip_slash base_url ++ path)%string in
      let w1 := after_request w test_url in
      match js_scrape_page js (length (requests w)) test_url with
      | JsPage _ text_content =>
          (mkPricingData true (Some test_url)
             (_extract_pricing_plans js lib text_content)
             (price_points pricing_data), w1)                      (* break *)
      | JsErrorDict _ => probe_pricing js lib base_url rest pricing_data w1
      | JsRaised => probe_pricing js lib base_url rest pricing_data w1  (* continue *)
      end
  end.

Definition _analyze_pricing (js : JsEnv) (lib : HtmlLib) (base_url : string)
    (w : World) : PricingData * World :=
  if js_enter js (length (requests w))
  then probe_pricing js lib base_url common_paths no_pricing w
  else (no_pricing, w).                          (* except Exception: log *)

Definition pricing_value (p : PricingData) : Value :=
  VDict [("has_pricing_page", VBool (has_pricing_page p));
         ("pricing_url", match pricing_url p with
                         | Some u => VStr u
                         | None => VNone
                         end);
         ("detected_plans",
          VList (map (fun plan =>
                        VDict [("name", VStr (fst plan));
                               ("price", match snd plan with
                                         | Some price => VStr price
                                         | None => VNone
                                         end)])
                     (detected_plans p)));
         ("price_points", VList (map VStr (price_points p)))].

Definition feature_paths : list string := ["/features"; "/product"; "/solutions"].

(** [soup.find_all(['ul', 'ol'])] *)
Definition is_list_tag : string -> list (string * string) -> bool :=
  fun name _ => String.eqb name "ul" || String.eqb name "ol".

(** [ul.find_all('li')]: the [li] elements below [ul]. *)
Definition items_below (ul : Node) : list Node :=
  match ul with
  | Text _ _ => []
  | Element _ _ children =>
      flat_map (Bs4.find_all_node (Bs4.named "li")) children
  end.

(** The two nested loops over a parsed feature page. *)
Definition list_item_texts (soup : Soup) : list string :=
  flat_map
    (fun ul =>
       flat_map
         (fun li =>
            let feature_text := Bs4.get_text_strip "" (Bs4.strings_node li) in
            if PyStr.nonempty feature_text
               && (10 <? PyStr.len feature_text)
            then [feature_text] else [])
         (items_below ul))
    (Bs4.find_all is_list_tag soup).

Fixpoint probe_features (js : JsEnv) (lib : HtmlLib) (url : string)
    (paths : list string) (features : list string) (w : World)
    : list string * World :=
  match paths with
  | [] => (features, w)
  | path :: rest =>
      let test_url := (PyStr2.rstrip_slash url ++ path)%string in
      let w1 := after_request w test_url in
      match js_scrape_page js (length (requests w)) test_url with
      | JsPage html _ =>
          (features ++ list_item_texts (parse lib html), w1)       (* break *)
      | JsErrorDict _ => probe_features js lib url rest features w1
      | JsRaised => probe_features js lib url rest features w1     (* continue *)
      end
  end.

Definition _extract_features (js : JsEnv) (lib : HtmlLib) (url : string)
    (w : World) : list string * World :=
  let (features, w') :=
    if js_enter js (length (requests w))
    then probe_features js lib url feature_paths [] w
    else ([], w) in
  (firstn 20 features, w').                      (* features[:20] *)

(** The URLs tried for [base_url], in the order of [paths]. *)
Definition test_urls (base_url : string) (paths : list string) : list string :=
  map (fun path => (PyStr2.rstrip_slash base_url ++ path)%string) paths.

(** The page at [url] does not load when [n] requests came before. *)
Definition fails (js : JsEnv) (n : nat) (url : string) : Prop :=
  forall html text_content, js_scrape_page js n url <> JsPage html text_content.

End PricingAndFeatures.

(** ** competitor-intelligence.py: [full_analysis] *)

(** What a stage of the analysis gives: its dictionary, or an exception,
    of which [full_analysis] keeps [str(e)]. *)
Inductive StageOutcome :=
| StageOk (result : Dict)
| StageRaised (message : string).

(** The two analysers [full_analysis] calls first: [basic_analyzer], and
    [seo_analyzer], which the constructor leaves [None] when
    [SEOAnalyzer] is.  [str_exn e] is [str(e)] for an exception of the
    stages modelled here. *)
Record Stages := mkStages {
  analyze_website : string -> World -> StageOutcome * World;
  seo_analyzer : option (string -> World -> StageOutcome * World);
  str_exn : PyExn -> string;
  st_isoformat : Z -> string
}.

Module FullAnalysis.

(** [d[key] = value] *)
Fixpoint set (d : Dict) (key : string) (value : Value) : Dict :=
  match d with
  | [] => [(key, value)]
  | (k, v) :: rest =>
      if String.eqb k key then (k, value) :: rest
      else (k, v) :: set rest key value
  end.

Definition full_analysis (st : Stages) (js : JsEnv) (lib : HtmlLib)
    (url : string) (w : World) : Dict * World :=
  let results :=
    [("url", VStr url); ("timestamp", VStr (st_isoformat st (now w)));
     ("basic_analysis", VNone); ("seo_analysis", VNone);
     ("pricing_info", VNone); ("features", VNone); ("technologies", VNone)] in
  let failed (results : Dict) (message : string) (w : World) :=
    (set results "error" (VStr message), w) in
  (* Basic website analysis *)
  match analyze_website st url w with
  | (StageRaised message, w1) => failed results message w1
  | (StageOk basic, w1) =>
      let results := set results "basic_analysis" (VDict basic) in
      (* SEO analysis *)
      match seo_analyzer st with
      | None => failed results (str_exn st (Base AttributeError)) w1
      | Some analyze_seo =>
          match analyze_seo url w1 with
          | (StageRaised message, w2) => failed results message w2
          | (StageOk seo, w2) =>
              let results := set results "seo_analysis" (VDict seo) in
              (* Detect pricing pages *)
              let (pricing, w3) := PricingAndFeatures._analyze_pricing js lib url w2 in
              let results :=
                set results "pricing_info" (PricingAndFeatures.pricing_value pricing) in
              (* Extract features *)
              let (features, w4) := PricingAndFeatures._extract_features js lib url w3 in
              let results := set results "features" (VList (map VStr features)) in
              (* Technology detection *)
              match CompetitorIntelligenceMore._detect_technologies
                      (default VNone (PyDict.lookup results "basic_analysis")) with
              | Err e => failed results (str_exn st e) w4
              | Ok technologies =>
                  let results :=
                    set results "technologies"
                      (CompetitorIntelligenceMore.technologies_value technologies) in
                  (* Generate competitive insights *)
                  match CompetitorIntelligenceMore._generate_insights results with
                  | Err e => failed results (str_exn st e) w4
                  | Ok insights =>
                      (set results "insights"
                         (CompetitorIntelligenceMore.insights_value insights), w4)
                  end
              end
          end
      end
  end.

(** The service as [monitor_changes] uses it. *)
Definition analysis_of (st : Stages) (js : JsEnv) (lib : HtmlLib) : Analysis :=
  mkAnalysis (full_analysis st js lib) (st_isoformat st).

Definition stage_keys : list string :=
  ["url"; "timestamp"; "basic_analysis"; "seo_analysis"; "pricing_info";
   "features"; "technologies"].

End FullAnalysis.

(** ** web-scraper.py: [CompetitorAnalyzer.analyze_website] *)

(** [_calculate_image_alt_ratio]: [0.0] without images, else
    [round(with_alt / total * 100, 2)], kept as the two counts. *)
Inductive AltRatio :=
| NoImages
| Percent (with_alt total : nat).

Record SeoFactors := mkSeoFactors {
  has_title : bool;
  title_length : Z;
  has_description : bool;
  description_length : Z;
  has_keywords : bool;
  keyword_count : Z;
  has_canonical : bool;
  has_og_tags : bool;
  heading_structure : HeadingCounts;
  image_alt_ratio : AltRatio
}.

(** The two analysers that work by CSS selectors and regular
    expressions. *)
Record Analysers := mkAnalysers {
  _extract_ctas : Soup -> list string;
  _extract_contact_info : Soup -> list string * list string   (* emails, phones *)
}.

Record WebsiteAnalysis := mkWebsiteAnalysis {
  wa_url : string;
  wa_basic_info : Metadata;
  wa_seo_analysis : SeoFactors;
  wa_content_analysis : ContentAnalysis;
  wa_technology_stack : list string;
  wa_social_presence : list (string * string);
  wa_call_to_actions : list string;
  wa_contact_info : list string * list string;
  wa_timestamp : Z
}.

Inductive WebsiteResult :=
| WebsiteError (error url : string)        (* [page_data], returned as it is *)
| WebsiteAnalysed (analysis : WebsiteAnalysis).

Module AnalyzeWebsite.

Import CompetitorAnalyzerImpl.

Definition _calculate_image_alt_ratio (images : list Image) : AltRatio :=
  match images with
  | [] => NoImages
  | _ :: _ =>
      Percent (length (List.filter (fun img => PyStr.nonempty (img_alt img)) images))
              (length images)
  end.

Definition _analyze_seo (soup : Soup) (page_data : Extracted) : SeoFactors :=
  let metadata := ex_metadata page_data in
  mkSeoFactors
    (PyStr.nonempty (md_title metadata))
    (PyStr.len (md_title metadata))
    (PyStr.nonempty (md_description metadata))
    (PyStr.len (md_description metadata))
    (match md_keywords metadata with [] => false | _ :: _ => true end)
    (len (md_keywords metadata))
    (PyStr.nonempty (md_canonical_url metadata))
    (PyStr.nonempty (md_og_title metadata)
     || PyStr.nonempty (md_og_description metadata))
    (_analyze_headings soup)
    (_calculate_image_alt_ratio (ex_images page_data)).

(** The [if]/[elif] chain of [_detect_technologies] on one [src]. *)
Definition script_technology (lib : HtmlLib) (src_raw : string) : option string :=
  let src := PyStr2.lower lib src_raw in
  if PyStr2.contains "react" src then Some "React"
  else if PyStr2.contains "vue" src then Some "Vue.js"
  else if PyStr2.contains "angular" src then Some "Angular"
  else if PyStr2.contains "jquery" src then Some "jQuery"
  else if PyStr2.contains "bootstrap" src then Some "Bootstrap"
  else None.

Definition script_names : list string :=
  ["React"; "Vue.js"; "Angular"; "jQuery"; "Bootstrap"].

(** The technologies appended before [list(set(technologies))]. *)
Definition technologies_found (lib : HtmlLib) (soup : Soup) : list string :=
  let from_scripts :=
    flat_map
      (fun script =>
         match script_technology lib
                 (default "" (Bs4.get (Bs4.attrs_of script) "src")) with
         | Some technology => [technology]
         | None => []
         end)
      (Bs4.find_all (Bs4.named_having "script" "src") soup) in
  (* Check meta tags *)
  let generator := WebScraperExtract.meta_content soup "name" "generator" in
  from_scripts ++ (if PyStr.nonempty generator then [generator] else []).

Definition _detect_technologies (lib : HtmlLib) (soup : Soup) : list string :=
  list_of_set lib (technologies_found lib soup).

(** [CompetitorAnalyzer()]: a [WebScraper(delay=2.0)]. *)
Definition init : WebScraper := mkWebScraper (Py.seconds 2) 30.

Definition analyze_website (env : Env) (lib : HtmlLib) (an : Analysers)
    (scraper : WebScraper) (url : string) (w : World)
    : Result WebsiteResult * World :=
  (* Scrape main page *)
  match WebScraperExtract.scrape_page env lib scraper url w with
  | (Raised e, w1) => (Err (Base e), w1)
  | (Returned (ScrapeError error u), w1) => (Ok (WebsiteError error u), w1)
  | (Returned (Scraped _ page_data _), w1) =>
      match WebScraperFetch.fetch_page env scraper url w1 with
      | (Raised e, w2) => (Err (Base e), w2)
      | (Returned None, w2) => (Err TypeError, w2)   (* BeautifulSoup(None, 'lxml') *)
      | (Returned (Some html), w2) =>
          let soup := parse lib html in
          (Ok (WebsiteAnalysed
                 (mkWebsiteAnalysis url
                    (ex_metadata page_data)
                    (_analyze_seo soup page_data)
                    (_analyze_content soup page_data)
                    (_detect_technologies lib soup)
                    (_extract_social_links lib soup)
                    (_extract_ctas an soup)
                    (_extract_contact_info an soup)
                    (now w2))), w2)
      end
  end.

End AnalyzeWebsite.

(** Instances. *)

(** A site whose [/pricing] page fails to load and whose [/plans] page
    loads. *)
Definition js_plans : JsEnv :=
  mkJsEnv (fun _ => true)
          (fun _ url => if PyStr2.contains "/plans" url
                        then JsPage "<ul><li>Unlimited projects</li></ul>"
                                    "Pro $29/month"
                        else JsErrorDict "net::ERR_ABORTED")
          (fun _ => ["$29/month"]) (fun _ => ["Pro"]).

Definition stages_unreachable : Stages :=
  mkStages (fun _ w => (StageRaised "RetryError", w)) None
           (fun _ => "error") (fun _ => "2026-01-02T00:00:00").

Definition analysers_none : Analysers :=
  mkAnalysers (fun _ => []) (fun _ => ([], [])).

(** A page that loads two scripts and names its generator. *)
Definition soup_scripts : Soup :=
  [ Element "html" []
      [ Element "head" []
          [ Element "meta" [("name", "generator"); ("content", "WordPress 6.4")] [];
            Element "script" [("src", "/static/React.production.min.js")] [];
            Element "script" [("src", "/js/react-dom.js")] [];
            Element "script" [] [Text Script "var inline = 1;"] ] ] ].

(** ** safe-scraper.py: [SafeCompetitorAnalyzer] *)

Inductive SafeWebsiteResult :=
| SafeWebsiteError (error url : string)     (* [page_data], returned as it is *)
| SafeWebsiteAnalysed (analysis : WebsiteAnalysis) (note : string).

Module SafeCompetitorAnalyzerImpl.

Import SafeScraperImpl AnalyzeWebsite CompetitorAnalyzerImpl.

(** The scraper [SafeCompetitorAnalyzer(min_delay, max_delay,
    max_requests)] works with. *)
Definition init (env : Env) (min_delay max_delay max_requests : Z)
    : M World SafeScraper :=
  SafeScraperImpl.init env min_delay max_delay max_requests 30 true.

(** [WebScraper.scrape_page] run on a [SafeScraper]: its [self.fetch_page]
    is the method of [SafeScraper]. *)
Definition scrape_page (env : Env) (lib : HtmlLib) (url : string)
    : M St ScrapeResult :=
  do html <- SafeScraperImpl.fetch_page env url;
  if negb (Py.truthy html) then ret (ScrapeError "Failed to fetch page" url)
  else
    let soup := parse lib (default "" html) in
    match fst (WebScraperExtract.extract_all lib url soup) with
    | Raised e => raise e
    | Returned data =>
        do t <- lift get_now;
        ret (Scraped url data t)
    end.

Definition note : string :=
  "Safe mode: Single-page analysis only (no additional requests)".

Definition analyze_website (env : Env) (lib : HtmlLib) (an : Analysers)
    (url : string) (st : St) : Result SafeWebsiteResult * St :=
  (* Scrape main page only *)
  match scrape_page env lib url st with
  | (Raised e, st1) => (Err (Base e), st1)
  | (Returned (ScrapeError error u), st1) => (Ok (SafeWebsiteError error u), st1)
  | (Returned (Scraped _ page_data _), st1) =>
      match SafeScraperImpl.fetch_page env url st1 with
      | (Raised e, st2) => (Err (Base e), st2)
      | (Returned None, st2) => (Err TypeError, st2)  (* BeautifulSoup(None, 'lxml') *)
      | (Returned (Some html), st2) =>
          let soup := parse lib html in
          (Ok (SafeWebsiteAnalysed
                 (mkWebsiteAnalysis url
                    (ex_metadata page_data)
                    (_analyze_seo soup page_data)
                    (_analyze_content soup page_data)
                    (_detect_technologies lib soup)
                    (_extract_social_links lib soup)
                    (_extract_ctas an soup)
                    (_extract_contact_info an soup)
                    (now (snd st2)))
                 note), st2)
      end
  end.

End SafeCompetitorAnalyzerImpl.
(** * Properties *)

Example md5_empty : MD5.hexdigest "" = "d41d8cd98f00b204e9800998ecf8427e".
Proof. vm_compute. reflexivity. Qed.

Example md5_abc : MD5.hexdigest "abc" = "900150983cd24fb0d6963f7d28e17f72".
Proof. vm_compute. reflexivity. Qed.

Example md5_two_blocks :
  MD5.hexdigest
    "yyyyyyyyyyyyyyyyyyyyyyyyyyyyyyyyyyyyyyyyyyyyyyyyyyyyyyyyyyyyyyyy"
  = "b0c4864f4e28d2d76929c38d87db7ed5".
Proof. vm_compute. reflexivity. Qed.

(** ** The cache key (safe-scraper.py, [_get_cache_key]) *)

Lemma hex_length (bs : list Z) :
  String.length (MD5.hex bs) = (2 * length bs)%nat.
Proof.
  induction bs as [|b bs IH]; simpl; [reflexivity|].
  rewrite IH. lia.
Qed.

Lemma le_bytes_length (n : nat) (x : Z) : length (MD5.le_bytes n x) = n.
Proof.
  revert x. induction n as [|n IH]; intros x; simpl; [reflexivity|].
  now rewrite IH.
Qed.

Lemma digest_length (msg : list Z) : length (MD5.digest msg) = 16%nat.
Proof.
  unfold MD5.digest.
  destruct (fold_left MD5.compress _ MD5.init) as [[[a b] c] d].
  rewrite !length_app, !le_bytes_length. reflexivity.
Qed.

(** C6, as stated, fails: two URLs that differ only in the order of their
    query parameters have the same normalized form and different cache
    keys. *)
Lemma cache_key_depends_on_query_order :
  SpecSide.normalized_url url_query_ab = SpecSide.normalized_url url_query_ba /\
  SafeScraperImpl._get_cache_key url_query_ab = "0fb8228237f55f6d8792ecf68d4c8f6c" /\
  SafeScraperImpl._get_cache_key url_query_ba = "771fe85c9864d179fc65478e91505b34" /\
  SafeScraperImpl._get_cache_key url_query_ab
    <> SafeScraperImpl._get_cache_key url_query_ba.
Proof.
  assert (Ha : SafeScraperImpl._get_cache_key url_query_ab
               = "0fb8228237f55f6d8792ecf68d4c8f6c") by (vm_compute; reflexivity).
  assert (Hb : SafeScraperImpl._get_cache_key url_query_ba
               = "771fe85c9864d179fc65478e91505b34") by (vm_compute; reflexivity).
  split; [vm_compute; reflexivity|].
  split; [exact Ha|]. split; [exact Hb|].
  rewrite Ha, Hb. discriminate.
Qed.

Lemma hex_digit_inj (a b : Z) :
  0 <= a < 16 -> 0 <= b < 16 -> MD5.hex_digit a = MD5.hex_digit b -> a = b.
Proof.
  intros Ha Hb H.
  assert (Ea : a = Z.of_nat (Z.to_nat a)) by lia.
  assert (Eb : b = Z.of_nat (Z.to_nat b)) by lia.
  assert (La : (Z.to_nat a < 16)%nat) by lia.
  assert (Lb : (Z.to_nat b < 16)%nat) by lia.
  unfold MD5.hex_digit in H. rewrite Ea, Eb. f_equal.
  revert H. generalize (Z.to_nat a) (Z.to_nat b) La Lb. clear.
  intros n m Hn Hm.
  do 16 (destruct n as [|n]; [do 16 (destruct m as [|m];
                                     [cbn; intros H; first [reflexivity|discriminate H]|]);
                              lia|]).
  lia.
Qed.

Lemma le_bytes_are_bytes (n : nat) (x : Z) :
  List.Forall (fun b => 0 <= b < 256) (MD5.le_bytes n x).
Proof.
  revert x. induction n as [|n IH]; intros x; cbn; constructor.
  - apply Z.mod_pos_bound. lia.
  - apply IH.
Qed.

Lemma digest_bytes (msg : list Z) :
  List.Forall (fun b => 0 <= b < 256) (MD5.digest msg).
Proof.
  unfold MD5.digest.
  destruct (fold_left MD5.compress _ MD5.init) as [[[a b] c] d].
  repeat (apply List.Forall_app; split); apply le_bytes_are_bytes.
Qed.

Lemma hex_inj (bs1 : list Z) :
  forall bs2,
    List.Forall (fun b => 0 <= b < 256) bs1 ->
    List.Forall (fun b => 0 <= b < 256) bs2 ->
    MD5.hex bs1 = MD5.hex bs2 -> bs1 = bs2.
Proof.
  induction bs1 as [|b1 bs1 IH]; intros [|b2 bs2] H1 H2 H; cbn in H;
    try reflexivity; try discriminate H.
  inversion H1 as [|? ? Hb1 Hr1]; inversion H2 as [|? ? Hb2 Hr2]; subst.
  injection H as Hhi Hlo Hrest.
  apply hex_digit_inj in Hhi;
    [|split; [apply Z.div_pos; lia | apply Z.div_lt_upper_bound; lia]
     |split; [apply Z.div_pos; lia | apply Z.div_lt_upper_bound; lia]].
  apply hex_digit_inj in Hlo; [|apply Z.mod_pos_bound; lia|apply Z.mod_pos_bound; lia].
  f_equal.
  - rewrite (Z.div_mod b1 16), (Z.div_mod b2 16) by lia. now rewrite Hhi, Hlo.
  - now apply IH.
Qed.

(** C6 (amended): the cache key is the MD5 hex digest, 32 characters
    long, of the URL string exactly as it is passed.  There is no
    normalization: two URLs have the same key exactly when the MD5
    digests of their strings as given are the same.  Identical URL
    strings therefore have identical keys, while URLs that differ only
    in the order of their query parameters are hashed as the different
    strings they are: the two example URLs have one normalized form and
    different keys. *)
Theorem cache_key_is_md5_of_the_url_as_given (u1 u2 : string) :
  SafeScraperImpl._get_cache_key u1 = MD5.hex (MD5.digest (MD5.encode u1)) /\
  String.length (SafeScraperImpl._get_cache_key u1) = 32%nat /\
  (u1 = u2 ->
   SafeScraperImpl._get_cache_key u1 = SafeScraperImpl._get_cache_key u2) /\
  (SafeScraperImpl._get_cache_key u1 = SafeScraperImpl._get_cache_key u2 <->
   MD5.digest (MD5.encode u1) = MD5.digest (MD5.encode u2)) /\
  SpecSide.normalized_url url_query_ab = SpecSide.normalized_url url_query_ba /\
  SafeScraperImpl._get_cache_key url_query_ab
    <> SafeScraperImpl._get_cache_key url_query_ba.
Proof.
  split; [reflexivity|]. split.
  { unfold SafeScraperImpl._get_cache_key, MD5.hexdigest.
    now rewrite hex_length, digest_length. }
  split; [now intros ->|]. split.
  { unfold SafeScraperImpl._get_cache_key, MD5.hexdigest. split.
    - apply hex_inj; apply digest_bytes.
    - now intros ->. }
  split; [vm_compute; reflexivity|].
  assert (Ha : SafeScraperImpl._get_cache_key url_query_ab
               = "0fb8228237f55f6d8792ecf68d4c8f6c") by (vm_compute; reflexivity).
  assert (Hb : SafeScraperImpl._get_cache_key url_query_ba
               = "771fe85c9864d179fc65478e91505b34") by (vm_compute; reflexivity).
  rewrite Ha, Hb. discriminate.
Qed.

Lemma cache_key_is_md5_of_the_url_as_given_witness :
  SafeScraperImpl._get_cache_key url_query_ab
    = SafeScraperImpl._get_cache_key url_query_ba <->
  MD5.digest (MD5.encode url_query_ab) = MD5.digest (MD5.encode url_query_ba).
Proof.
  exact (proj1 (proj2 (proj2 (proj2
           (cache_key_is_md5_of_the_url_as_given url_query_ab url_query_ba))))).
Defined.

(** ** Proxy rotation (vpn-integration.py, [rotate_vpn]) *)

Lemma index_in_range {A} (l : list A) (i : Z) :
  0 <= i < Z.of_nat (length l) ->
  exists x, Py.index l i = Some x /\ l !! Z.to_nat i = Some x.
Proof.
  intros Hi. unfold Py.index.
  destruct (l !! Z.to_nat i) as [x|] eqn:Hx.
  - exists x. split; [|reflexivity].
    replace (0 <=? i) with true by (symmetry; apply Z.leb_le; lia).
    replace (i <? Z.of_nat (length l)) with true by (symmetry; apply Z.ltb_lt; lia).
    reflexivity.
  - apply lookup_ge_None in Hx. lia.
Qed.

Lemma rotate_vpn_step (m : VPNManager) :
  (1 <= length (vpn_configs m))%nat ->
  let i := (current_vpn_index m + 1) mod Z.of_nat (length (vpn_configs m)) in
  exists v,
    Py.index (vpn_configs m) i = Some v /\
    VPNManagerImpl.rotate_vpn m
    = (Returned (Some v), mkVPNManager (vpn_configs m) i (Some v)).
Proof.
  intros HK i.
  assert (Hi : 0 <= i < Z.of_nat (length (vpn_configs m)))
    by (apply Z.mod_pos_bound; lia).
  destruct (index_in_range (vpn_configs m) i Hi) as [v [Hv _]].
  exists v. split; [exact Hv|].
  unfold VPNManagerImpl.rotate_vpn, Py.mod_.
  destruct (vpn_configs m) as [|c cs] eqn:Hc; [simpl in HK; lia|].
  cbn [vpn_configs current_vpn_index]. fold i. rewrite Hv. reflexivity.
Qed.

Lemma rotate_times_state (j : nat) : forall m : VPNManager,
  (1 <= length (vpn_configs m))%nat ->
  (1 <= j)%nat ->
  let i := (current_vpn_index m + Z.of_nat j)
             mod Z.of_nat (length (vpn_configs m)) in
  exists v,
    Py.index (vpn_configs m) i = Some v /\
    VPNManagerImpl.rotate_times j m
    = (Returned (Some v), mkVPNManager (vpn_configs m) i (Some v)).
Proof.
  induction j as [|j IH]; intros m HK Hj; [lia|].
  destruct (rotate_vpn_step m HK) as [v1 [Hv1 Hrot]].
  cbn [VPNManagerImpl.rotate_times]. unfold bind. rewrite Hrot.
  destruct j as [|j'].
  - exists v1. split; [exact Hv1|reflexivity].
  - set (m1 := mkVPNManager _ _ _).
    destruct (IH m1 HK ltac:(lia)) as [v [Hv Hrun]].
    cbn [vpn_configs current_vpn_index m1] in Hv, Hrun.
    rewrite Zplus_mod_idemp_l in Hv, Hrun.
    replace (current_vpn_index m + 1 + Z.of_nat (Datatypes.S j'))
      with (current_vpn_index m + Z.of_nat (Datatypes.S (Datatypes.S j')))
      in Hv, Hrun by lia.
    exists v. split; [exact Hv|exact Hrun].
Qed.

(** C8, as stated, fails: after [add_vpn(A)], [add_vpn(B)], one
    rotation and a [load_config] that adds C, the pool [A, B, C] has its
    cursor at B while the active endpoint is A; three rotations end on
    B, not on the endpoint that was active at the start. *)
Lemma rotation_after_load_config_ends_on_another_endpoint :
  vpn_configs manager_reloaded = pool3 /\
  current_vpn_index manager_reloaded = 1 /\
  active_vpn manager_reloaded = pool3 !! 0%nat /\
  fst (VPNManagerImpl.rotate_times 3 manager_reloaded) = Returned (pool3 !! 1%nat) /\
  fst (VPNManagerImpl.rotate_times 3 manager_reloaded)
    <> Returned (active_vpn manager_reloaded).
Proof.
  split; [reflexivity|]. split; [reflexivity|]. split; [reflexivity|].
  split; [vm_compute; reflexivity|].
  vm_compute. intros H. discriminate H.
Qed.

(** C8 (amended): on a pool of K >= 1 endpoints [rotate_vpn] never
    raises, whatever the cursor holds: after any number j >= 1 of
    rotations the pool is unchanged, the cursor is (cursor + j) mod K,
    a valid position, and the active endpoint is the one under the
    cursor.  After exactly K rotations the cursor is back at its
    starting position (at cursor mod K in general) and the active
    endpoint is the endpoint under it; the manager is back in its
    original state, with its original active endpoint, exactly when the
    original active endpoint was the one under the cursor. *)
Theorem rotate_vpn_round_robin_closure (m : VPNManager) (j : nat) :
  (1 <= length (vpn_configs m))%nat ->
  let K := Z.of_nat (length (vpn_configs m)) in
  (exists v,
     Py.index (vpn_configs m) (current_vpn_index m mod K) = Some v /\
     VPNManagerImpl.rotate_times (length (vpn_configs m)) m
     = (Returned (Some v),
        mkVPNManager (vpn_configs m) (current_vpn_index m mod K) (Some v)) /\
     (0 <= current_vpn_index m < K ->
      VPNManagerImpl.at_cursor m = Some v /\
      (active_vpn m = VPNManagerImpl.at_cursor m <->
       VPNManagerImpl.rotate_times (length (vpn_configs m)) m
       = (Returned (active_vpn m), m)))) /\
  ((1 <= j)%nat ->
   exists m',
     VPNManagerImpl.rotate_times j m = (Returned (active_vpn m'), m') /\
     vpn_configs m' = vpn_configs m /\
     current_vpn_index m' = (current_vpn_index m + Z.of_nat j) mod K /\
     0 <= current_vpn_index m' < Z.of_nat (length (vpn_configs m')) /\
     active_vpn m' = VPNManagerImpl.at_cursor m' /\
     is_Some (active_vpn m')).
Proof.
  intros HK K. split.
  - destruct (rotate_times_state _ m HK HK) as [v [Hv Hrun]].
    fold K in Hv, Hrun.
    rewrite <- (Z.mul_1_l K) in Hv at 1.
    rewrite <- (Z.mul_1_l K) in Hrun at 1.
    rewrite Z.mod_add in Hv, Hrun by (subst K; lia).
    exists v. split; [exact Hv|]. split; [exact Hrun|].
    intros Hidx. rewrite Z.mod_small in Hv, Hrun by lia.
    split; [exact Hv|]. rewrite Hrun. unfold VPNManagerImpl.at_cursor.
    rewrite Hv. split.
    + intros Hact. destruct m; cbn in *. now subst.
    + intros H. now injection H as H _.
  - intros Hj.
    destruct (rotate_times_state j m HK Hj) as [v [Hv Hrun]]. fold K in Hv, Hrun.
    eexists (mkVPNManager _ _ _). split; [rewrite Hrun; reflexivity|].
    cbn [vpn_configs current_vpn_index active_vpn].
    assert (Hb := Z.mod_pos_bound (current_vpn_index m + Z.of_nat j) K
                    ltac:(subst K; lia)).
    split; [reflexivity|]. split; [reflexivity|]. split; [exact Hb|]. split.
    + unfold VPNManagerImpl.at_cursor. cbn. now rewrite Hv.
    + eauto.
Qed.

Lemma rotate_vpn_round_robin_closure_witness :
  exists m',
    VPNManagerImpl.rotate_times 3 manager_reloaded = (Returned (active_vpn m'), m') /\
    vpn_configs m' = vpn_configs manager_reloaded /\
    current_vpn_index m'
    = (current_vpn_index manager_reloaded + Z.of_nat 3)
        mod Z.of_nat (length (vpn_configs manager_reloaded)) /\
    0 <= current_vpn_index m' < Z.of_nat (length (vpn_configs m')) /\
    active_vpn m' = VPNManagerImpl.at_cursor m' /\
    is_Some (active_vpn m').
Proof.
  refine (proj2 (rotate_vpn_round_robin_closure manager_reloaded 3 _) _).
  - vm_compute. lia.
  - lia.
Defined.

(** States built through the constructor and [add_vpn] alone have
    their active endpoint under the cursor once the pool is non-empty. *)
Lemma add_vpn_active_at_cursor (vpn : VPNConfig) (m : VPNManager) :
  current_vpn_index m = 0 ->
  (vpn_configs m = [] -> active_vpn m = None) ->
  (vpn_configs m <> [] -> active_vpn m = VPNManagerImpl.at_cursor m) ->
  let m' := snd (VPNManagerImpl.add_vpn vpn m) in
  current_vpn_index m' = 0 /\
  (vpn_configs m' = [] -> active_vpn m' = None) /\
  (vpn_configs m' <> [] -> active_vpn m' = VPNManagerImpl.at_cursor m').
Proof.
  intros Hidx Hempty Hne. unfold VPNManagerImpl.add_vpn.
  destruct (enabled vpn); cbn [snd]; [|auto].
  cbn [vpn_configs current_vpn_index active_vpn].
  split; [exact Hidx|]. split.
  - intros H. now destruct (vpn_configs m).
  - intros _. unfold VPNManagerImpl.at_cursor in *.
    cbn [vpn_configs current_vpn_index]. rewrite Hidx in *.
    destruct (vpn_configs m) as [|c cs] eqn:Hc.
    + rewrite Hempty by reflexivity. reflexivity.
    + rewrite Hne by discriminate. reflexivity.
Qed.

(** ** Change monitoring (competitor-intelligence.py, [monitor_changes]) *)

(** C9: with no previous report, [monitor_changes] returns (it does not
    raise) the dictionary made of the URL, the message 'No previous data
    for comparison' and the current report, whatever the URL and the
    current report are; the keys 'changes_detected' and 'error' are not
    in it. *)
Theorem monitor_changes_without_baseline (an : Analysis) (url : string) (w : World) :
  let current := full_analysis an url w in
  let result :=
    [("url", VStr url);
     ("message", VStr "No previous data for comparison");
     ("current_data", VDict (fst current))] in
  CompetitorIntelligence.monitor_changes an url None w
  = (Returned result, snd current) /\
  PyDict.lookup result "current_data" = Some (VDict (fst current)) /\
  PyDict.contains result "message" = true /\
  PyDict.contains result "changes_detected" = false /\
  PyDict.contains result "changes" = false /\
  PyDict.contains result "error" = false.
Proof.
  intros current result.
  unfold CompetitorIntelligence.monitor_changes, bind, ret.
  subst current result.
  destruct (full_analysis an url w) as [d w'].
  cbn. repeat split.
Qed.

(** ** The request budget and the response cache (safe-scraper.py) *)

Section SafeScraperFacts.

Import SafeScraperImpl.
Variable env : Env.

Lemma fetch_page_budget_exhausted (url : string) (self : SafeScraper) (w : World) :
  max_requests self <= request_count self ->
  fetch_page env url (self, w) = (Returned None, (self, w)).
Proof.
  intros H. unfold fetch_page, bind, get_self, ret. cbn [fst snd].
  replace (request_count self >=? max_requests self) with true
    by (symmetry; apply Z.geb_le; lia).
  reflexivity.
Qed.

Lemma cached_response_fresh (url u html : string) (ts : Z)
    (self : SafeScraper) (w : World) :
  cache_enabled self = true ->
  files w !! cache_file url = Some (CacheJson u html ts) ->
  now w - ts <= ttl ->
  _get_cached_response url (self, w) = (Returned (Some html), (self, w)).
Proof.
  intros Hen Hf Hfresh. unfold _get_cached_response.
  rewrite Hen, Hf. cbn [negb].
  replace (now w - ts >? ttl) with false; [reflexivity|].
  symmetry. rewrite Z.gtb_ltb. apply Z.ltb_ge. lia.
Qed.

Lemma truthy_Some (html : string) : html <> "" -> Py.truthy (Some html) = true.
Proof.
  intros H. unfold Py.truthy.
  destruct (String.eqb_spec html ""); [contradiction|reflexivity].
Qed.

Lemma truthy_inv (o : option string) :
  Py.truthy o = true -> exists html, o = Some html /\ html <> "".
Proof.
  destruct o as [html|]; cbn; [|discriminate].
  destruct (String.eqb_spec html ""); [discriminate|]. eauto.
Qed.

Lemma fetch_page_cache_hit (url u html : string) (ts : Z)
    (self : SafeScraper) (w : World) :
  request_count self < max_requests self ->
  cache_enabled self = true ->
  files w !! cache_file url = Some (CacheJson u html ts) ->
  now w - ts <= ttl ->
  html <> "" ->
  fetch_page env url (self, w) = (Returned (Some html), (self, w)).
Proof.
  intros Hb Hen Hf Hfresh Hne.
  unfold fetch_page, bind, get_self, ret. cbn [fst snd].
  replace (request_count self >=? max_requests self) with false
    by (symmetry; rewrite Z.geb_leb; apply Z.leb_gt; lia).
  rewrite (cached_response_fresh url u html ts self w Hen Hf Hfresh).
  now rewrite (truthy_Some html Hne).
Qed.

End SafeScraperFacts.

Section SafeScraperSteps.

Import SafeScraperImpl.
Variable env : Env.

Lemma sleep_files (d : Z) (w : World) :
  files (snd (sleep d w)) = files w.
Proof. unfold sleep. now destruct (d <? 0). Qed.

Lemma retrying_files {A} (wait : Z -> Z) (f : M World A) :
  (forall w, files (snd (f w)) = files w) ->
  forall more n w, files (snd (Tenacity.retrying wait more n f w)) = files w.
Proof.
  intros Hf more. induction more as [|more IH]; intros n w; cbn.
  - specialize (Hf w). now destruct (f w) as [[a|e] w1].
  - specialize (Hf w). destruct (f w) as [[a|e] w1]; [exact Hf|].
    unfold bind.
    pose proof (sleep_files (Py.seconds (wait n)) w1) as Hs.
    destruct (sleep (Py.seconds (wait n)) w1) as [[[]|e'] w2]; cbn in *.
    + rewrite IH. congruence.
    + congruence.
Qed.

Lemma web_fetch_page_files (ws : WebScraper) (url : string) (w : World) :
  files (snd (WebScraperFetch.fetch_page env ws url w)) = files w.
Proof.
  unfold WebScraperFetch.fetch_page, Tenacity.retry.
  apply retrying_files. clear w. intros w.
  unfold WebScraperFetch.fetch_page_body.
  destruct (validators_url env url); cbn; [|reflexivity].
  unfold try_except, bind, http_get, raise, ret.
  destruct (session_get env (length (requests w)) url) as [st text|e];
    [|reflexivity].
  destruct ((400 <=? st) && (st <? 600)); [reflexivity|].
  set (w1 := after_request w url).
  pose proof (sleep_files (delay ws) w1) as Hs.
  destruct (sleep (delay ws) w1) as [[[]|e'] w2]; [exact Hs|].
  now destruct (is_RequestException e').
Qed.

Lemma fetch_page_end (url : string) (self : SafeScraper) (w : World) :
  match fetch_page env url (self, w) with
  | (r, (self', w')) => FetchEnd env url self w r self' w'
  end.
Proof.
  unfold fetch_page, bind, get_self. cbn [fst snd].
  destruct (request_count self >=? max_requests self) eqn:Hb.
  { apply EndBudget. apply Z.geb_le in Hb. lia. }
  assert (Hlt : request_count self < max_requests self).
  { rewrite Z.geb_leb in Hb. apply Z.leb_gt in Hb. lia. }
  assert (Hc : exists c, _get_cached_response url (self, w) = (Returned c, (self, w))).
  { unfold _get_cached_response.
    destruct (negb (cache_enabled self)); [eauto|].
    destruct (files w !! cache_file url) as [[u h ts|]|]; eauto.
    destruct (now w - ts >? ttl); eauto. }
  destruct Hc as [c Hc]. rewrite Hc.
  destruct (Py.truthy c) eqn:Ht.
  { destruct (truthy_inv c Ht) as [html [-> Hne]].
    now apply EndCacheHit. }
  unfold uniform. unfold lift at 1. cbn [fst snd].
  set (w1 := mkWorld _ _ _ _ _).
  set (d := random_uniform env _ _ _).
  assert (Hsl : exists r2 w2,
             (if request_count self >? 0 then lift (sleep d) else ret tt)
               (self, w1) = (r2, (self, w2)) /\ files w2 = files w).
  { destruct (request_count self >? 0).
    - unfold lift. cbn [fst snd].
      pose proof (sleep_files d w1) as Hs.
      destruct (sleep d w1) as [r2 w2]. exists r2, w2. split; [reflexivity|].
      exact Hs.
    - exists (Returned tt), w1. split; reflexivity. }
  destruct Hsl as [r2 [w2 [Hsl Hw2]]]. rewrite Hsl.
  destruct r2 as [[]|e2].
  2:{ apply EndNoContent; [exact Hlt|discriminate|exact Hw2]. }
  unfold lift. cbn [fst snd].
  pose proof (web_fetch_page_files (base self) url w2) as Hw3.
  destruct (WebScraperFetch.fetch_page env (base self) url w2) as [r3 w3].
  cbn [snd] in Hw3.
  destruct r3 as [html|e3].
  2:{ apply EndNoContent; [exact Hlt|discriminate|congruence]. }
  destruct (Py.truthy html) eqn:Ht3.
  - destruct (truthy_inv html Ht3) as [h [-> Hne]].
    unfold set_request_count, _save_to_cache, ret. cbn [fst snd default].
    destruct (cache_enabled self) eqn:Hen; cbn [negb cache_enabled with_request_count].
    + rewrite Hen. cbn [negb].
      destruct (open_for_write env (cache_file url)) eqn:Hop.
      * apply EndFetched; [exact Hlt|exact Hne|].
        intros _ _. cbn [files now]. apply lookup_insert_eq.
      * apply EndFetched; [exact Hlt|exact Hne|]. intros _ Hx. congruence.
    + rewrite Hen. cbn [negb].
      apply EndFetched; [exact Hlt|exact Hne|]. intros Hx. congruence.
  - apply EndNoContent; [exact Hlt| |congruence].
    intros h Hh. injection Hh as ->. cbn in Ht3.
    destruct (String.eqb_spec h ""); [assumption|discriminate].
Qed.

End SafeScraperSteps.

(** C4: once [request_count >= max_requests], every further call of
    [fetch_page], for any URL, at any later time and whatever the cache
    directory holds (a fresh entry for the URL included), returns [None];
    the scraper is left as it was, no request is issued, nothing is slept
    and the cache is not touched. *)
Theorem exhausted_budget_fails_every_further_fetch
    (env : Env) (self : SafeScraper) (w : World) (calls : list (Z * string)) :
  max_requests self <= request_count self ->
  Forall (fun r => r = Returned None)
         (fst (SafeScraperImpl.session env calls (self, w))) /\
  fst (snd (SafeScraperImpl.session env calls (self, w))) = self /\
  requests (snd (snd (SafeScraperImpl.session env calls (self, w)))) = requests w /\
  sleeps (snd (snd (SafeScraperImpl.session env calls (self, w)))) = sleeps w /\
  files (snd (snd (SafeScraperImpl.session env calls (self, w)))) = files w.
Proof.
  intros Hb. revert w.
  induction calls as [|[d url] rest IH]; intros w.
  - cbn. auto.
  - cbn [SafeScraperImpl.session fst snd].
    rewrite (fetch_page_budget_exhausted env url self (elapse d w) Hb).
    destruct (IH (elapse d w)) as (Hall & Hself & Hreq & Hsl & Hf).
    destruct (SafeScraperImpl.session env rest (self, elapse d w)) as [rs st2].
    cbn [fst snd] in *. repeat split; auto.
Qed.

Lemma exhausted_budget_fails_every_further_fetch_witness :
  let calls := [(0, page_url); (Py.seconds 30, "https://example.com/other")] in
  Forall (fun r => r = Returned None)
         (fst (SafeScraperImpl.session env_serving calls (scraper_spent, world_cached))) /\
  fst (snd (SafeScraperImpl.session env_serving calls (scraper_spent, world_cached)))
  = scraper_spent /\
  requests (snd (snd (SafeScraperImpl.session env_serving calls (scraper_spent, world_cached))))
  = requests world_cached /\
  sleeps (snd (snd (SafeScraperImpl.session env_serving calls (scraper_spent, world_cached))))
  = sleeps world_cached /\
  files (snd (snd (SafeScraperImpl.session env_serving calls (scraper_spent, world_cached))))
  = files world_cached.
Proof.
  intros calls.
  apply (exhausted_budget_fails_every_further_fetch env_serving scraper_spent
           world_cached calls).
  vm_compute. discriminate.
Defined.

(** C3, as stated, fails: with [request_count = max_requests = 1] and a
    fresh cache entry for the URL, [_get_cached_response] would deliver
    the cached page, but [fetch_page] returns [None]. *)
Lemma fresh_cache_entry_does_not_bypass_budget :
  request_count scraper_spent >= max_requests scraper_spent /\
  fst (SafeScraperImpl._get_cached_response page_url (scraper_spent, world_cached))
  = Returned (Some page_html) /\
  fst (SafeScraperImpl.fetch_page env_serving page_url (scraper_spent, world_cached))
  = Returned None /\
  fst (SafeScraperImpl.fetch_page env_serving page_url (scraper_spent, world_cached))
  <> Returned (Some page_html).
Proof.
  split; [vm_compute; discriminate|].
  split; [vm_compute; reflexivity|].
  split; [vm_compute; reflexivity|].
  vm_compute. discriminate.
Qed.

(** C3 (amended): for a URL whose key has a fresh (within 24 hours)
    cache entry with non-empty content, [fetch_page] answers from the
    cache at once while [request_count < max_requests]: the cached
    content is returned and the scraper and the world are unchanged (no
    delay is drawn or slept, no request is issued, nothing is written).
    The budget check comes first and is not bypassed: with
    [request_count >= max_requests] the same call returns [None]. *)
Theorem fresh_cache_entry_is_returned_within_budget
    (env : Env) (url u html : string) (cached_time : Z)
    (self : SafeScraper) (w : World) :
  cache_enabled self = true ->
  files w !! SafeScraperImpl.cache_file url = Some (CacheJson u html cached_time) ->
  now w - cached_time <= SafeScraperImpl.ttl ->
  html <> "" ->
  SafeScraperImpl.fetch_page env url (self, w)
  = (if request_count self <? max_requests self
     then Returned (Some html) else Returned None,
     (self, w)).
Proof.
  intros Hen Hf Hfresh Hne.
  destruct (Z.ltb_spec (request_count self) (max_requests self)) as [Hlt|Hge].
  - now apply (fetch_page_cache_hit env url u html cached_time).
  - now apply fetch_page_budget_exhausted.
Qed.

Lemma fresh_cache_entry_is_returned_within_budget_witness :
  SafeScraperImpl.fetch_page env_serving page_url (scraper_fresh 50, world_cached)
  = (Returned (Some page_html), (scraper_fresh 50, world_cached)).
Proof.
  apply (fresh_cache_entry_is_returned_within_budget env_serving page_url
           page_url page_html 0 (scraper_fresh 50) world_cached).
  - reflexivity.
  - vm_compute. reflexivity.
  - vm_compute. discriminate.
  - discriminate.
Defined.

Lemma fetch_page_keeps_budget (env : Env) (url : string)
    (self : SafeScraper) (w : World) :
  request_count self <= max_requests self ->
  let self' := fst (snd (SafeScraperImpl.fetch_page env url (self, w))) in
  max_requests self' = max_requests self /\
  request_count self <= request_count self' <= request_count self + 1 /\
  request_count self' <= max_requests self'.
Proof.
  intros Hinv self'. subst self'.
  pose proof (fetch_page_end env url self w) as Hend.
  destruct (SafeScraperImpl.fetch_page env url (self, w)) as [r [self1 w1]].
  cbn [fst snd]. inversion Hend; subst; cbn; lia.
Qed.

Lemma session_keeps_budget (env : Env) (calls : list (Z * string)) :
  forall (self : SafeScraper) (w : World),
    request_count self <= max_requests self ->
    let self' := fst (snd (SafeScraperImpl.session env calls (self, w))) in
    max_requests self' = max_requests self /\
    request_count self <= request_count self' /\
    request_count self' <= max_requests self'.
Proof.
  induction calls as [|[d url] rest IH]; intros self w Hinv; cbn zeta.
  - cbn. lia.
  - cbn [SafeScraperImpl.session fst snd].
    pose proof (fetch_page_keeps_budget env url self (elapse d w) Hinv) as Hstep.
    cbn zeta in Hstep.
    destruct (SafeScraperImpl.fetch_page env url (self, elapse d w))
      as [r [self1 w1]].
    cbn [fst snd] in Hstep.
    specialize (IH self1 w1 ltac:(lia)). cbn zeta in IH.
    destruct (SafeScraperImpl.session env rest (self1, w1)) as [rs [self2 w2]].
    cbn [fst snd] in *. lia.
Qed.

(** C10: for [max_requests >= 0], in a session started by the
    constructor, after any sequence of [fetch_page] calls (hence after
    every call of a session) [request_count <= max_requests], so that
    the [requests_remaining] of [get_session_stats] is not negative; the
    ceiling itself never changes and the counter starts at 0 and never
    decreases.  One call adds at most one to the counter. *)
Theorem request_count_never_exceeds_max_requests
    (env : Env) (min_delay max_delay limit timeout : Z) (cache : bool)
    (w : World) (calls : list (Z * string)) (url : string) :
  0 <= limit ->
  exists self0 w0,
    SafeScraperImpl.init env min_delay max_delay limit timeout cache w
    = (Returned self0, w0) /\
    request_count self0 = 0 /\
    let st := snd (SafeScraperImpl.session env calls (self0, w0)) in
    max_requests (fst st) = limit /\
    0 <= request_count (fst st) <= max_requests (fst st) /\
    0 <= requests_remaining (SafeScraperImpl.get_session_stats (fst st)) /\
    request_count (fst (snd (SafeScraperImpl.fetch_page env url st)))
    <= request_count (fst st) + 1.
Proof.
  intros Hlimit. eexists _, _. split; [reflexivity|].
  cbn [request_count]. split; [reflexivity|].
  set (self0 := mkSafeScraper _ _ _ _ _ _).
  set (w0 := mkWorld _ _ _ _ _).
  pose proof (session_keeps_budget env calls self0 w0 Hlimit) as Hs.
  cbn zeta in Hs |- *.
  destruct (SafeScraperImpl.session env calls (self0, w0)) as [rs [self1 w1]].
  cbn [fst snd] in *.
  pose proof (fetch_page_keeps_budget env url self1 w1 ltac:(lia)) as Hstep.
  cbn zeta in Hstep.
  unfold SafeScraperImpl.get_session_stats. cbn [requests_remaining].
  cbn [max_requests request_count self0] in Hs. lia.
Qed.

Lemma request_count_never_exceeds_max_requests_witness :
  exists self0 w0,
    SafeScraperImpl.init env_serving (Py.seconds 5) (Py.seconds 10) 2 30 true world_empty
    = (Returned self0, w0) /\
    request_count self0 = 0 /\
    let st := snd (SafeScraperImpl.session env_serving
                     [(0, page_url); (1, "https://example.com/a");
                      (2, "https://example.com/b")] (self0, w0)) in
    max_requests (fst st) = 2 /\
    0 <= request_count (fst st) <= max_requests (fst st) /\
    0 <= requests_remaining (SafeScraperImpl.get_session_stats (fst st)) /\
    request_count (fst (snd (SafeScraperImpl.fetch_page env_serving page_url st)))
    <= request_count (fst st) + 1.
Proof.
  apply (request_count_never_exceeds_max_requests env_serving (Py.seconds 5)
           (Py.seconds 10) 2 30 true world_empty
           [(0, page_url); (1, "https://example.com/a"); (2, "https://example.com/b")]
           page_url).
  lia.
Defined.

(** ** Fetching with retries (web-scraper.py, [fetch_page]) *)

Section FetchAttempts.

Import WebScraperFetch.
Variables (env : Env) (self : WebScraper) (url : string).

Lemma body_invalid_url (w : World) :
  validators_url env url = false ->
  fetch_page_body env self url w = (Returned None, w).
Proof. intros H. unfold fetch_page_body. now rewrite H. Qed.

Lemma body_raises (w : World) (e : Exn) :
  validators_url env url = true ->
  raised_for (session_get env (length (requests w)) url) = Some e ->
  fetch_page_body env self url w = (Raised e, after_request w url).
Proof.
  intros Hv He. unfold fetch_page_body, try_except, bind, http_get, raise.
  rewrite Hv. cbn [negb].
  destruct (session_get env (length (requests w)) url) as [st text|ne];
    cbn in He.
  - destruct ((400 <=? st) && (st <? 600)); [|discriminate].
    now injection He as <-.
  - now injection He as <-.
Qed.

Lemma body_returns (w : World) (status : Z) (text : string) :
  validators_url env url = true ->
  session_get env (length (requests w)) url = HttpResponse status text ->
  raised_for (HttpResponse status text) = None ->
  0 <= delay self ->
  fetch_page_body env self url w
  = (Returned (Some text), after_sleep (after_request w url) (delay self)).
Proof.
  intros Hv Hr He Hd.
  unfold fetch_page_body, try_except, bind, http_get, raise, ret, sleep.
  rewrite Hv. cbn [negb]. cbv beta. rewrite Hr. cbn in He.
  destruct ((400 <=? status) && (status <? 600)); [discriminate|].
  replace (delay self <? 0) with false by (symmetry; apply Z.ltb_ge; lia).
  reflexivity.
Qed.

Lemma wait_after_first_attempts :
  Py.seconds (Tenacity.wait_exponential 1 4 10 1) = 4000000 /\
  Py.seconds (Tenacity.wait_exponential 1 4 10 2) = 4000000.
Proof. split; reflexivity. Qed.

Lemma tenacity_sleep (w : World) (n : Z) :
  n = 1 \/ n = 2 ->
  sleep (Py.seconds (Tenacity.wait_exponential 1 4 10 n)) w
  = (Returned tt, after_sleep w 4000000).
Proof. intros [-> | ->]; reflexivity. Qed.

Lemma fetch_invalid_url (w : World) :
  validators_url env url = false ->
  fetch_page env self url w = (Returned None, w).
Proof.
  intros H. unfold fetch_page, Tenacity.retry. cbn [Nat.pred Tenacity.retrying].
  now rewrite body_invalid_url.
Qed.

Lemma fetch_three_failures (w : World) (e1 e2 e3 : Exn) :
  let n := length (requests w) in
  validators_url env url = true ->
  raised_for (session_get env n url) = Some e1 ->
  raised_for (session_get env (n + 1) url) = Some e2 ->
  raised_for (session_get env (n + 2) url) = Some e3 ->
  fetch_page env self url w
  = (Raised (RetryError e3),
     mkWorld (now w + 8000000) (requests w ++ [url; url; url])
       (sleeps w ++ [4000000; 4000000]) (draws w) (files w)).
Proof.
  intros n Hv H1 H2 H3. subst n.
  unfold fetch_page, Tenacity.retry. cbn [Nat.pred Tenacity.retrying].
  rewrite (body_raises w e1 Hv H1). unfold bind at 1.
  rewrite tenacity_sleep by auto.
  set (w1 := after_sleep (after_request w url) 4000000).
  assert (L1 : length (requests w1) = (length (requests w) + 1)%nat)
    by (cbn; rewrite length_app; reflexivity).
  rewrite (body_raises w1 e2 Hv) by (rewrite L1; exact H2).
  unfold bind at 1. rewrite tenacity_sleep by auto.
  set (w2 := after_sleep (after_request w1 url) 4000000).
  assert (L2 : length (requests w2) = (length (requests w) + 2)%nat)
    by (cbn; rewrite !length_app; cbn; lia).
  rewrite (body_raises w2 e3 Hv) by (rewrite L2; exact H3).
  f_equal. subst w2 w1. unfold after_request, after_sleep. cbn.
  f_equal; [lia| |]; now rewrite <- !app_assoc.
Qed.

Lemma fetch_first_attempt_succeeds (w : World) (status : Z) (text : string) :
  validators_url env url = true ->
  session_get env (length (requests w)) url = HttpResponse status text ->
  raised_for (HttpResponse status text) = None ->
  0 <= delay self ->
  fetch_page env self url w
  = (Returned (Some text), after_sleep (after_request w url) (delay self)).
Proof.
  intros Hv Hr He Hd. unfold fetch_page, Tenacity.retry.
  cbn [Nat.pred Tenacity.retrying].
  now rewrite (body_returns w status text Hv Hr He Hd).
Qed.

Lemma fetch_second_attempt_succeeds (w : World) (e1 : Exn)
    (status : Z) (text : string) :
  let n := length (requests w) in
  validators_url env url = true ->
  raised_for (session_get env n url) = Some e1 ->
  session_get env (n + 1) url = HttpResponse status text ->
  raised_for (HttpResponse status text) = None ->
  0 <= delay self ->
  fetch_page env self url w
  = (Returned (Some text),
     after_sleep
       (after_request (after_sleep (after_request w url) 4000000) url)
       (delay self)).
Proof.
  intros n Hv H1 H2 He Hd. subst n.
  unfold fetch_page, Tenacity.retry. cbn [Nat.pred Tenacity.retrying].
  rewrite (body_raises w e1 Hv H1). unfold bind at 1.
  rewrite tenacity_sleep by auto.
  set (w1 := after_sleep (after_request w url) 4000000).
  assert (L1 : length (requests w1) = (length (requests w) + 1)%nat)
    by (cbn; rewrite length_app; reflexivity).
  rewrite (body_returns w1 status text Hv) by (rewrite ?L1; auto).
  reflexivity.
Qed.

Lemma fetch_third_attempt_succeeds (w : World) (e1 e2 : Exn)
    (status : Z) (text : string) :
  let n := length (requests w) in
  validators_url env url = true ->
  raised_for (session_get env n url) = Some e1 ->
  raised_for (session_get env (n + 1) url) = Some e2 ->
  session_get env (n + 2) url = HttpResponse status text ->
  raised_for (HttpResponse status text) = None ->
  0 <= delay self ->
  fetch_page env self url w
  = (Returned (Some text),
     after_sleep
       (after_request
          (after_sleep
             (after_request (after_sleep (after_request w url) 4000000) url)
             4000000) url)
       (delay self)).
Proof.
  intros n Hv H1 H2 H3 He Hd. subst n.
  unfold fetch_page, Tenacity.retry. cbn [Nat.pred Tenacity.retrying].
  rewrite (body_raises w e1 Hv H1). unfold bind at 1.
  rewrite tenacity_sleep by auto.
  set (w1 := after_sleep (after_request w url) 4000000).
  assert (L1 : length (requests w1) = (length (requests w) + 1)%nat)
    by (cbn; rewrite length_app; reflexivity).
  rewrite (body_raises w1 e2 Hv) by (rewrite L1; exact H2).
  unfold bind at 1. rewrite tenacity_sleep by auto.
  set (w2 := after_sleep (after_request w1 url) 4000000).
  assert (L2 : length (requests w2) = (length (requests w) + 2)%nat)
    by (cbn; rewrite !length_app; cbn; lia).
  rewrite (body_returns w2 status text Hv) by (rewrite ?L2; auto).
  reflexivity.
Qed.

Lemma body_requests (w : World) :
  (length (requests (snd (fetch_page_body env self url w)))
   <= length (requests w) + 1)%nat.
Proof.
  unfold fetch_page_body, try_except, bind, http_get, raise, ret, sleep.
  destruct (validators_url env url); cbn [negb]; [|cbn; lia].
  destruct (session_get env (length (requests w)) url) as [st text|ne];
    [|cbn; rewrite length_app; cbn; lia].
  destruct ((400 <=? st) && (st <? 600)); [cbn; rewrite length_app; cbn; lia|].
  cbn [now requests]. destruct (delay self <? 0); cbn; rewrite length_app; cbn; lia.
Qed.

Lemma fetch_at_most_three_requests (w : World) :
  (length (requests (snd (fetch_page env self url w)))
   <= length (requests w) + 3)%nat.
Proof.
  unfold fetch_page, Tenacity.retry. cbn [Nat.pred Tenacity.retrying].
  pose proof (body_requests w) as B1.
  destruct (fetch_page_body env self url w) as [[a|e] w1]; cbn [snd] in *; [lia|].
  unfold bind at 1. rewrite tenacity_sleep by auto. cbn [fst snd].
  pose proof (body_requests (after_sleep w1 4000000)) as B2.
  destruct (fetch_page_body env self url (after_sleep w1 4000000))
    as [[a|e'] w2]; cbn [snd requests after_sleep] in *; [lia|].
  unfold bind at 1. rewrite tenacity_sleep by auto. cbn [fst snd].
  pose proof (body_requests (after_sleep w2 4000000)) as B3.
  destruct (fetch_page_body env self url (after_sleep w2 4000000))
    as [[a|e''] w3]; cbn [snd requests after_sleep] in *; lia.
Qed.

End FetchAttempts.

(** ** Two fetches of one URL (safe-scraper.py, [fetch_page]) *)

Section PhysicalFetch.

Import WebScraperFetch.
Variables (env : Env) (ws : WebScraper) (url : string).

(** One attempt: what it issues and what it returns. *)
Lemma attempt_cases (w : World) :
  match fetch_page_body env ws url w with
  | (Returned None, w') => validators_url env url = false /\ w' = w
  | (Returned (Some text), w') =>
      requests w' = requests w ++ [url] /\
      exists status,
        session_get env (length (requests w)) url = HttpResponse status text /\
        raised_for (HttpResponse status text) = None
  | (Raised e, w') => requests w' = requests w ++ [url]
  end.
Proof.
  unfold fetch_page_body, try_except, bind, http_get, raise, ret.
  destruct (validators_url env url); cbn [negb]; [|auto].
  destruct (session_get env (length (requests w)) url) as [status text|ne] eqn:Hr.
  - cbn [raised_for].
    destruct ((400 <=? status) && (status <? 600)) eqn:Hs; [reflexivity|].
    unfold sleep. destruct (delay ws <? 0); cbn.
    + reflexivity.
    + split; [reflexivity|]. exists status. split; [reflexivity|].
      cbn [raised_for]. now rewrite Hs.
  - reflexivity.
Qed.

(** A call that returns a page made one to three requests, and the page
    is the answer to the last of them. *)
Lemma web_fetch_content (w w' : World) (html : string) :
  fetch_page env ws url w = (Returned (Some html), w') ->
  exists k status,
    (1 <= k <= 3)%nat /\
    requests w' = requests w ++ repeat url k /\
    session_get env (length (requests w) + k - 1) url = HttpResponse status html /\
    raised_for (HttpResponse status html) = None.
Proof.
  unfold fetch_page, Tenacity.retry. cbn [Nat.pred Tenacity.retrying].
  pose proof (attempt_cases w) as A1.
  destruct (fetch_page_body env ws url w) as [[[t1|]|e1] w1].
  - intros H. injection H as -> ->. destruct A1 as [Hq [status [Hr He]]].
    exists 1%nat, status. split; [lia|]. split; [exact Hq|].
    replace (length (requests w) + 1 - 1)%nat with (length (requests w)) by lia.
    auto.
  - discriminate.
  - unfold bind at 1. rewrite tenacity_sleep by auto.
    set (v1 := after_sleep w1 4000000).
    pose proof (attempt_cases v1) as A2.
    assert (L1 : length (requests v1) = (length (requests w) + 1)%nat)
      by (cbn; rewrite A1, length_app; reflexivity).
    destruct (fetch_page_body env ws url v1) as [[[t2|]|e2] w2].
    + intros H. injection H as -> ->. destruct A2 as [Hq [status [Hr He]]].
      exists 2%nat, status. split; [lia|]. split.
      * rewrite Hq. cbn [requests v1 after_sleep]. rewrite A1.
        now rewrite <- app_assoc.
      * rewrite L1 in Hr.
        replace (length (requests w) + 2 - 1)%nat
          with (length (requests w) + 1)%nat by lia.
        auto.
    + discriminate.
    + unfold bind at 1. rewrite tenacity_sleep by auto.
      set (v2 := after_sleep w2 4000000).
      pose proof (attempt_cases v2) as A3.
      assert (Q2 : requests v2 = requests w ++ [url; url]).
      { cbn [requests v2 after_sleep]. rewrite A2.
        cbn [requests v1 after_sleep]. rewrite A1. now rewrite <- app_assoc. }
      destruct (fetch_page_body env ws url v2) as [[[t3|]|e3] w3].
      * intros H. injection H as -> ->. destruct A3 as [Hq [status [Hr He]]].
        exists 3%nat, status. split; [lia|]. split.
        -- rewrite Hq, Q2. now rewrite <- app_assoc.
        -- rewrite Q2, length_app in Hr. cbn [length] in Hr.
           replace (length (requests w) + 3 - 1)%nat
             with (length (requests w) + 2)%nat by lia.
           auto.
      * discriminate.
      * discriminate.
Qed.

End PhysicalFetch.

Section TwoFetches.

Import SafeScraperImpl.
Variables (env : Env) (url : string).

(** How a call that returns a non-empty page came by it: from the cache,
    nothing having changed, or by one physical fetch. *)
Lemma fetch_page_content (self self1 : SafeScraper) (w w1 : World) (html : string) :
  fetch_page env url (self, w) = (Returned (Some html), (self1, w1)) ->
  html <> "" ->
  request_count self < max_requests self /\
  ((self1 = self /\ w1 = w /\
    _get_cached_response url (self, w) = (Returned (Some html), (self, w))) \/
   (self1 = with_request_count self (request_count self + 1) /\
    (cache_enabled self = true ->
     open_for_write env (cache_file url) = true ->
     files w1 !! cache_file url = Some (CacheJson url html (now w1))) /\
    exists k status,
      (1 <= k <= 3)%nat /\
      requests w1 = requests w ++ repeat url k /\
      session_get env (length (requests w) + k - 1) url = HttpResponse status html /\
      WebScraperFetch.raised_for (HttpResponse status html) = None)).
Proof.
  unfold fetch_page, bind, get_self. cbn [fst snd].
  destruct (request_count self >=? max_requests self) eqn:Hb; [discriminate|].
  assert (Hlt : request_count self < max_requests self).
  { rewrite Z.geb_leb in Hb. apply Z.leb_gt in Hb. lia. }
  intros H Hne. split; [exact Hlt|].
  assert (Hc : exists c, _get_cached_response url (self, w) = (Returned c, (self, w))).
  { unfold _get_cached_response.
    destruct (negb (cache_enabled self)); [eauto|].
    destruct (files w !! cache_file url) as [[u h ts|]|]; eauto.
    destruct (now w - ts >? ttl); eauto. }
  destruct Hc as [c Hc]. rewrite Hc in H |- *.
  destruct (Py.truthy c) eqn:Ht.
  { left. unfold ret in H. injection H as -> -> ->. auto. }
  right. revert H.
  unfold uniform. unfold lift at 1. cbn [fst snd].
  set (v1 := mkWorld _ _ _ _ _).
  set (d := random_uniform env _ _ _).
  assert (Hsl : exists r2 v2,
             (if request_count self >? 0 then lift (sleep d) else ret tt)
               (self, v1) = (r2, (self, v2)) /\ requests v2 = requests w).
  { destruct (request_count self >? 0).
    - unfold lift, sleep. cbn [fst snd].
      destruct (d <? 0); do 2 eexists; split; reflexivity.
    - exists (Returned tt), v1. split; reflexivity. }
  destruct Hsl as [r2 [v2 [Hsl Hq2]]]. rewrite Hsl.
  destruct r2 as [[]|e2]; [|discriminate].
  unfold lift. cbn [fst snd].
  pose proof (web_fetch_content env (base self) url v2) as Hweb.
  destruct (WebScraperFetch.fetch_page env (base self) url v2) as [r3 v3].
  destruct r3 as [page|e3]; [|discriminate].
  destruct (Py.truthy page) eqn:Ht3.
  - destruct (truthy_inv page Ht3) as [h [-> Hh]].
    destruct (Hweb v3 h eq_refl) as (k & status & Hk & Hq & Hr & He).
    rewrite Hq2 in Hq, Hr.
    unfold set_request_count, _save_to_cache, ret. cbn [fst snd default].
    cbn [cache_enabled with_request_count].
    destruct (cache_enabled self) eqn:Hen; cbn [negb].
    + destruct (open_for_write env (cache_file url)) eqn:Hop.
      * intros H. injection H as <- <- <-.
        split; [reflexivity|]. split.
        -- intros _ _. cbn [files now]. apply lookup_insert_eq.
        -- exists k, status. cbn [requests]. auto.
      * intros H. injection H as <- <- <-.
        split; [reflexivity|]. split; [intros _ Hx; discriminate Hx|].
        exists k, status. auto.
    + intros H. injection H as <- <- <-.
      split; [reflexivity|]. split; [intros Hx; discriminate Hx|].
      exists k, status. auto.
  - unfold ret. intros H. injection H as -> _ _. exfalso.
    cbn in Ht3. destruct (String.eqb_spec html ""); [contradiction|discriminate].
Qed.

End TwoFetches.

(** C2, as stated, fails twice.  A scraper whose budget is one request
    is within budget before its first fetch of a URL; that fetch returns
    the page and saves it, and the second fetch, an hour later, returns
    [None] although the entry is fresh.  And a first fetch whose first
    attempt times out issues two physical requests. *)
Lemma second_fetch_is_refused_and_first_fetch_may_cost_two_requests :
  let first := SafeScraperImpl.fetch_page env_serving page_url
                 (scraper_fresh 1, world_empty) in
  let second := SafeScraperImpl.fetch_page env_serving page_url
                  (fst (snd first), elapse (Py.hours 1) (snd (snd first))) in
  let retried := SafeScraperImpl.fetch_page env_recovering page_url
                   (scraper_fresh 50, world_empty) in
  cache_enabled (scraper_fresh 1) = true /\
  request_count (scraper_fresh 1) < max_requests (scraper_fresh 1) /\
  fst first = Returned (Some page_html) /\
  files (snd (snd first)) !! SafeScraperImpl.cache_file page_url
  = Some (CacheJson page_url page_html (now (snd (snd first)))) /\
  fst second = Returned None /\
  fst retried = Returned (Some page_html) /\
  requests (snd (snd retried)) = [page_url; page_url].
Proof.
  cbv zeta. repeat split; vm_compute; reflexivity.
Qed.

(** C2 (amended): with caching enabled and the cache file writable, when
    a fetch of [url] has returned non-empty content, it was within
    budget and either came from the cache, nothing having changed, or
    was one physical fetch: the counter grew by one, between one and
    three GET requests for [url] were issued (one per attempt of the
    retried [WebScraper.fetch_page]) and the content is the answer to
    the last of them; in both cases the cache holds the content.  A
    second fetch of [url] in the 24-hour window of the entry then issues
    no request, draws and sleeps no delay, writes nothing and leaves the
    scraper, hence [request_count], unchanged: it returns the cached
    content when the budget is still not exhausted, and [None] when the
    first fetch used the last request of the budget.  Over the two calls
    the counter has advanced by at most one and at most three GET
    requests were issued, all of them by the first call. *)
Theorem second_fetch_within_ttl_comes_from_cache
    (env : Env) (url html : string) (self : SafeScraper) (w : World) (dt : Z) :
  let first := SafeScraperImpl.fetch_page env url (self, w) in
  let self1 := fst (snd first) in
  let w1 := snd (snd first) in
  let second := SafeScraperImpl.fetch_page env url (self1, elapse dt w1) in
  cache_enabled self = true ->
  open_for_write env (SafeScraperImpl.cache_file url) = true ->
  fst first = Returned (Some html) ->
  html <> "" ->
  SafeScraperImpl.within_ttl w1 url (now w1 + dt) ->
  request_count self < max_requests self /\
  ((self1 = self /\ w1 = w) \/
   (request_count self1 = request_count self + 1 /\
    exists k status,
      (1 <= k <= 3)%nat /\
      requests w1 = requests w ++ repeat url k /\
      session_get env (length (requests w) + k - 1) url = HttpResponse status html /\
      WebScraperFetch.raised_for (HttpResponse status html) = None)) /\
  (exists u ts,
     files w1 !! SafeScraperImpl.cache_file url = Some (CacheJson u html ts)) /\
  fst second = (if request_count self1 <? max_requests self1
                then Returned (Some html) else Returned None) /\
  snd second = (self1, elapse dt w1) /\
  requests (snd (snd second)) = requests w1 /\
  sleeps (snd (snd second)) = sleeps w1 /\
  draws (snd (snd second)) = draws w1 /\
  files (snd (snd second)) = files w1 /\
  request_count (fst (snd second)) = request_count self1 /\
  request_count (fst (snd second)) <= request_count self + 1 /\
  (length (requests (snd (snd second))) <= length (requests w) + 3)%nat.
Proof.
  intros first self1 w1 second Hen Hop Hret Hne Hwin.
  subst second self1 w1.
  destruct first as [r [self1 w1]] eqn:Hfirst. cbn [fst snd] in *. subst r.
  destruct (fetch_page_content env url self self1 w w1 html Hfirst Hne)
    as [Hlt Hhow].
  split; [exact Hlt|].
  assert (Hentry : exists u ts,
             files w1 !! SafeScraperImpl.cache_file url = Some (CacheJson u html ts)).
  { destruct Hhow as [(-> & -> & Hc) | (_ & Hsave & _)].
    - unfold SafeScraperImpl._get_cached_response in Hc.
      rewrite Hen in Hc. cbn [negb] in Hc.
      destruct (files w !! SafeScraperImpl.cache_file url) as [[u h ts|]|];
        try discriminate.
      destruct (now w - ts >? SafeScraperImpl.ttl); [discriminate|].
      injection Hc as ->. eauto.
    - exists url, (now w1). now apply Hsave. }
  assert (Hen1 : cache_enabled self1 = true).
  { destruct Hhow as [(-> & _) | (-> & _)]; exact Hen. }
  assert (Hcount : request_count self1 <= request_count self + 1 /\
                   (length (requests w1) <= length (requests w) + 3)%nat).
  { destruct Hhow as [(-> & -> & _) | (-> & _ & k & status & Hk & Hq & _)].
    - split; lia.
    - cbn. rewrite Hq, length_app, repeat_length. split; lia. }
  split.
  { destruct Hhow as [(-> & -> & _) | (-> & _ & k & status & Hk & Hq & Hr & He)];
      [left; auto|].
    right. split; [reflexivity|]. exists k, status. auto. }
  split; [exact Hentry|].
  destruct Hentry as (u & ts & Hf).
  assert (Hsecond :
    SafeScraperImpl.fetch_page env url (self1, elapse dt w1)
    = (if request_count self1 <? max_requests self1
       then Returned (Some html) else Returned None, (self1, elapse dt w1))).
  { destruct (request_count self1 <? max_requests self1) eqn:Hb.
    - apply Z.ltb_lt in Hb.
      apply (fetch_page_cache_hit env url u html ts self1 (elapse dt w1)); auto.
      cbn [now elapse]. apply Hwin.
      unfold SafeScraperImpl.captured_at. now rewrite Hf.
    - apply Z.ltb_ge in Hb. now apply fetch_page_budget_exhausted. }
  rewrite Hsecond. cbn [fst snd elapse requests sleeps draws files].
  repeat split; try reflexivity; apply Hcount.
Qed.

Lemma second_fetch_within_ttl_comes_from_cache_witness :
  let first := SafeScraperImpl.fetch_page env_recovering page_url
                 (scraper_fresh 50, world_empty) in
  let self1 := fst (snd first) in
  let w1 := snd (snd first) in
  let second := SafeScraperImpl.fetch_page env_recovering page_url
                  (self1, elapse (Py.hours 3) w1) in
  fst second = (if request_count self1 <? max_requests self1
                then Returned (Some page_html) else Returned None) /\
  snd second = (self1, elapse (Py.hours 3) w1) /\
  requests (snd (snd second)) = requests w1 /\
  sleeps (snd (snd second)) = sleeps w1 /\
  draws (snd (snd second)) = draws w1 /\
  files (snd (snd second)) = files w1 /\
  request_count (fst (snd second)) = request_count self1 /\
  request_count (fst (snd second)) <= request_count (scraper_fresh 50) + 1 /\
  (length (requests (snd (snd second))) <= length (requests world_empty) + 3)%nat.
Proof.
  intros first self1 w1 second.
  refine (proj2 (proj2 (proj2
            (second_fetch_within_ttl_comes_from_cache env_recovering page_url
               page_html (scraper_fresh 50) world_empty (Py.hours 3) _ _ _ _ _)))).
  - reflexivity.
  - reflexivity.
  - vm_compute. reflexivity.
  - discriminate.
  - intros ts H. vm_compute in H. injection H as <-. vm_compute. discriminate.
Defined.


(** C5, as stated, fails: a 404 answer, an HTTP 4xx status other than
    429, does not end the fetch at the first attempt; three requests are
    issued, with a wait of 4 s after the first and after the second. *)
Lemma http_404_is_retried_three_times :
  let run := WebScraperFetch.fetch_page env_not_found web_scraper missing_url
               world_empty in
  requests (snd run) = [missing_url; missing_url; missing_url] /\
  sleeps (snd run) = [Py.seconds 4; Py.seconds 4] /\
  length (requests (snd run)) <> 1%nat.
Proof.
  cbv zeta.
  rewrite (fetch_three_failures env_not_found web_scraper missing_url world_empty
             (HTTPError 404) (HTTPError 404) (HTTPError 404));
    try reflexivity.
  cbn [fst snd requests sleeps world_empty app length].
  repeat split. discriminate.
Qed.

(** C5 (amended): in [WebScraper.fetch_page] a URL rejected by
    [validators.url] makes the fetch return [None] at once, with no
    request and no retry.  Every exception raised by an attempt is
    retried alike, whether it comes from an HTTP 4xx status (404 as well
    as 429), from a 5xx status, from a timeout or from a connection
    error: at most 3 attempts are made in total, and tenacity waits
    max(4, min(2^(n-1), 10)) seconds after the failed attempt n, which is
    4 s after the first and 4 s after the second.  An attempt that
    obtains a status outside 400..599, be it the first, the second or
    the third, ends the call with the page text. *)
Theorem fetch_page_retries_every_failed_attempt
    (env : Env) (self : WebScraper) (url : string) (w : World) :
  let n := length (requests w) in
  (validators_url env url = false ->
   WebScraperFetch.fetch_page env self url w = (Returned None, w)) /\
  (forall status text,
     400 <= status < 600 ->
     WebScraperFetch.raised_for (HttpResponse status text) = Some (HTTPError status)) /\
  (forall e, WebScraperFetch.raised_for (NetworkFailure e) = Some (RequestFailed e)) /\
  (forall e1 e2 e3,
     validators_url env url = true ->
     WebScraperFetch.raised_for (session_get env n url) = Some e1 ->
     WebScraperFetch.raised_for (session_get env (n + 1) url) = Some e2 ->
     WebScraperFetch.raised_for (session_get env (n + 2) url) = Some e3 ->
     snd (WebScraperFetch.fetch_page env self url w)
     = mkWorld (now w + Py.seconds 8) (requests w ++ [url; url; url])
         (sleeps w ++ [Py.seconds 4; Py.seconds 4]) (draws w) (files w)) /\
  (forall e1 status text,
     validators_url env url = true ->
     WebScraperFetch.raised_for (session_get env n url) = Some e1 ->
     session_get env (n + 1) url = HttpResponse status text ->
     WebScraperFetch.raised_for (HttpResponse status text) = None ->
     0 <= delay self ->
     WebScraperFetch.fetch_page env self url w
     = (Returned (Some text),
        mkWorld (now w + Py.seconds 4 + delay self) (requests w ++ [url; url])
          (sleeps w ++ [Py.seconds 4; delay self]) (draws w) (files w))) /\
  (forall status text,
     validators_url env url = true ->
     session_get env n url = HttpResponse status text ->
     WebScraperFetch.raised_for (HttpResponse status text) = None ->
     0 <= delay self ->
     WebScraperFetch.fetch_page env self url w
     = (Returned (Some text),
        mkWorld (now w + delay self) (requests w ++ [url])
          (sleeps w ++ [delay self]) (draws w) (files w))) /\
  (length (requests (snd (WebScraperFetch.fetch_page env self url w)))
   <= length (requests w) + 3)%nat /\
  (forall e1 e2 status text,
     validators_url env url = true ->
     WebScraperFetch.raised_for (session_get env n url) = Some e1 ->
     WebScraperFetch.raised_for (session_get env (n + 1) url) = Some e2 ->
     session_get env (n + 2) url = HttpResponse status text ->
     WebScraperFetch.raised_for (HttpResponse status text) = None ->
     0 <= delay self ->
     WebScraperFetch.fetch_page env self url w
     = (Returned (Some text),
        mkWorld (now w + Py.seconds 8 + delay self)
          (requests w ++ [url; url; url])
          (sleeps w ++ [Py.seconds 4; Py.seconds 4; delay self])
          (draws w) (files w))).
Proof.
  intros n. subst n.
  split; [apply fetch_invalid_url|].
  split.
  { intros status text Hs. cbn.
    replace (400 <=? status) with true by (symmetry; apply Z.leb_le; lia).
    replace (status <? 600) with true by (symmetry; apply Z.ltb_lt; lia).
    reflexivity. }
  split; [reflexivity|].
  split.
  { intros e1 e2 e3 Hv H1 H2 H3.
    now rewrite (fetch_three_failures env self url w e1 e2 e3 Hv H1 H2 H3). }
  split.
  { intros e1 status text Hv H1 H2 He Hd.
    rewrite (fetch_second_attempt_succeeds env self url w e1 status text)
      by assumption.
    unfold after_sleep, after_request. cbn. now rewrite <- !app_assoc. }
  split.
  { intros status text Hv Hr He Hd.
    now rewrite (fetch_first_attempt_succeeds env self url w status text). }
  split; [apply fetch_at_most_three_requests|].
  intros e1 e2 status text Hv H1 H2 H3 He Hd.
  rewrite (fetch_third_attempt_succeeds env self url w e1 e2 status text)
    by assumption.
  unfold after_sleep, after_request. cbn. rewrite <- !app_assoc.
  replace (now w + 4000000 + 4000000 + delay self)
    with (now w + Py.seconds 8 + delay self) by (unfold Py.seconds; lia).
  reflexivity.
Qed.

Lemma fetch_page_retries_every_failed_attempt_witness :
  snd (WebScraperFetch.fetch_page env_not_found web_scraper missing_url world_empty)
  = mkWorld (Py.seconds 8) [missing_url; missing_url; missing_url]
      [Py.seconds 4; Py.seconds 4] 0 ∅.
Proof.
  apply (proj1 (proj2 (proj2 (proj2
           (fetch_page_retries_every_failed_attempt env_not_found web_scraper
              missing_url world_empty))))
           (HTTPError 404) (HTTPError 404) (HTTPError 404));
    reflexivity.
Defined.

Lemma scrape_page_propagates (env : Env) (lib : HtmlLib) (self : WebScraper)
    (url : string) (w w' : World) (e : Exn) :
  WebScraperFetch.fetch_page env self url w = (Raised e, w') ->
  WebScraperExtract.scrape_page env lib self url w = (Raised e, w').
Proof.
  intros H. unfold WebScraperExtract.scrape_page, bind. now rewrite H.
Qed.

(** C1 does not hold of the code: for a well-formed URL whose server
    cannot be reached, the third failed attempt makes [fetch_page] raise
    [tenacity.RetryError] to its caller instead of returning [None], as
    its docstring says it does on failure; [scrape_page], which has the
    error dictionary ready for a falsy result, and [SafeScraper.fetch_page]
    let the exception through. *)
Theorem fetch_page_raises_when_all_attempts_fail (lib : HtmlLib) :
  validators_url env_unreachable page_url = true /\
  fst (WebScraperFetch.fetch_page env_unreachable web_scraper page_url world_empty)
  = Raised (RetryError (RequestFailed ConnectionError)) /\
  fst (WebScraperExtract.scrape_page env_unreachable lib web_scraper page_url
         world_empty)
  = Raised (RetryError (RequestFailed ConnectionError)) /\
  fst (SafeScraperImpl.fetch_page env_unreachable page_url
         (scraper_fresh 50, world_empty))
  = Raised (RetryError (RequestFailed ConnectionError)).
Proof.
  assert (H := fetch_three_failures env_unreachable web_scraper page_url
                 world_empty (RequestFailed ConnectionError)
                 (RequestFailed ConnectionError) (RequestFailed ConnectionError)
                 eq_refl eq_refl eq_refl eq_refl).
  split; [reflexivity|]. split; [now rewrite H|]. split.
  - now rewrite (scrape_page_propagates _ lib _ _ _ _ _ H).
  - vm_compute. reflexivity.
Qed.

(** ** The library functions as modelled, on examples *)

(** [len] counts characters, [strip] removes the no-break space U+00A0,
    and [splitlines] takes a carriage return with its line feed as one
    line break. *)
Example str_methods_are_unicode_aware :
  PyStr.len (PyStr.utf8 [99; 97; 102; 195; 169]%nat) = 4 /\
  PyStr.strip (PyStr.utf8 [194; 160; 97; 32; 98; 9; 227; 128; 128]%nat) = "a b" /\
  PyStr.splitlines (PyStr.utf8 [97; 13; 10; 98; 226; 128; 168; 99]%nat)
  = ["a"; "b"; "c"] /\
  PyStr.split_ws (PyStr.utf8 [32; 97; 194; 160; 98; 10]%nat) = ["a"; "b"].
Proof. repeat split; reflexivity. Qed.

(** A [rel] attribute with several values matches by any of them;
    [get_text] leaves out the strings inside [script]. *)
Example soup_search_follows_bs4 :
  md_canonical_url (WebScraperExtract.extract_metadata soup_with_scripts page_url)
  = "https://example.com/" /\
  Bs4.get_text_strip " " (Bs4.strings soup_with_scripts) = "Shop Unlimited projects Short" /\
  fst (WebScraperExtract.extract_text_content soup_with_scripts None)
  = "Shop Unlimited projects Short".
Proof. repeat split; reflexivity. Qed.

(** A reference that [urljoin] rejects ends the extraction with
    [ValueError], and the document is left as it was. *)
Example extraction_raises_on_rejected_reference :
  WebScraperExtract.extract_all lib_strict page_url soup_bad_href
  = (Raised ValueError, soup_bad_href).
Proof. reflexivity. Qed.

(** ** Extraction (web-scraper.py, [scrape_page]) *)

Lemma Node_forall_ind (P : Node -> Prop) :
  (forall c s, P (Text c s)) ->
  (forall name attrs children,
     Forall P children -> P (Element name attrs children)) ->
  forall n, P n.
Proof.
  intros HT HE. fix IH 1. intros [c s|name attrs children].
  - apply HT.
  - apply HE. induction children as [|c cs IHcs]; constructor.
    + apply IH.
    + exact IHcs.
Qed.

Section Decompose.

Import Bs4.

Lemma flat_map_singletons {A} (f : A -> list A) (l : list A) :
  Forall (fun x => f x = [x]) l -> flat_map f l = l.
Proof.
  induction 1 as [|x l Hx _ IH]; cbn; [reflexivity|].
  now rewrite Hx, IH.
Qed.

Lemma existsb_flat_map_false {A} (p : A -> bool) (f : A -> list A) (l : list A) :
  Forall (fun x => existsb p (f x) = false) l ->
  existsb p (flat_map f l) = false.
Proof.
  induction 1 as [|x l Hx _ IH]; cbn; [reflexivity|].
  now rewrite existsb_app, Hx, IH.
Qed.

Lemma decompose_node_absent (tag : string) (n : Node) :
  has_tag tag n = false -> decompose_node tag n = [n].
Proof.
  induction n as [c s|name attrs children IH] using Node_forall_ind;
    cbn; [reflexivity|].
  intros H. apply orb_false_iff in H as [Hname Hch]. rewrite Hname.
  do 2 f_equal. apply flat_map_singletons.
  rewrite List.Forall_forall in IH |- *. intros c Hc. apply IH; [exact Hc|].
  destruct (has_tag tag c) eqn:E; [|reflexivity].
  assert (existsb (has_tag tag) children = true)
    by (apply existsb_exists; eauto).
  congruence.
Qed.

Lemma decompose_all_absent (tag : string) (soup : Soup) :
  occurs tag soup = false -> decompose_all tag soup = soup.
Proof.
  intros H. apply flat_map_singletons. rewrite List.Forall_forall.
  intros c Hc. apply decompose_node_absent.
  destruct (has_tag tag c) eqn:E; [|reflexivity].
  assert (existsb (has_tag tag) soup = true) by (apply existsb_exists; eauto).
  unfold occurs in H. congruence.
Qed.

Lemma decompose_node_removes (tag : string) (n : Node) :
  existsb (has_tag tag) (decompose_node tag n) = false.
Proof.
  induction n as [c s|name attrs children IH] using Node_forall_ind;
    cbn; [reflexivity|].
  destruct (String.eqb name tag) eqn:E; cbn; [reflexivity|].
  rewrite E. cbn. rewrite orb_false_r.
  now apply existsb_flat_map_false.
Qed.

Lemma decompose_all_removes (tag : string) (soup : Soup) :
  occurs tag (decompose_all tag soup) = false.
Proof.
  apply existsb_flat_map_false. rewrite List.Forall_forall.
  intros c _. apply decompose_node_removes.
Qed.

Lemma decompose_node_keeps_absent (t tag : string) (n : Node) :
  has_tag t n = false -> existsb (has_tag t) (decompose_node tag n) = false.
Proof.
  induction n as [c s|name attrs children IH] using Node_forall_ind;
    cbn; [reflexivity|].
  intros H. apply orb_false_iff in H as [Hname Hch].
  destruct (String.eqb name tag); cbn; [reflexivity|].
  rewrite Hname. cbn. rewrite orb_false_r.
  apply existsb_flat_map_false.
  rewrite List.Forall_forall in IH |- *. intros c Hc. apply IH; [exact Hc|].
  destruct (has_tag t c) eqn:E; [|reflexivity].
  assert (existsb (has_tag t) children = true) by (apply existsb_exists; eauto).
  congruence.
Qed.

Lemma decompose_all_keeps_absent (t tag : string) (soup : Soup) :
  occurs t soup = false -> occurs t (decompose_all tag soup) = false.
Proof.
  intros H. apply existsb_flat_map_false. rewrite List.Forall_forall.
  intros c Hc. apply decompose_node_keeps_absent.
  destruct (has_tag t c) eqn:E; [|reflexivity].
  assert (existsb (has_tag t) soup = true) by (apply existsb_exists; eauto).
  unfold occurs in H. congruence.
Qed.

Import WebScraperExtract.

Lemma strip_keeps_absent (t : string) (tags : list string) :
  forall soup, occurs t soup = false -> occurs t (strip tags soup) = false.
Proof.
  induction tags as [|tag tags IH]; intros soup H; cbn; [exact H|].
  apply IH. now apply decompose_all_keeps_absent.
Qed.

Lemma strip_removes (tags : list string) :
  forall soup t, In t tags -> occurs t (strip tags soup) = false.
Proof.
  induction tags as [|tag tags IH]; intros soup t Hin; [destruct Hin|].
  cbn. destruct Hin as [-> | Hin].
  - apply strip_keeps_absent, decompose_all_removes.
  - now apply IH.
Qed.

Lemma strip_absent (tags : list string) :
  forall soup, (forall t, In t tags -> occurs t soup = false) ->
               strip tags soup = soup.
Proof.
  induction tags as [|tag tags IH]; intros soup H; cbn; [reflexivity|].
  rewrite decompose_all_absent by (apply H; now left).
  apply IH. intros t Ht. apply H. now right.
Qed.

Lemma strip_idempotent (tags : list string) (soup : Soup) :
  strip tags (strip tags soup) = strip tags soup.
Proof. apply strip_absent. intros t Ht. now apply strip_removes. Qed.

End Decompose.

Section ExtractionReturns.

Import Bs4 WebScraperExtract.

Variable lib : HtmlLib.
Variable base_url : string.

Lemma forallb_of_map {A B} (f : B -> bool) (g : A -> B) (l : list A) :
  forallb f (map g l) = forallb (fun x => f (g x)) l.
Proof. induction l as [|x l IH]; cbn; [reflexivity | now rewrite IH]. Qed.

(** What is found in a document after [decompose] was found, with the
    same attributes, before. *)
Lemma decompose_node_found (Q : list (string * string) -> Prop)
    (p : string -> list (string * string) -> bool) (tag : string) (n : Node) :
  Forall (fun x => Q (attrs_of x)) (find_all_node p n) ->
  Forall (fun x => Q (attrs_of x))
         (flat_map (find_all_node p) (decompose_node tag n)).
Proof.
  induction n as [c s|name attrs children IH] using Node_forall_ind;
    cbn; [constructor|].
  intros H. apply Forall_app in H as [Hhead Hch].
  destruct (String.eqb name tag); cbn; [constructor|].
  rewrite app_nil_r. apply Forall_app. split.
  - destruct (p name attrs); [|constructor].
    constructor; [|constructor]. now inversion Hhead.
  - clear Hhead. induction IH as [|child children Hc _ IHch]; cbn; [constructor|].
    cbn in Hch. apply Forall_app in Hch as [H1 H2].
    rewrite flat_map_app. apply Forall_app. split; [now apply Hc | now apply IHch].
Qed.

Lemma decompose_all_found (Q : list (string * string) -> Prop)
    (p : string -> list (string * string) -> bool) (tag : string) (soup : Soup) :
  Forall (fun x => Q (attrs_of x)) (find_all p soup) ->
  Forall (fun x => Q (attrs_of x)) (find_all p (decompose_all tag soup)).
Proof.
  unfold find_all, decompose_all.
  induction soup as [|n soup IH]; cbn; [constructor|].
  intros H. apply Forall_app in H as [H1 H2].
  rewrite flat_map_app. apply Forall_app.
  split; [now apply decompose_node_found | now apply IH].
Qed.

Lemma strip_found (Q : list (string * string) -> Prop)
    (p : string -> list (string * string) -> bool) (tags : list string) :
  forall soup,
    Forall (fun x => Q (attrs_of x)) (find_all p soup) ->
    Forall (fun x => Q (attrs_of x)) (find_all p (strip tags soup)).
Proof.
  induction tags as [|tag tags IH]; intros soup H; cbn; [exact H|].
  now apply IH, decompose_all_found.
Qed.

Lemma links_loop_returns (base_domain : string) (internal_only : bool)
    (hrefs : list string) :
  forall links,
    match links_loop lib base_url base_domain internal_only hrefs links with
    | Returned _ => forallb (resolves lib base_url internal_only) hrefs = true
    | Raised e =>
        e = ValueError /\
        forallb (resolves lib base_url internal_only) hrefs = false
    end.
Proof.
  induction hrefs as [|href hrefs IH]; intros links; cbn; [reflexivity|].
  unfold resolves at 1 3.
  destruct (urljoin lib base_url href) as [absolute_url|]; [|now split].
  destruct internal_only.
  - destruct (netloc lib absolute_url) as [link_domain|]; [|now split].
    cbn [andb]. apply IH.
  - cbn [andb]. apply IH.
Qed.

Lemma images_loop_returns (img_tags : list Node) :
  forall images,
    match images_loop lib base_url img_tags images with
    | Returned _ =>
        Forall (fun x => urljoin lib base_url (src_of (attrs_of x)) <> None)
               img_tags
    | Raised e =>
        e = ValueError /\
        ~ Forall (fun x => urljoin lib base_url (src_of (attrs_of x)) <> None)
                 img_tags
    end.
Proof.
  induction img_tags as [|img_tag img_tags IH]; intros images; cbn; [constructor|].
  destruct (urljoin lib base_url (src_of (attrs_of img_tag))) as [src|] eqn:E.
  - specialize (IH (images ++ [mkImage src (default "" (get (attrs_of img_tag) "alt"))
                                 (default "" (get (attrs_of img_tag) "title"))])).
    destruct (images_loop _ _ _ _).
    + constructor; [congruence | exact IH].
    + destruct IH as [-> IH]. split; [reflexivity|].
      intros H. apply IH. now inversion H.
  - split; [reflexivity|]. intros H. inversion H. congruence.
Qed.

(** Whether [extract_links] returns is decided by the base URL and the
    references of the anchors. *)
Lemma extract_links_returns (soup : Soup) (internal_only : bool) :
  match extract_links lib soup base_url internal_only with
  | Returned _ =>
      netloc lib base_url <> None /\
      Forall (fun x => resolves lib base_url internal_only (href_of (attrs_of x))
                       = true)
             (find_all (named_having "a" "href") soup)
  | Raised e =>
      e = ValueError /\
      ~ (netloc lib base_url <> None /\
         Forall (fun x => resolves lib base_url internal_only
                            (href_of (attrs_of x)) = true)
                (find_all (named_having "a" "href") soup))
  end.
Proof.
  unfold extract_links.
  destruct (netloc lib base_url) as [base_domain|];
    [|split; [reflexivity | intros [H _]; congruence]].
  pose proof (links_loop_returns base_domain internal_only (anchor_hrefs soup) [])
    as H.
  unfold anchor_hrefs in H. rewrite forallb_of_map in H.
  destruct (links_loop _ _ _ _ _ _).
  - split; [congruence|]. apply List.Forall_forall. intros x Hx.
    rewrite forallb_forall in H. now apply H.
  - destruct H as [-> H]. split; [reflexivity|]. intros [_ HF].
    assert (forallb (fun x => resolves lib base_url internal_only
                                (href_of (attrs_of x)))
                    (find_all (named_having "a" "href") soup) = true)
      by (apply forallb_forall; now apply List.Forall_forall).
    congruence.
Qed.

(** An extraction that returned on a document returns on the document
    with the [tags] removed. *)
Lemma extract_links_after_strip (soup : Soup) (internal_only : bool)
    (tags : list string) (links : list string) :
  extract_links lib soup base_url internal_only = Returned links ->
  exists links',
    extract_links lib (strip tags soup) base_url internal_only = Returned links'.
Proof.
  intros H.
  pose proof (extract_links_returns soup internal_only) as H1. rewrite H in H1.
  destruct H1 as [Hb HF].
  pose proof (extract_links_returns (strip tags soup) internal_only) as H2.
  destruct (extract_links lib (strip tags soup) base_url internal_only);
    [eauto|].
  destruct H2 as [_ H2]. exfalso. apply H2. split; [exact Hb|].
  now apply (strip_found
               (fun attrs => resolves lib base_url internal_only (href_of attrs)
                             = true)).
Qed.

Lemma extract_images_after_strip (soup : Soup) (tags : list string)
    (images : list Image) :
  extract_images lib soup base_url = Returned images ->
  exists images', extract_images lib (strip tags soup) base_url = Returned images'.
Proof.
  unfold extract_images. intros H.
  pose proof (images_loop_returns (find_all (named "img") soup) []) as H1.
  rewrite H in H1.
  pose proof (images_loop_returns (find_all (named "img") (strip tags soup)) [])
    as H2.
  destruct (images_loop lib base_url (find_all (named "img") (strip tags soup)) []);
    [eauto|].
  destruct H2 as [_ H2]. exfalso. apply H2.
  now apply (strip_found
               (fun attrs => urljoin lib base_url (src_of attrs) <> None)).
Qed.

(** [extract_all] raises nothing but [ValueError], and then leaves the
    document alone; when it returns, the document is left stripped. *)
Lemma extract_all_cases (soup : Soup) :
  (fst (extract_all lib base_url soup) = Raised ValueError /\
   snd (extract_all lib base_url soup) = soup) \/
  (exists links internal_links images,
     extract_links lib soup base_url false = Returned links /\
     extract_links lib soup base_url true = Returned internal_links /\
     extract_images lib soup base_url = Returned images /\
     extract_all lib base_url soup
     = (Returned (mkExtracted (extract_metadata soup base_url) links
                    internal_links images
                    (fst (extract_text_content soup None))),
        strip default_strip_tags soup)).
Proof.
  unfold extract_all.
  pose proof (extract_links_returns soup false) as H1.
  destruct (extract_links lib soup base_url false) as [links|e];
    [|destruct H1 as [-> _]; now left].
  pose proof (extract_links_returns soup true) as H2.
  destruct (extract_links lib soup base_url true) as [internal_links|e];
    [|destruct H2 as [-> _]; now left].
  pose proof (images_loop_returns (find_all (named "img") soup) []) as H3.
  unfold extract_images.
  destruct (images_loop lib base_url (find_all (named "img") soup) [])
    as [images|e] eqn:E; [|destruct H3 as [-> _]; now left].
  right. exists links, internal_links, images.
  repeat split; reflexivity.
Qed.

End ExtractionReturns.

(** C7, as stated, fails: on a page with a link and an image inside its
    [header], the first run reports them and removes the header from the
    document; the second run on the same document reports no image and
    no link. *)
Lemma second_extraction_differs_after_header_removed :
  let run1 := WebScraperExtract.extract_all lib_plain page_url soup_with_header in
  let run2 := WebScraperExtract.extract_all lib_plain page_url (snd run1) in
  exists data1 data2,
    fst run1 = Returned data1 /\
    fst run2 = Returned data2 /\
    ex_images data1 = [mkImage "https://example.com/logo.png" "Logo" ""] /\
    ex_links data1 = ["https://example.com/home"] /\
    ex_images data2 = [] /\
    ex_links data2 = [] /\
    data2 <> data1.
Proof.
  cbv zeta. do 2 eexists.
  split; [reflexivity|]. split; [reflexivity|].
  split; [reflexivity|]. split; [reflexivity|].
  split; [reflexivity|]. split; [reflexivity|].
  intros H. apply (f_equal ex_images) in H. vm_compute in H. discriminate H.
Qed.

(** C7 (amended): the full extraction either raises [ValueError] (from
    [urljoin] or [urlparse], on a reference or a base URL they reject)
    and then leaves the parsed document as it was, so that running it
    again gives the same; or it returns, and then this first run has
    removed every script, style, nav, footer, header and aside element
    from the parsed document.  Running the full extraction a second time
    on the same parsed document then returns as well, with the same text
    content, and with the same complete result when the document
    contains none of these elements (in general the metadata, links and
    images of the second run are those of the document without the
    removed subtrees); the second run leaves the document as it found
    it, and a third run yields what the second did. *)
Theorem extraction_rerun_on_the_same_document
    (lib : HtmlLib) (url : string) (soup : Soup) :
  let run1 := WebScraperExtract.extract_all lib url soup in
  let run2 := WebScraperExtract.extract_all lib url (snd run1) in
  let run3 := WebScraperExtract.extract_all lib url (snd run2) in
  (forall e, fst run1 = Raised e ->
     e = ValueError /\ snd run1 = soup /\ run2 = run1) /\
  (forall data1, fst run1 = Returned data1 ->
     snd run1 = WebScraperExtract.strip WebScraperExtract.default_strip_tags soup /\
     (forall t, In t WebScraperExtract.default_strip_tags ->
                Bs4.occurs t (snd run1) = false) /\
     exists data2,
       fst run2 = Returned data2 /\
       ex_text_content data2 = ex_text_content data1 /\
       snd run2 = snd run1 /\
       fst run3 = fst run2 /\
       ((forall t, In t WebScraperExtract.default_strip_tags ->
                   Bs4.occurs t soup = false) ->
        data2 = data1 /\ snd run1 = soup)).
Proof.
  cbv zeta. set (tags := WebScraperExtract.default_strip_tags).
  destruct (extract_all_cases lib url soup)
    as [[Hr Hs] | (links & internal & images & Hl & Hi & Him & Hrun)].
  - split.
    + intros e He. rewrite Hr in He. injection He as <-.
      split; [reflexivity|]. split; [exact Hs|]. now rewrite Hs.
    + intros data1 Hd. congruence.
  - split; [intros e He; rewrite Hrun in He; discriminate He|].
    intros data1 Hd. rewrite Hrun in Hd |- *. cbn [fst snd] in Hd |- *.
    injection Hd as <-.
    split; [reflexivity|].
    split; [intros t Ht; now apply strip_removes|].
    destruct (extract_links_after_strip lib url soup false tags links Hl)
      as [links2 Hl2].
    destruct (extract_links_after_strip lib url soup true tags internal Hi)
      as [internal2 Hi2].
    destruct (extract_images_after_strip lib url soup tags images Him)
      as [images2 Him2].
    assert (Hrun2 :
      WebScraperExtract.extract_all lib url (WebScraperExtract.strip tags soup)
      = (Returned (mkExtracted
                     (WebScraperExtract.extract_metadata
                        (WebScraperExtract.strip tags soup) url)
                     links2 internal2 images2
                     (fst (WebScraperExtract.extract_text_content
                             (WebScraperExtract.strip tags soup) None))),
         WebScraperExtract.strip tags soup)).
    { unfold WebScraperExtract.extract_all. rewrite Hl2, Hi2, Him2.
      unfold WebScraperExtract.extract_text_content. cbn [fst snd default].
      fold tags. now rewrite strip_idempotent. }
    fold tags. rewrite Hrun2. cbn [fst snd]. rewrite Hrun2. cbn [fst].
    eexists. split; [reflexivity|].
    split.
    { unfold WebScraperExtract.extract_text_content. cbn [fst ex_text_content default].
      fold tags. now rewrite strip_idempotent. }
    split; [reflexivity|]. split; [reflexivity|].
    intros Habs. pose proof (strip_absent tags soup Habs) as Hsame.
    split; [|exact Hsame].
    rewrite Hsame in Hl2, Hi2, Him2 |- *.
    rewrite Hl in Hl2. rewrite Hi in Hi2. rewrite Him in Him2.
    injection Hl2 as <-. injection Hi2 as <-. injection Him2 as <-. reflexivity.
Qed.

Lemma extraction_rerun_on_the_same_document_witness :
  let run1 := WebScraperExtract.extract_all lib_plain page_url soup_plain in
  let run2 := WebScraperExtract.extract_all lib_plain page_url (snd run1) in
  exists data1 data2,
    fst run1 = Returned data1 /\ fst run2 = Returned data2 /\
    data2 = data1 /\ snd run1 = soup_plain.
Proof.
  cbv zeta.
  destruct (proj2 (extraction_rerun_on_the_same_document lib_plain page_url
                     soup_plain) _ eq_refl)
    as (_ & _ & data2 & H2 & _ & _ & _ & Hsame).
  eexists. exists data2. split; [reflexivity|]. split; [exact H2|].
  apply Hsame. intros t Ht. cbn in Ht.
  repeat (destruct Ht as [<- | Ht]; [reflexivity|]). destruct Ht.
Defined.

(** ** Further properties of the safe scraper (safe-scraper.py) *)

(** X1: a response saved by [_save_to_cache] (cache enabled, file
    writable) is returned by [_get_cached_response] for the same URL as
    long as no more than 24 hours have passed since it was saved, and is
    reported absent afterwards; the lookup itself never removes or
    changes the entry. *)
Theorem saved_response_is_served_for_24_hours
    (env : Env) (url html : string) (self : SafeScraper) (w : World) (dt : Z) :
  cache_enabled self = true ->
  open_for_write env (SafeScraperImpl.cache_file url) = true ->
  let saved := snd (SafeScraperImpl._save_to_cache env url html (self, w)) in
  let later := (fst saved, elapse dt (snd saved)) in
  SafeScraperImpl._get_cached_response url later
  = (Returned (if dt <=? SafeScraperImpl.ttl then Some html else None), later) /\
  files (snd later) !! SafeScraperImpl.cache_file url
  = Some (CacheJson url html (now w)).
Proof.
  intros Hen Hop. cbv zeta.
  unfold SafeScraperImpl._save_to_cache. rewrite Hen, Hop. cbn [negb fst snd].
  unfold SafeScraperImpl._get_cached_response. rewrite Hen. cbn [negb].
  cbn [files elapse now]. rewrite lookup_insert_eq.
  split; [|reflexivity].
  replace (now w + dt - now w) with dt by lia.
  rewrite Z.gtb_ltb.
  destruct (Z.leb_spec dt SafeScraperImpl.ttl) as [Hle|Hgt].
  - replace (SafeScraperImpl.ttl <? dt) with false
      by (symmetry; apply Z.ltb_ge; lia).
    reflexivity.
  - replace (SafeScraperImpl.ttl <? dt) with true
      by (symmetry; apply Z.ltb_lt; lia).
    reflexivity.
Qed.

Lemma saved_response_is_served_for_24_hours_witness :
  let saved := snd (SafeScraperImpl._save_to_cache env_serving page_url page_html
                      (scraper_fresh 50, world_empty)) in
  let later := (fst saved, elapse (Py.hours 25) (snd saved)) in
  SafeScraperImpl._get_cached_response page_url later
  = (Returned (if Py.hours 25 <=? SafeScraperImpl.ttl then Some page_html else None),
     later) /\
  files (snd later) !! SafeScraperImpl.cache_file page_url
  = Some (CacheJson page_url page_html (now world_empty)).
Proof.
  apply (saved_response_is_served_for_24_hours env_serving page_url page_html
           (scraper_fresh 50) world_empty (Py.hours 25)); reflexivity.
Defined.

Lemma blind_ret {A} (a : A) : files_blind (ret a).
Proof. intros w f. reflexivity. Qed.

Lemma blind_raise {A} (e : Exn) : files_blind (@raise World A e).
Proof. intros w f. reflexivity. Qed.

Lemma blind_bind {A B} (c : M World A) (k : A -> M World B) :
  files_blind c -> (forall a, files_blind (k a)) -> files_blind (bind c k).
Proof.
  intros Hc Hk w f. unfold bind. rewrite Hc.
  destruct (c w) as [[a|e] w1]; cbn [fst snd]; [apply Hk|reflexivity].
Qed.

Lemma blind_try_except {A} (c : M World A) (h : Exn -> M World A) :
  files_blind c -> (forall e, files_blind (h e)) -> files_blind (try_except c h).
Proof.
  intros Hc Hh w f. unfold try_except. rewrite Hc.
  destruct (c w) as [[a|e] w1]; cbn [fst snd]; [reflexivity|apply Hh].
Qed.

Lemma blind_sleep (d : Z) : files_blind (sleep d).
Proof. intros w f. unfold sleep. now destruct (d <? 0). Qed.

Lemma blind_http_get (env : Env) (url : string) : files_blind (http_get env url).
Proof. intros w f. reflexivity. Qed.

Lemma blind_uniform (env : Env) (a b : Z) : files_blind (uniform env a b).
Proof. intros w f. reflexivity. Qed.

Lemma blind_retrying {A} (wait : Z -> Z) (c : M World A) :
  files_blind c -> forall more n, files_blind (Tenacity.retrying wait more n c).
Proof.
  intros Hc more. induction more as [|more IH]; intros n w f; cbn.
  - rewrite Hc. now destruct (c w) as [[a|e] w1].
  - rewrite Hc. destruct (c w) as [[a|e] w1]; cbn [fst snd]; [reflexivity|].
    apply (blind_bind (sleep (Py.seconds (wait n)))
                      (fun _ => Tenacity.retrying wait more (n + 1) c)).
    + apply blind_sleep.
    + intros _. apply IH.
Qed.

Lemma blind_web_fetch_page (env : Env) (ws : WebScraper) (url : string) :
  files_blind (WebScraperFetch.fetch_page env ws url).
Proof.
  unfold WebScraperFetch.fetch_page, Tenacity.retry. apply blind_retrying.
  unfold WebScraperFetch.fetch_page_body.
  destruct (negb (validators_url env url)); [apply blind_ret|].
  apply blind_try_except.
  - apply blind_bind; [apply blind_http_get|].
    intros [status text|e]; [|apply blind_raise].
    destruct ((400 <=? status) && (status <? 600)); [apply blind_raise|].
    apply blind_bind; [apply blind_sleep|]. intros _. apply blind_ret.
  - intros e. destruct (is_RequestException e); apply blind_raise.
Qed.

Lemma ublind_ret {A} (a : A) : uncached_blind (ret a).
Proof. intros self w f H. split; [reflexivity|exact H]. Qed.

Lemma ublind_bind {A B} (c : M SafeScraperImpl.St A)
    (k : A -> M SafeScraperImpl.St B) :
  uncached_blind c -> (forall a, uncached_blind (k a)) ->
  uncached_blind (bind c k).
Proof.
  intros Hc Hk self w f Hen. unfold bind.
  destruct (Hc self w f Hen) as [E Hen1]. rewrite E.
  destruct (c (self, w)) as [[a|e] [self1 w1]]; cbn [fst snd] in *.
  - apply Hk, Hen1.
  - split; [reflexivity|exact Hen1].
Qed.

Lemma ublind_lift {A} (c : M World A) :
  files_blind c -> uncached_blind (SafeScraperImpl.lift c).
Proof.
  intros Hc self w f Hen. unfold SafeScraperImpl.lift. cbn [fst snd].
  rewrite Hc. destruct (c w) as [r w1]. split; [reflexivity|exact Hen].
Qed.

Lemma ublind_get_self : uncached_blind SafeScraperImpl.get_self.
Proof. intros self w f Hen. split; [reflexivity|exact Hen]. Qed.

Lemma ublind_set_request_count (n : Z) :
  uncached_blind (SafeScraperImpl.set_request_count n).
Proof. intros self w f Hen. split; [reflexivity|exact Hen]. Qed.

Lemma ublind_get_cached_response (url : string) :
  uncached_blind (SafeScraperImpl._get_cached_response url).
Proof.
  intros self w f Hen. unfold SafeScraperImpl._get_cached_response.
  rewrite Hen. split; [reflexivity|exact Hen].
Qed.

Lemma ublind_save_to_cache (env : Env) (url html : string) :
  uncached_blind (SafeScraperImpl._save_to_cache env url html).
Proof.
  intros self w f Hen. unfold SafeScraperImpl._save_to_cache.
  rewrite Hen. split; [reflexivity|exact Hen].
Qed.

Lemma ublind_fetch_page (env : Env) (url : string) :
  uncached_blind (SafeScraperImpl.fetch_page env url).
Proof.
  unfold SafeScraperImpl.fetch_page.
  apply ublind_bind; [apply ublind_get_self|]. intros self0.
  destruct (request_count self0 >=? max_requests self0); [apply ublind_ret|].
  apply ublind_bind; [apply ublind_get_cached_response|]. intros cached.
  destruct (Py.truthy cached); [apply ublind_ret|].
  apply ublind_bind; [apply ublind_lift, blind_uniform|]. intros d.
  apply ublind_bind.
  { destruct (request_count self0 >? 0);
      [apply ublind_lift, blind_sleep|apply ublind_ret]. }
  intros _.
  apply ublind_bind; [apply ublind_lift, blind_web_fetch_page|]. intros html.
  destruct (Py.truthy html); [|apply ublind_ret].
  apply ublind_bind; [apply ublind_set_request_count|]. intros _.
  apply ublind_bind; [apply ublind_save_to_cache|]. intros _.
  apply ublind_ret.
Qed.

(** X2: with caching disabled, [fetch_page] neither reads nor writes the
    cache directory: on any other directory contents the call has the
    same outcome, leaves the scraper in the same state, has the same
    effects on the rest of the world, and hands the directory back
    unchanged. *)
Theorem disabled_cache_is_never_used
    (env : Env) (url : string) (self : SafeScraper) (w : World)
    (f : gmap string CacheFile) :
  cache_enabled self = false ->
  let r := SafeScraperImpl.fetch_page env url (self, w) in
  SafeScraperImpl.fetch_page env url (self, with_files w f)
  = (fst r, (fst (snd r), with_files (snd (snd r)) f)) /\
  files (snd (snd r)) = files w.
Proof.
  intros Hen. cbv zeta.
  split; [apply (ublind_fetch_page env url self w f Hen)|].
  destruct (ublind_fetch_page env url self w (files w) Hen) as [E _].
  replace (with_files w (files w)) with w in E by (now destruct w).
  destruct (SafeScraperImpl.fetch_page env url (self, w)) as [r [self' w']].
  cbn [fst snd] in *. injection E as Hw'. rewrite Hw' at 1. reflexivity.
Qed.

Lemma disabled_cache_is_never_used_witness :
  let r := SafeScraperImpl.fetch_page env_serving page_url
             (scraper_uncached, world_empty) in
  SafeScraperImpl.fetch_page env_serving page_url
    (scraper_uncached, with_files world_empty (files world_cached))
  = (fst r, (fst (snd r), with_files (snd (snd r)) (files world_cached))) /\
  files (snd (snd r)) = files world_empty.
Proof.
  apply (disabled_cache_is_never_used env_serving page_url scraper_uncached
           world_empty (files world_cached)).
  reflexivity.
Defined.

(** X3: a call of [fetch_page] that does not return non-empty content
    (it returns [None] or an empty page, or it raises) uses no budget and
    caches nothing: the scraper, its [request_count] included, and the
    cache directory are as before the call. *)
Theorem fetch_without_content_costs_nothing
    (env : Env) (url : string) (self : SafeScraper) (w : World) :
  let r := SafeScraperImpl.fetch_page env url (self, w) in
  (forall html, fst r = Returned (Some html) -> html = "") ->
  fst (snd r) = self /\ files (snd (snd r)) = files w.
Proof.
  cbv zeta. intros Hno.
  pose proof (fetch_page_end env url self w) as Hend.
  destruct (SafeScraperImpl.fetch_page env url (self, w)) as [r [self' w']].
  cbn [fst snd] in *.
  inversion Hend as [Hx Hr | h Hlt Hc Hh Hr | r' w'' Hlt Hall Hfs Hr
                     | h w'' Hlt Hh Hcache Hr]; subst; auto;
    exfalso; apply Hh; now apply Hno.
Qed.

Lemma fetch_without_content_costs_nothing_witness :
  let r := SafeScraperImpl.fetch_page env_empty_body page_url
             (scraper_fresh 50, world_empty) in
  fst (snd r) = scraper_fresh 50 /\ files (snd (snd r)) = files world_empty.
Proof.
  apply (fetch_without_content_costs_nothing env_empty_body page_url
           (scraper_fresh 50) world_empty).
  intros html H. vm_compute in H. now injection H as <-.
Defined.


(** The whole effect of a call that goes to the network and obtains a
    page at the first attempt. *)
Lemma fetch_page_physical (env : Env) (url : string) (self : SafeScraper)
    (w : World) (status : Z) (text : string) :
  let d := random_uniform env (draws w) (min_delay self) (max_delay self) in
  let pause := if request_count self >? 0 then [d] else [] in
  let w3 := mkWorld (now w + fold_right Z.add 0 pause + delay (base self))
              (requests w ++ [url]) (sleeps w ++ pause ++ [delay (base self)])
              (Datatypes.S (draws w)) (files w) in
  request_count self < max_requests self ->
  SafeScraperImpl._get_cached_response url (self, w) = (Returned None, (self, w)) ->
  validators_url env url = true ->
  session_get env (length (requests w)) url = HttpResponse status text ->
  WebScraperFetch.raised_for (HttpResponse status text) = None ->
  0 <= delay (base self) ->
  (request_count self > 0 -> 0 <= d) ->
  SafeScraperImpl.fetch_page env url (self, w)
  = (Returned (Some text),
     if Py.truthy (Some text) then
       (SafeScraperImpl.with_request_count self (request_count self + 1),
        if cache_enabled self && open_for_write env (SafeScraperImpl.cache_file url)
        then with_files w3 (<[SafeScraperImpl.cache_file url :=
                               CacheJson url text (now w3)]> (files w))
        else w3)
     else (self, w3)).
Proof.
  intros d pause w3 Hlt Hmiss Hv Hr He Hd Hpos.
  unfold SafeScraperImpl.fetch_page, bind, SafeScraperImpl.get_self.
  cbn [fst snd].
  replace (request_count self >=? max_requests self) with false
    by (symmetry; rewrite Z.geb_leb; apply Z.leb_gt; lia).
  rewrite Hmiss. cbn [Py.truthy].
  unfold uniform. unfold SafeScraperImpl.lift at 1. cbn [fst snd]. fold d.
  set (w1 := mkWorld (now w) (requests w) (sleeps w) (Datatypes.S (draws w)) (files w)).
  assert (Hsl :
    (if request_count self >? 0 then SafeScraperImpl.lift (sleep d) else ret tt)
      (self, w1)
    = (Returned tt,
       (self, mkWorld (now w + fold_right Z.add 0 pause) (requests w)
                (sleeps w ++ pause) (Datatypes.S (draws w)) (files w)))).
  { subst pause. destruct (request_count self >? 0) eqn:Hc.
    - unfold SafeScraperImpl.lift, sleep. cbn [fst snd].
      replace (d <? 0) with false
        by (symmetry; apply Z.ltb_ge; apply Hpos; apply Z.gtb_lt in Hc; lia).
      unfold after_sleep, w1. cbn. do 3 f_equal. lia.
    - unfold ret, w1. cbn. do 3 f_equal; [lia|now rewrite app_nil_r]. }
  rewrite Hsl. clear Hsl.
  set (w2 := mkWorld (now w + fold_right Z.add 0 pause) _ _ _ _).
  unfold SafeScraperImpl.lift. cbn [fst snd].
  rewrite (fetch_first_attempt_succeeds env (base self) url w2 status text
             Hv Hr He Hd).
  assert (Hw3 : after_sleep (after_request w2 url) (delay (base self)) = w3).
  { unfold after_sleep, after_request, w2, w3. cbn. f_equal.
    now rewrite <- app_assoc. }
  rewrite Hw3. unfold Py.truthy.
  destruct (negb (String.eqb text "")); [|reflexivity].
  unfold SafeScraperImpl.set_request_count, SafeScraperImpl._save_to_cache, ret.
  cbn [fst snd default SafeScraperImpl.with_request_count cache_enabled].
  destruct (cache_enabled self); cbn [negb andb]; [|reflexivity].
  destruct (open_for_write env (SafeScraperImpl.cache_file url)); reflexivity.
Qed.





(** ** Further properties of the scraper and the analyzer (web-scraper.py) *)

(** X6: [scrape_page] answers a failed fetch with the error dictionary,
    not with an extraction: for a URL rejected by [validators.url] it
    returns [{'error': 'Failed to fetch page', 'url': url}] without
    issuing a request, and it returns the same when the server answers
    at the first attempt with a status outside 400..599 and an empty
    body.  A non-empty page obtained at the first attempt is parsed and
    extracted: when the extraction returns, [scrape_page] returns its
    result with the timestamp read after the rate-limiting sleep; when
    the extraction raises (the [ValueError] of [urljoin] or [urlparse]
    on a reference of the page), [scrape_page] raises that [ValueError]
    after the request and the sleep, and returns nothing. *)
Theorem scrape_page_reports_a_failed_fetch
    (env : Env) (lib : HtmlLib) (self : WebScraper) (url : string) (w : World) :
  (validators_url env url = false ->
   WebScraperExtract.scrape_page env lib self url w
   = (Returned (ScrapeError "Failed to fetch page" url), w)) /\
  (forall status text,
     validators_url env url = true ->
     session_get env (length (requests w)) url = HttpResponse status text ->
     WebScraperFetch.raised_for (HttpResponse status text) = None ->
     0 <= delay self ->
     let w' := after_sleep (after_request w url) (delay self) in
     WebScraperExtract.scrape_page env lib self url w
     = ((if String.eqb text ""
         then Returned (ScrapeError "Failed to fetch page" url)
         else match fst (WebScraperExtract.extract_all lib url (parse lib text)) with
              | Returned data => Returned (Scraped url data (now w + delay self))
              | Raised _ => Raised ValueError
              end),
        w')).
Proof.
  split.
  - intros Hv. unfold WebScraperExtract.scrape_page, bind.
    now rewrite (fetch_invalid_url env self url w Hv).
  - intros status text Hv Hr He Hd w'.
    unfold WebScraperExtract.scrape_page, bind.
    rewrite (fetch_first_attempt_succeeds env self url w status text Hv Hr He Hd).
    fold w'. unfold Py.truthy, default, from_option, id.
    destruct (String.eqb text ""); cbn [negb]; [reflexivity|].
    destruct (extract_all_cases lib url (parse lib text))
      as [[Hr' _] | (links & internal & images & _ & _ & _ & Hrun)].
    + rewrite Hr'. reflexivity.
    + rewrite Hrun. reflexivity.
Qed.

Lemma scrape_page_reports_a_failed_fetch_witness :
  WebScraperExtract.scrape_page env_empty_body lib_plain web_scraper page_url
    world_empty
  = (Returned (ScrapeError "Failed to fetch page" page_url),
     after_sleep (after_request world_empty page_url) (delay web_scraper)) /\
  WebScraperExtract.scrape_page env_serving lib_strict web_scraper page_url
    world_empty
  = (Raised ValueError,
     after_sleep (after_request world_empty page_url) (delay web_scraper)).
Proof.
  split.
  - apply (proj2 (scrape_page_reports_a_failed_fetch env_empty_body lib_plain
                    web_scraper page_url world_empty) 200 "");
      try reflexivity.
    vm_compute. discriminate.
  - apply (proj2 (scrape_page_reports_a_failed_fetch env_serving lib_strict
                    web_scraper page_url world_empty) 200 page_html);
      try reflexivity.
    vm_compute. discriminate.
Defined.

Lemma flat_map_incl_filtered {A B} (f g : A -> list B) (l : list A) :
  (forall a x, In x (f a) -> In x (g a)) ->
  forall x, In x (flat_map f l) -> In x (flat_map g l).
Proof.
  intros H x Hx. apply in_flat_map in Hx as [a [Ha Hxa]].
  apply in_flat_map. exists a. split; [exact Ha|now apply H].
Qed.

Section LinkLists.

Import WebScraperExtract.

(** The internal links gathered by the loop are among those gathered
    without the filter. *)
Lemma links_loop_internal_incl (lib : HtmlLib) (base_url base_domain : string)
    (hrefs : list string) :
  forall l1 l2 r1 r2,
    (forall x, In x l1 -> In x l2) ->
    links_loop lib base_url base_domain true hrefs l1 = Returned r1 ->
    links_loop lib base_url base_domain false hrefs l2 = Returned r2 ->
    forall x, In x r1 -> In x r2.
Proof.
  induction hrefs as [|href hrefs IH]; intros l1 l2 r1 r2 Hincl H1 H2; cbn in H1, H2.
  - injection H1 as <-. injection H2 as <-. exact Hincl.
  - destruct (urljoin lib base_url href) as [absolute_url|]; [|discriminate H1].
    destruct (netloc lib absolute_url) as [link_domain|]; [|discriminate H1].
    apply (IH _ _ r1 r2) with (2 := H1) (3 := H2).
    intros x Hx. apply in_or_app.
    destruct (String.eqb link_domain base_domain).
    + apply in_app_or in Hx as [Hx | Hx]; [left; now apply Hincl | now right].
    + left. now apply Hincl.
Qed.

End LinkLists.

(** X7: when [list(set(xs))] lists each element of [xs] once and the
    extraction of a page returns, every internal link it reports is also
    among the links reported without the filter, both lists are free of
    duplicates, and so the [external_link_count] computed by
    [_analyze_content] from the extraction is never negative and adds up
    with [internal_link_count] to [link_count]. *)
Theorem internal_links_are_among_the_links
    (lib : HtmlLib) (url : string) (soup soup2 : Soup) (page_data : Extracted) :
  lists_sets lib ->
  fst (WebScraperExtract.extract_all lib url soup) = Returned page_data ->
  let content := CompetitorAnalyzerImpl._analyze_content soup2 page_data in
  (forall x, In x (ex_internal_links page_data) -> In x (ex_links page_data)) /\
  List.NoDup (ex_links page_data) /\
  List.NoDup (ex_internal_links page_data) /\
  0 <= external_link_count content /\
  internal_link_count content + external_link_count content = link_count content.
Proof.
  intros Hset Hrun content.
  destruct (extract_all_cases lib url soup)
    as [[Hr _] | (links & internal & images & Hl & Hi & _ & Heq)];
    [congruence|].
  rewrite Heq in Hrun. cbn [fst] in Hrun. injection Hrun as <-.
  cbn [ex_links ex_internal_links] in *.
  unfold WebScraperExtract.extract_links in Hl, Hi.
  destruct (netloc lib url) as [base_domain|]; [|discriminate Hl].
  destruct (WebScraperExtract.links_loop lib url base_domain false
              (WebScraperExtract.anchor_hrefs soup) []) as [all|] eqn:Ha;
    [|discriminate Hl].
  destruct (WebScraperExtract.links_loop lib url base_domain true
              (WebScraperExtract.anchor_hrefs soup) []) as [own|] eqn:Ho;
    [|discriminate Hi].
  injection Hl as <-. injection Hi as <-.
  assert (Hincl : forall x, In x (list_of_set lib own) ->
                            In x (list_of_set lib all)).
  { intros x Hx. apply (proj2 (proj2 (Hset all) x)).
    apply (proj1 (proj2 (Hset own) x)) in Hx.
    revert x Hx.
    apply (links_loop_internal_incl lib url base_domain
             (WebScraperExtract.anchor_hrefs soup) [] [] own all);
      [auto | exact Ho | exact Ha]. }
  pose proof (proj1 (Hset all)) as Hnd1. pose proof (proj1 (Hset own)) as Hnd2.
  split; [exact Hincl|]. split; [exact Hnd1|]. split; [exact Hnd2|].
  pose proof (List.NoDup_incl_length Hnd2 Hincl) as Hlen.
  subst content. unfold CompetitorAnalyzerImpl._analyze_content.
  cbn [external_link_count internal_link_count link_count ex_links
       ex_internal_links].
  unfold CompetitorAnalyzerImpl.len. lia.
Qed.

Lemma internal_links_are_among_the_links_witness :
  exists page_data,
    fst (WebScraperExtract.extract_all lib_dedup page_url soup_links)
    = Returned page_data /\
    let content :=
      CompetitorAnalyzerImpl._analyze_content soup_links page_data in
    (forall x, In x (ex_internal_links page_data) -> In x (ex_links page_data)) /\
    List.NoDup (ex_links page_data) /\
    List.NoDup (ex_internal_links page_data) /\
    0 <= external_link_count content /\
    internal_link_count content + external_link_count content = link_count content.
Proof.
  eexists. split; [reflexivity|].
  apply (internal_links_are_among_the_links lib_dedup page_url soup_links
           soup_links); [|reflexivity].
  intros l. split.
  - apply List.NoDup_nodup.
  - intros x. apply List.nodup_In.
Defined.

Lemma find_all_node_absent (p : string -> list (string * string) -> bool)
    (tag : string) (n : Node) :
  (forall name attrs, p name attrs = true -> String.eqb name tag = true) ->
  Bs4.has_tag tag n = false -> Bs4.find_all_node p n = [].
Proof.
  intros Hp.
  induction n as [c s|name attrs children IH] using Node_forall_ind;
    cbn; [reflexivity|].
  intros H. apply orb_false_iff in H as [Hname Hch].
  destruct (p name attrs) eqn:E.
  { apply Hp in E. congruence. }
  cbn. rewrite List.Forall_forall in IH.
  induction children as [|c cs IHcs]; cbn; [reflexivity|].
  cbn in Hch. apply orb_false_iff in Hch as [Hc Hcs].
  rewrite (IH c (or_introl eq_refl) Hc). cbn.
  apply IHcs; [|exact Hcs]. intros x Hx. apply IH. now right.
Qed.

Lemma find_absent (p : string -> list (string * string) -> bool)
    (tag : string) (soup : Soup) :
  (forall name attrs, p name attrs = true -> String.eqb name tag = true) ->
  Bs4.occurs tag soup = false -> Bs4.find p soup = None.
Proof.
  intros Hp H. unfold Bs4.find, Bs4.find_all.
  replace (flat_map (Bs4.find_all_node p) soup) with (@nil Node); [reflexivity|].
  symmetry. unfold Bs4.occurs in H.
  induction soup as [|n ns IH]; cbn; [reflexivity|].
  cbn in H. apply orb_false_iff in H as [Hn Hns].
  rewrite (find_all_node_absent p tag n Hp Hn). cbn. now apply IH.
Qed.

(** X8: on a document without [title], [meta], [link] and [html]
    elements, [extract_metadata] raises nothing and returns its defaults:
    the URL it was given, empty strings and an empty keyword list. *)
Theorem extract_metadata_defaults (soup : Soup) (url : string) :
  Bs4.occurs "title" soup = false ->
  Bs4.occurs "meta" soup = false ->
  Bs4.occurs "link" soup = false ->
  Bs4.occurs "html" soup = false ->
  WebScraperExtract.extract_metadata soup url
  = mkMetadata url "" "" [] "" "" "" "" "" "".
Proof.
  intros Ht Hm Hl Hh.
  unfold WebScraperExtract.extract_metadata, WebScraperExtract.meta_content.
  rewrite (find_absent (Bs4.named "title") "title" soup) by auto.
  rewrite (find_absent (Bs4.named "html") "html" soup) by auto.
  rewrite (find_absent (Bs4.named_with "link" "rel" "canonical") "link" soup);
    [|intros name attrs H; unfold Bs4.named_with in H;
      now apply andb_true_iff in H as [H _]|exact Hl].
  assert (Hmeta : forall k v, Bs4.find (Bs4.named_with "meta" k v) soup = None).
  { intros k v. apply (find_absent _ "meta"); [|exact Hm].
    intros name attrs H. unfold Bs4.named_with in H.
    now apply andb_true_iff in H as [H _]. }
  rewrite !Hmeta. reflexivity.
Qed.

Lemma extract_metadata_defaults_witness :
  WebScraperExtract.extract_metadata
    [Element "body" [] [Element "p" [] [Text NavigableString "bare"]]] page_url
  = mkMetadata page_url "" "" [] "" "" "" "" "" "".
Proof.
  apply (extract_metadata_defaults [Element "body" [] [Element "p" [] [Text NavigableString "bare"]]]
           page_url); reflexivity.
Defined.

(** X9: the waits of [fetch_page]'s retry policy,
    [wait_exponential(multiplier=1, min=4, max=10)], are at least 4 and
    at most 10 seconds after every attempt, never decrease from one
    attempt to the next, and are exactly 10 seconds from the fifth
    attempt on. *)
Theorem retry_wait_is_between_4_and_10_seconds (n m : Z) :
  4 <= Tenacity.wait_exponential 1 4 10 n <= 10 /\
  (n <= m ->
   Tenacity.wait_exponential 1 4 10 n <= Tenacity.wait_exponential 1 4 10 m) /\
  (5 <= n -> Tenacity.wait_exponential 1 4 10 n = 10).
Proof.
  unfold Tenacity.wait_exponential.
  split; [lia|]. split.
  - intros Hnm.
    assert (2 ^ (n - 1) <= 2 ^ (m - 1)).
    { destruct (Z.lt_ge_cases (n - 1) 0) as [Hneg|Hpos].
      - rewrite (Z.pow_neg_r 2 (n - 1)) by lia. apply Z.pow_nonneg. lia.
      - apply Z.pow_le_mono_r; lia. }
    lia.
  - intros H5.
    assert (2 ^ 4 <= 2 ^ (n - 1)) by (apply Z.pow_le_mono_r; lia).
    change (2 ^ 4) with 16 in H. lia.
Qed.

Section SocialLinks.

Import CompetitorAnalyzerImpl StrDict.

Variable lib : HtmlLib.

Lemma dict_get_set (d : list (string * string)) (k k' v : string) :
  dict_get (dict_set d k v) k'
  = if String.eqb k k' then Some v else dict_get d k'.
Proof.
  induction d as [|[k0 v0] rest IH]; cbn.
  - reflexivity.
  - destruct (String.eqb_spec k0 k) as [->|Hne]; cbn.
    + destruct (String.eqb k k'); reflexivity.
    + rewrite IH.
      destruct (String.eqb_spec k0 k') as [->|Hne'].
      * destruct (String.eqb_spec k k'); [congruence|reflexivity].
      * reflexivity.
Qed.

Lemma dict_set_keys (d : list (string * string)) (k v : string) :
  In k (map fst d) -> map fst (dict_set d k v) = map fst d.
Proof.
  induction d as [|[k0 v0] rest IH]; cbn; [intros []|].
  intros Hin. destruct (String.eqb_spec k0 k) as [->|Hne]; cbn; [reflexivity|].
  f_equal. apply IH. destruct Hin; [congruence|assumption].
Qed.

Lemma dict_get_filter_absent (f : string * string -> bool)
    (d : list (string * string)) (k : string) :
  ~ In k (map fst d) -> dict_get (List.filter f d) k = None.
Proof.
  induction d as [|[k0 v0] rest IH]; cbn; [reflexivity|].
  intros Hn. assert (Hk : k0 <> k) by tauto.
  assert (Hr : ~ In k (map fst rest)) by tauto.
  destruct (f (k0, v0)); cbn; [|now apply IH].
  destruct (String.eqb_spec k0 k); [contradiction|now apply IH].
Qed.

Lemma dict_get_filter_nonempty (d : list (string * string)) (k : string) :
  List.NoDup (map fst d) ->
  dict_get (List.filter (fun kv => PyStr.nonempty (snd kv)) d) k
  = match dict_get d k with
    | Some v => if PyStr.nonempty v then Some v else None
    | None => None
    end.
Proof.
  induction d as [|[k0 v0] rest IH]; cbn; [reflexivity|].
  intros Hnd. inversion Hnd as [|? ? Hnotin Hnd']; subst.
  destruct (String.eqb_spec k0 k) as [->|Hne].
  - destruct (PyStr.nonempty v0); cbn.
    + now rewrite String.eqb_refl.
    + now apply dict_get_filter_absent.
  - destruct (PyStr.nonempty v0); cbn.
    + destruct (String.eqb_spec k0 k); [contradiction|now apply IH].
    + now apply IH.
Qed.

Lemma platform_key_inj (p q : Platform) :
  String.eqb (platform_key p) (platform_key q) = true -> p = q.
Proof. destruct p, q; cbn; intros H; try reflexivity; discriminate H. Qed.

Lemma platform_key_listed (p : Platform) :
  In (platform_key p) (map fst social_links_init).
Proof. destruct p; cbn; tauto. Qed.

Lemma social_fold (hrefs : list string) :
  forall d : list (string * string),
    map fst d = map fst social_links_init ->
    map fst (fold_left (social_step lib) hrefs d) = map fst social_links_init /\
    forall p,
      dict_get (fold_left (social_step lib) hrefs d) (platform_key p)
      = match last (List.filter (filed_under lib p) hrefs) with
        | Some h => Some h
        | None => dict_get d (platform_key p)
        end.
Proof.
  induction hrefs as [|h hrefs IH]; intros d Hkeys; cbn [fold_left].
  - split; [exact Hkeys|]. intros p. reflexivity.
  - assert (Hkeys' : map fst (social_step lib d h) = map fst social_links_init).
    { unfold social_step. destruct (classify lib h) as [q|]; [|exact Hkeys].
      rewrite dict_set_keys; [exact Hkeys|].
      rewrite Hkeys. apply platform_key_listed. }
    destruct (IH (social_step lib d h) Hkeys') as [Hk Hget].
    split; [exact Hk|]. intros p. rewrite Hget.
    cbn [List.filter]. unfold social_step.
    destruct (classify lib h) as [q|] eqn:C.
    + assert (Hf : filed_under lib p h = String.eqb (platform_key q) (platform_key p)).
      { unfold filed_under, platform_eqb. rewrite C. apply String.eqb_sym. }
      rewrite Hf, dict_get_set.
      destruct (String.eqb (platform_key q) (platform_key p)) eqn:E.
      * destruct (List.filter (filed_under lib p) hrefs) as [|h' t] eqn:F.
        -- reflexivity.
        -- rewrite !last_cons. now destruct (last t).
      * reflexivity.
    + assert (Hf : filed_under lib p h = false).
      { unfold filed_under. now rewrite C. }
      rewrite Hf. reflexivity.
Qed.

Lemma classified_is_nonempty (h : string) (p : Platform) :
  filed_under lib p h = true -> PyStr.nonempty h = true.
Proof.
  destruct h; [|reflexivity]. unfold filed_under. cbn. discriminate.
Qed.

(** X10: [_extract_social_links] reports, for each of the five
    platforms, the [href] (as written in the page) of the last anchor in
    document order that its [if]/[elif] chain files under the platform,
    and leaves the platform out of the result when there is no such
    anchor; a reported link is never empty.  An anchor is filed under the
    first platform of the chain whose domain occurs in the lower-cased
    [href], 'x.com' counting for twitter. *)
Theorem social_link_is_the_last_matching_anchor (soup : Soup) (p : Platform) :
  dict_get (_extract_social_links lib soup) (platform_key p)
  = last (List.filter (filed_under lib p) (anchor_hrefs soup)) /\
  (forall k v, In (k, v) (_extract_social_links lib soup) -> v <> "").
Proof.
  unfold _extract_social_links. split.
  - destruct (social_fold (anchor_hrefs soup) social_links_init eq_refl)
      as [Hkeys Hget].
    rewrite dict_get_filter_nonempty.
    2:{ rewrite Hkeys. cbn. repeat constructor; cbn; intuition discriminate. }
    rewrite Hget.
    destruct (last (List.filter (filed_under lib p) (anchor_hrefs soup))) as [h|] eqn:L.
    + assert (Hin : In h (List.filter (filed_under lib p) (anchor_hrefs soup))).
      { apply list_elem_of_In. apply last_Some_elem_of in L. exact L. }
      apply filter_In in Hin as [_ Hf].
      now rewrite (classified_is_nonempty h p Hf).
    + now destruct p.
  - intros k v Hin. apply filter_In in Hin as [_ Hv]. cbn in Hv.
    unfold PyStr.nonempty in Hv. intros ->. discriminate Hv.
Qed.

End SocialLinks.

(** ** Further properties of the proxy pool (vpn-integration.py) *)

Section PoolFacts.

Import VPNManagerMore.

Lemma load_loop_good (good : list RawEntry) :
  forall (rest : list RawEntry) (configs : list VPNConfig),
    List.Forall (fun e => is_Some (build e)) good ->
    load_loop (good ++ rest) configs
    = load_loop rest
        (configs ++ List.filter (fun vpn => enabled vpn) (omap build good)).
Proof.
  induction good as [|e good IH]; intros rest configs Hgood; cbn.
  - now rewrite app_nil_r.
  - inversion Hgood as [|? ? [vpn Hvpn] Hgood']; subst.
    rewrite Hvpn. cbn. rewrite IH by assumption.
    destruct (enabled vpn); cbn; [now rewrite <- app_assoc|reflexivity].
Qed.

(** X11: [load_config] on a file whose entries all have their required
    keys appends exactly the enabled entries to the pool, in file order,
    leaves the cursor where it was, and makes the first endpoint of the
    resulting pool the active one (the active endpoint is left alone only
    when the pool is still empty); a file that cannot be read changes
    nothing.  The call never raises. *)
Theorem load_config_keeps_enabled_entries_in_order
    (entries : list RawEntry) (self : VPNManager) :
  List.Forall (fun e => is_Some (build e)) entries ->
  let loaded := List.filter (fun vpn => enabled vpn) (omap build entries) in
  load_config_file (Some entries) self
  = (Returned tt,
     mkVPNManager (vpn_configs self ++ loaded) (current_vpn_index self)
       (match vpn_configs self ++ loaded with
        | [] => active_vpn self
        | first :: _ => Some first
        end)) /\
  load_config_file None self = (Returned tt, self).
Proof.
  intros Hgood loaded. split; [|reflexivity].
  unfold load_config_file.
  rewrite <- (app_nil_r entries) at 1.
  rewrite (load_loop_good entries [] _ Hgood). reflexivity.
Qed.

Lemma load_config_keeps_enabled_entries_in_order_witness :
  let entries := [entry_a; entry_disabled; entry_d] in
  let loaded := List.filter (fun vpn => enabled vpn) (omap build entries) in
  load_config_file (Some entries) VPNManagerImpl.init
  = (Returned tt,
     mkVPNManager (vpn_configs VPNManagerImpl.init ++ loaded)
       (current_vpn_index VPNManagerImpl.init)
       (match vpn_configs VPNManagerImpl.init ++ loaded with
        | [] => active_vpn VPNManagerImpl.init
        | first :: _ => Some first
        end)) /\
  load_config_file None VPNManagerImpl.init = (Returned tt, VPNManagerImpl.init).
Proof.
  apply (load_config_keeps_enabled_entries_in_order
           [entry_a; entry_disabled; entry_d] VPNManagerImpl.init).
  repeat constructor; cbn; eauto.
Defined.

(** X12: an entry without one of its required keys aborts [load_config]
    silently: the enabled entries before it stay in the pool, the entries
    after it are not loaded, and the active endpoint is not set.  A
    manager constructed from such a file therefore can have a non-empty
    pool and still hand out the empty proxy dictionary (a direct
    connection). *)
Theorem malformed_entry_aborts_load_config
    (good rest : list RawEntry) (bad : RawEntry) (self : VPNManager) :
  List.Forall (fun e => is_Some (build e)) good ->
  build bad = None ->
  let loaded := List.filter (fun vpn => enabled vpn) (omap build good) in
  load_config_file (Some (good ++ bad :: rest)) self
  = (Returned tt,
     mkVPNManager (vpn_configs self ++ loaded) (current_vpn_index self)
       (active_vpn self)) /\
  vpn_configs (init_from (Some (good ++ bad :: rest))) = loaded /\
  get_proxy_dict (init_from (Some (good ++ bad :: rest))) None = [].
Proof.
  intros Hgood Hbad loaded.
  assert (H : forall m,
             load_config_file (Some (good ++ bad :: rest)) m
             = (Returned tt,
                mkVPNManager (vpn_configs m ++ loaded) (current_vpn_index m)
                  (active_vpn m))).
  { intros m. unfold load_config_file.
    rewrite (load_loop_good good (bad :: rest) _ Hgood).
    cbn [load_loop]. rewrite Hbad. reflexivity. }
  split; [apply H|]. unfold init_from. rewrite H. cbn. split; reflexivity.
Qed.

Lemma malformed_entry_aborts_load_config_witness :
  let loaded := List.filter (fun vpn => enabled vpn) (omap build [entry_a]) in
  load_config_file (Some ([entry_a] ++ entry_no_port :: [entry_d])) VPNManagerImpl.init
  = (Returned tt,
     mkVPNManager (vpn_configs VPNManagerImpl.init ++ loaded)
       (current_vpn_index VPNManagerImpl.init) (active_vpn VPNManagerImpl.init)) /\
  vpn_configs (init_from (Some ([entry_a] ++ entry_no_port :: [entry_d]))) = loaded /\
  get_proxy_dict (init_from (Some ([entry_a] ++ entry_no_port :: [entry_d]))) None = [].
Proof.
  apply (malformed_entry_aborts_load_config [entry_a] [entry_d] entry_no_port
           VPNManagerImpl.init).
  - repeat constructor; cbn; eauto.
  - reflexivity.
Defined.

Lemma load_loop_enabled (entries : list RawEntry) :
  forall configs,
    List.Forall (fun vpn => enabled vpn = true) configs ->
    List.Forall (fun vpn => enabled vpn = true) (fst (load_loop entries configs)) /\
    (forall vpn, In vpn configs -> In vpn (fst (load_loop entries configs))).
Proof.
  induction entries as [|e entries IH]; intros configs Hen; cbn.
  - auto.
  - destruct (build e) as [vpn|]; cbn; [|auto].
    destruct (enabled vpn) eqn:E.
    + destruct (IH (configs ++ [vpn])) as [H1 H2].
      { apply List.Forall_app. split; [exact Hen|]. repeat constructor. exact E. }
      split; [exact H1|]. intros v Hv. apply H2, in_or_app. now left.
    + now apply IH.
Qed.

Lemma load_loop_length (entries : list RawEntry) :
  forall configs,
    (length configs <= length (fst (load_loop entries configs)))%nat.
Proof.
  induction entries as [|e entries IH]; intros cfgs; cbn; [lia|].
  destruct (build e) as [vpn|]; cbn; [|lia].
  destruct (enabled vpn); [|apply IH].
  specialize (IH (cfgs ++ [vpn])). rewrite length_app in IH. cbn in IH. lia.
Qed.

Lemma rotate_vpn_total (m : VPNManager) :
  (vpn_configs m = [] /\ VPNManagerImpl.rotate_vpn m = (Returned None, m)) \/
  (exists v,
     In v (vpn_configs m) /\
     VPNManagerImpl.rotate_vpn m
     = (Returned (Some v),
        mkVPNManager (vpn_configs m)
          ((current_vpn_index m + 1) mod Z.of_nat (length (vpn_configs m)))
          (Some v))).
Proof.
  destruct (vpn_configs m) as [|c cs] eqn:Hc.
  - left. split; [reflexivity|]. unfold VPNManagerImpl.rotate_vpn. now rewrite Hc.
  - right. assert (HK : (1 <= length (vpn_configs m))%nat) by (rewrite Hc; cbn; lia).
    destruct (rotate_vpn_step m HK) as [v [Hv Hrot]]. rewrite Hc in *.
    exists v. split; [|exact Hrot].
    set (i := (current_vpn_index m + 1) mod Z.of_nat (length (c :: cs))) in *.
    assert (Hi : 0 <= i < Z.of_nat (length (c :: cs)))
      by (apply Z.mod_pos_bound; cbn; lia).
    destruct (index_in_range (c :: cs) i Hi) as [x [Hx Hl]].
    rewrite Hv in Hx. injection Hx as <-.
    apply list_elem_of_In. eapply list_elem_of_lookup_2. exact Hl.
Qed.

(** X13: [rotate_vpn] never raises, whatever value the cursor holds: on
    an empty pool it returns [None] and changes nothing; on a pool of K
    endpoints it returns an endpoint of the pool, which becomes the
    active one, and moves the cursor to (cursor + 1) mod K, a valid
    position, leaving the pool itself unchanged. *)
Theorem rotate_vpn_never_raises (m : VPNManager) :
  let r := VPNManagerImpl.rotate_vpn m in
  vpn_configs (snd r) = vpn_configs m /\
  match vpn_configs m with
  | [] => r = (Returned None, m)
  | _ :: _ =>
      exists v,
        fst r = Returned (Some v) /\ In v (vpn_configs m) /\
        active_vpn (snd r) = Some v /\
        current_vpn_index (snd r)
        = (current_vpn_index m + 1) mod Z.of_nat (length (vpn_configs m)) /\
        0 <= current_vpn_index (snd r) < Z.of_nat (length (vpn_configs m))
  end.
Proof.
  cbv zeta. destruct (rotate_vpn_total m) as [[He Hr] | [v [Hin Hr]]].
  - rewrite Hr, He. auto.
  - rewrite Hr. cbn [fst snd vpn_configs]. split; [reflexivity|].
    destruct (vpn_configs m) as [|c cs] eqn:Hc; [destruct Hin|].
    exists v. cbn [active_vpn current_vpn_index].
    repeat split; auto; apply Z.mod_pos_bound; cbn; lia.
Qed.

Lemma apply_op_ok (op : PoolOp) (m : VPNManager) :
  pool_ok m ->
  fst (apply_op op m) = Returned tt /\ pool_ok (snd (apply_op op m)).
Proof.
  intros (Hen & Hact & H0 & Hidx). destruct op as [vpn|file|]; cbn [apply_op].
  - unfold VPNManagerImpl.add_vpn. destruct (enabled vpn) eqn:E; cbn [fst snd].
    + split; [reflexivity|]. unfold pool_ok.
      cbn [vpn_configs active_vpn current_vpn_index].
      split; [apply List.Forall_app; split; [exact Hen|repeat constructor; exact E]|].
      split.
      * intros v Hv. apply in_or_app.
        destruct (active_vpn m) as [a|] eqn:Ha.
        -- left. apply Hact. exact Hv.
        -- right. injection Hv as <-. now left.
      * split; [exact H0|]. rewrite length_app. cbn. lia.
    + split; [reflexivity|]. unfold pool_ok. auto.
  - unfold load_config_file. destruct file as [entries|]; cbn [fst snd].
    2:{ split; [reflexivity|]. unfold pool_ok. auto. }
    destruct (load_loop_enabled entries (vpn_configs m) Hen) as [Hen' Hkeep].
    pose proof (load_loop_length entries (vpn_configs m)) as Hlen.
    destruct (load_loop entries (vpn_configs m)) as [configs [|]];
      cbn [fst snd] in *; (split; [reflexivity|]); unfold pool_ok;
      cbn [vpn_configs active_vpn current_vpn_index].
    + split; [exact Hen'|]. split.
      * intros v Hv. destruct configs as [|first more].
        -- apply Hact in Hv. apply Hkeep in Hv. exact Hv.
        -- injection Hv as <-. now left.
      * split; [exact H0|]. lia.
    + split; [exact Hen'|]. split.
      * intros v Hv. apply Hkeep, Hact, Hv.
      * split; [exact H0|]. lia.
  - unfold bind, ret.
    destruct (rotate_vpn_total m) as [[He Hr] | [v [Hin Hr]]]; rewrite Hr;
      cbn [fst snd].
    + split; [reflexivity|]. unfold pool_ok. auto.
    + split; [reflexivity|]. unfold pool_ok.
      cbn [vpn_configs active_vpn current_vpn_index].
      assert (Hb : 0 <= (current_vpn_index m + 1)
                        mod Z.of_nat (length (vpn_configs m))
                   < Z.of_nat (length (vpn_configs m))).
      { apply Z.mod_pos_bound. destruct (vpn_configs m); [destruct Hin|cbn; lia]. }
      split; [exact Hen|]. split.
      * intros v' Hv'. injection Hv' as <-. exact Hin.
      * lia.
Qed.

(** X14: every manager obtained from [VPNManager()] by any sequence of
    [add_vpn], [load_config] and [rotate_vpn] calls (none of which
    raises) holds only enabled endpoints in its pool, has an active
    endpoint that belongs to the pool whenever it has one, and has a
    cursor that is a position of the pool, or 0 when the pool is
    empty. *)
Theorem pool_operations_keep_the_pool_consistent (ops : list PoolOp) :
  fst (apply_ops ops VPNManagerImpl.init) = Returned tt /\
  pool_ok (snd (apply_ops ops VPNManagerImpl.init)).
Proof.
  assert (H : forall m, pool_ok m ->
                fst (apply_ops ops m) = Returned tt /\ pool_ok (snd (apply_ops ops m))).
  { induction ops as [|op ops IH]; intros m Hm; cbn [apply_ops].
    - split; [reflexivity|exact Hm].
    - unfold bind. destruct (apply_op_ok op m Hm) as [Hr Hok].
      destruct (apply_op op m) as [r m1]. cbn [fst snd] in *. subst r.
      now apply IH. }
  apply H. unfold pool_ok, VPNManagerImpl.init. cbn.
  repeat split; try lia; [constructor|discriminate].
Qed.

End PoolFacts.

Section ProbeFacts.

Import VPNManagerMore.

(** What a single result says about the endpoint it belongs to. *)
Lemma test_vpn_returns (penv : ProbeEnv) (self : VPNManager) (vpn : VPNConfig)
    (w : World) :
  exists res,
    test_vpn penv self (Some vpn) w = (Returned res, after_request w probe_url) /\
    match res with
    | TestSuccess nm _ _ pr => nm = name vpn /\ pr = protocol vpn
    | TestFailure _ => True
    end.
Proof.
  unfold test_vpn.
  destruct (probe_get penv (length (requests w)) (get_proxy_dict self (Some vpn)))
    as [status origin latency|message].
  - destruct (status =? 200); eexists; split; try reflexivity; cbn; auto.
  - eexists; split; [reflexivity|exact I].
Qed.

Lemma test_each_spec (penv : ProbeEnv) (self : VPNManager) (vpns : list VPNConfig) :
  forall w,
  exists results,
    fst (test_each penv self vpns w) = Returned results /\
    length results = length vpns /\
    (forall i vpn,
       vpns !! i = Some vpn ->
       results !! i
       = Some
           match probe_get penv (length (requests w) + i)
                   (get_proxy_dict self (Some vpn)) with
           | ProbeAnswer status_code origin latency =>
               if status_code =? 200
               then TestSuccess (name vpn) origin latency (protocol vpn)
               else TestFailure ("HTTP " ++ PyInt.str status_code)%string
           | ProbeException message => TestFailure message
           end) /\
    now (snd (test_each penv self vpns w))
    = now w + Z.of_nat (length vpns) * Py.seconds 1 /\
    requests (snd (test_each penv self vpns w))
    = requests w ++ repeat probe_url (length vpns) /\
    sleeps (snd (test_each penv self vpns w))
    = sleeps w ++ repeat (Py.seconds 1) (length vpns) /\
    files (snd (test_each penv self vpns w)) = files w.
Proof.
  induction vpns as [|vpn vpns IH]; intros w.
  - exists []. cbn. rewrite !app_nil_r. repeat split; [|lia].
    intros i vpn H. discriminate H.
  - destruct (test_vpn_returns penv self vpn w) as [res [Hres _]].
    assert (Hexact :
      res = match probe_get penv (length (requests w))
                    (get_proxy_dict self (Some vpn)) with
            | ProbeAnswer status_code origin latency =>
                if status_code =? 200
                then TestSuccess (name vpn) origin latency (protocol vpn)
                else TestFailure ("HTTP " ++ PyInt.str status_code)%string
            | ProbeException message => TestFailure message
            end).
    { unfold test_vpn in Hres.
      destruct (probe_get penv (length (requests w))
                  (get_proxy_dict self (Some vpn)))
        as [status origin latency|message].
      - destruct (status =? 200); now injection Hres as <-.
      - now injection Hres as <-. }
    set (w1 := after_sleep (after_request w probe_url) (Py.seconds 1)).
    assert (Hstep : test_each penv self (vpn :: vpns) w
                    = match test_each penv self vpns w1 with
                      | (Returned rs, w2) => (Returned (res :: rs), w2)
                      | (Raised e, w2) => (Raised e, w2)
                      end).
    { cbn [test_each]. unfold bind. rewrite Hres. reflexivity. }
    rewrite Hstep. specialize (IH w1).
    assert (L1 : length (requests w1) = Datatypes.S (length (requests w)))
      by (cbn; rewrite length_app; cbn; lia).
    destruct (test_each penv self vpns w1) as [r w2]. cbn [fst snd] in IH.
    destruct IH as (results & Hr & Hlen & Hall & Hnow & Hreq & Hsl & Hf).
    subst r. exists (res :: results). cbn [fst snd].
    split; [reflexivity|]. split; [cbn; now rewrite Hlen|]. split.
    { intros [|i] v Hv; cbn in Hv.
      - injection Hv as <-. rewrite Nat.add_0_r. now rewrite <- Hexact.
      - change ((res :: results) !! Datatypes.S i) with (results !! i).
        rewrite (Hall i v Hv), L1. now rewrite Nat.add_succ_r. }
    rewrite Hnow, Hreq, Hsl, Hf.
    cbn [now requests sleeps files w1 after_sleep after_request length repeat].
    rewrite <- !app_assoc. repeat split. lia.
Qed.

(** X15: [test_all_vpns] never raises and returns exactly one result per
    endpoint of the pool, in pool order, each the result of one probe
    sent through the proxies of that endpoint: a probe answered with
    status 200 gives a success result with the name and protocol of the
    endpoint and the origin and latency of the answer; a probe answered
    with another status gives the failure 'HTTP ' followed by the
    status; a probe that ends in an exception gives the failure with the
    text of the exception.  One probe request is issued and one second
    is slept per endpoint, whatever the results, and the cache directory
    is not touched. *)
Theorem test_all_vpns_reports_every_endpoint
    (penv : ProbeEnv) (self : VPNManager) (w : World) :
  let r := test_all_vpns penv self w in
  exists results,
    fst r = Returned results /\
    length results = length (vpn_configs self) /\
    (forall i vpn,
       vpn_configs self !! i = Some vpn ->
       results !! i
       = Some
           match probe_get penv (length (requests w) + i)
                   (get_proxy_dict self (Some vpn)) with
           | ProbeAnswer status_code origin latency =>
               if status_code =? 200
               then TestSuccess (name vpn) origin latency (protocol vpn)
               else TestFailure ("HTTP " ++ PyInt.str status_code)%string
           | ProbeException message => TestFailure message
           end) /\
    now (snd r) = now w + Z.of_nat (length (vpn_configs self)) * Py.seconds 1 /\
    requests (snd r)
    = requests w ++ repeat probe_url (length (vpn_configs self)) /\
    sleeps (snd r)
    = sleeps w ++ repeat (Py.seconds 1) (length (vpn_configs self)) /\
    files (snd r) = files w.
Proof.
  cbv zeta. unfold test_all_vpns.
  destruct (test_each_spec penv self (vpn_configs self) w)
    as (results & Hr & Hlen & Hall & Hnow & Hreq & Hsl & Hf).
  exists results. repeat split; auto.
Qed.

(** X16: [test_vpn] without an endpoint to test (no argument and no
    active endpoint) reports the failure 'No VPN configured' without
    issuing a request; given an endpoint it issues exactly one probe and
    reports success only for status 200. *)
Theorem test_vpn_without_endpoint_issues_no_request
    (penv : ProbeEnv) (self : VPNManager) (vpn : VPNConfig) (w : World) :
  (active_vpn self = None ->
   test_vpn penv self None w = (Returned (TestFailure "No VPN configured"), w)) /\
  snd (test_vpn penv self (Some vpn) w) = after_request w probe_url /\
  (forall nm ip ms pr,
     fst (test_vpn penv self (Some vpn) w) = Returned (TestSuccess nm ip ms pr) ->
     probe_get penv (length (requests w)) (get_proxy_dict self (Some vpn))
     = ProbeAnswer 200 ip ms).
Proof.
  split; [|split].
  - intros H. unfold test_vpn. now rewrite H.
  - destruct (test_vpn_returns penv self vpn w) as [res [Hres _]]. now rewrite Hres.
  - intros nm ip ms pr. unfold test_vpn.
    destruct (probe_get penv (length (requests w)) (get_proxy_dict self (Some vpn)))
      as [status origin latency|message]; cbn [fst].
    + destruct (Z.eqb_spec status 200) as [->|Hne]; cbn [fst]; intros H.
      * now injection H as _ <- <- _.
      * discriminate H.
    + discriminate.
Qed.

End ProbeFacts.

Section SessionFacts.

Import VPNManagerMore VPNSessionImpl.

(** X17: [VPNSession.get] issues at most two requests.  A first answer
    with a status outside 400..599 is returned and nothing rotates.  When
    the first attempt fails and either [auto_rotate] is off or the pool
    is empty, its exception is raised again and nothing rotates.
    Otherwise the pool rotates exactly once, the proxies are updated from
    the new active endpoint, and the request is repeated once: whatever
    the second request gives is the outcome, so that an error status such
    as 500 is then returned as a response, its status unchecked. *)
Theorem vpn_session_get_rotates_and_retries_once
    (env : Env) (url : string) (self : VPNSession) (w : World) :
  let n := length (requests w) in
  let m := vs_manager self in
  let r := get env url (self, w) in
  (forall status text,
     session_get env n url = HttpResponse status text ->
     WebScraperFetch.raised_for (HttpResponse status text) = None ->
     r = (Returned (status, text), (self, after_request w url))) /\
  (forall e,
     WebScraperFetch.raised_for (session_get env n url) = Some e ->
     vs_auto_rotate self = false \/ vpn_configs m = [] ->
     r = (Raised e, (self, after_request w url))) /\
  (forall e,
     WebScraperFetch.raised_for (session_get env n url) = Some e ->
     vs_auto_rotate self = true ->
     vpn_configs m <> [] ->
     fst r = match session_get env (n + 1) url with
             | HttpResponse status text => Returned (status, text)
             | NetworkFailure e' => Raised (RequestFailed e')
             end /\
     requests (snd (snd r)) = requests w ++ [url; url] /\
     vpn_configs (vs_manager (fst (snd r))) = vpn_configs m /\
     current_vpn_index (vs_manager (fst (snd r)))
     = (current_vpn_index m + 1) mod Z.of_nat (length (vpn_configs m)) /\
     vs_proxies (fst (snd r))
     = StrDict.update (vs_proxies self)
         (get_proxy_dict (vs_manager (fst (snd r))) None)) /\
  (length (requests (snd (snd r))) <= length (requests w) + 2)%nat.
Proof.
  cbv zeta.
  assert (Hfirst : forall e,
    WebScraperFetch.raised_for (session_get env (length (requests w)) url) = Some e ->
    (match session_get_raw env url w with
     | (Returned (status, text), w1) =>
         if (400 <=? status) && (status <? 600)
         then (Raised (HTTPError status), w1)
         else (Returned (status, text), w1)
     | (Raised e0, w1) => (Raised e0, w1)
     end) = (Raised e, after_request w url)).
  { intros e He. unfold session_get_raw.
    destruct (session_get env (length (requests w)) url) as [st tx|ne]; cbn in He.
    - destruct ((400 <=? st) && (st <? 600)); [|discriminate].
      now injection He as <-.
    - now injection He as <-. }
  split; [|split; [|split]].
  - intros status text Hr He. unfold get, session_get_raw. rewrite Hr.
    cbn in He. destruct ((400 <=? status) && (status <? 600)); [discriminate|].
    reflexivity.
  - intros e He Hno. unfold get. rewrite (Hfirst e He).
    destruct Hno as [Hoff | Hempty].
    + now rewrite Hoff.
    + rewrite Hempty. cbn. now rewrite andb_false_r.
  - intros e He Hon Hne. unfold get. rewrite (Hfirst e He), Hon.
    destruct (vpn_configs (vs_manager self)) as [|c cs] eqn:Hc; [contradiction|].
    cbn [length Nat.eqb negb andb].
    unfold rotate_vpn.
    destruct (rotate_vpn_total (vs_manager self)) as [[He' _] | [v [Hin Hrot]]];
      [congruence|].
    rewrite Hrot. rewrite Hc.
    unfold session_get_raw.
    replace (length (requests (after_request w url)))
      with (length (requests w) + 1)%nat
      by (cbn; rewrite length_app; reflexivity).
    destruct (session_get env (length (requests w) + 1) url) as [st tx|ne];
      cbn [fst snd _update_proxies vs_manager vs_proxies vs_auto_rotate
           vpn_configs current_vpn_index requests after_request];
      rewrite <- app_assoc; repeat split.
  - unfold get, session_get_raw.
    destruct (session_get env (length (requests w)) url) as [st tx|ne].
    + destruct ((400 <=? st) && (st <? 600)).
      2:{ cbn. rewrite length_app. cbn. lia. }
      destruct (vs_auto_rotate self
                && negb (Nat.eqb (length (vpn_configs (vs_manager self))) 0)).
      2:{ cbn. rewrite length_app. cbn. lia. }
      destruct (rotate_vpn self) as [[[]|e'] self1].
      * destruct (session_get env _ url); cbn; rewrite !length_app; cbn; lia.
      * cbn. rewrite length_app. cbn. lia.
    + destruct (vs_auto_rotate self
                && negb (Nat.eqb (length (vpn_configs (vs_manager self))) 0)).
      2:{ cbn. rewrite length_app. cbn. lia. }
      destruct (rotate_vpn self) as [[[]|e'] self1].
      * destruct (session_get env _ url); cbn; rewrite !length_app; cbn; lia.
      * cbn. rewrite length_app. cbn. lia.
Qed.

Lemma vpn_session_get_rotates_and_retries_once_witness :
  let self := mkVPNSession manager3 true [] in
  let r := get env_flaky page_url (self, world_empty) in
  fst r = match session_get env_flaky (0 + 1) page_url with
          | HttpResponse status text => Returned (status, text)
          | NetworkFailure e' => Raised (RequestFailed e')
          end /\
  requests (snd (snd r)) = requests world_empty ++ [page_url; page_url] /\
  vpn_configs (vs_manager (fst (snd r))) = vpn_configs manager3 /\
  current_vpn_index (vs_manager (fst (snd r)))
  = (current_vpn_index manager3 + 1) mod Z.of_nat (length (vpn_configs manager3)) /\
  vs_proxies (fst (snd r))
  = StrDict.update (vs_proxies self)
      (get_proxy_dict (vs_manager (fst (snd r))) None).
Proof.
  apply (proj1 (proj2 (proj2
           (vpn_session_get_rotates_and_retries_once env_flaky page_url
              (mkVPNSession manager3 true []) world_empty)))
           (RequestFailed Timeout)).
  - reflexivity.
  - reflexivity.
  - discriminate.
Defined.

(** X18: [VPNWebScraper.rotate_vpn] does nothing without a manager; with
    a manager whose pool is empty and which has no active endpoint it
    raises [AttributeError] (the log line reads the name of the active
    endpoint); with a non-empty pool it rotates the pool once, updates
    the session proxies from the new active endpoint and returns. *)
Theorem vpn_web_scraper_rotate_needs_an_endpoint
    (self : VPNWebScraper) (m : VPNManager) :
  (vw_manager self = None ->
   VPNWebScraperImpl.rotate_vpn self = (Returned tt, self)) /\
  (vw_manager self = Some m -> vpn_configs m = [] -> active_vpn m = None ->
   VPNWebScraperImpl.rotate_vpn self
   = (Raised AttributeError, mkVPNWebScraper (Some m) (vw_proxies self))) /\
  (vw_manager self = Some m -> vpn_configs m <> [] ->
   exists v,
     In v (vpn_configs m) /\
     let m1 := mkVPNManager (vpn_configs m)
                 ((current_vpn_index m + 1) mod Z.of_nat (length (vpn_configs m)))
                 (Some v) in
     VPNWebScraperImpl.rotate_vpn self
     = (Returned tt,
        mkVPNWebScraper (Some m1)
          (StrDict.update (vw_proxies self) (get_proxy_dict m1 None)))).
Proof.
  split; [|split].
  - intros H. unfold VPNWebScraperImpl.rotate_vpn. now rewrite H.
  - intros H He Ha. unfold VPNWebScraperImpl.rotate_vpn. rewrite H.
    unfold VPNManagerImpl.rotate_vpn. rewrite He. rewrite Ha.
    unfold get_proxy_dict. rewrite Ha. reflexivity.
  - intros H Hne. unfold VPNWebScraperImpl.rotate_vpn. rewrite H.
    destruct (rotate_vpn_total m) as [[He _] | [v [Hin Hrot]]]; [contradiction|].
    exists v. split; [exact Hin|]. cbv zeta. rewrite Hrot. reflexivity.
Qed.

Lemma vpn_web_scraper_rotate_needs_an_endpoint_witness :
  VPNWebScraperImpl.rotate_vpn (mkVPNWebScraper (Some VPNManagerImpl.init) [])
  = (Raised AttributeError, mkVPNWebScraper (Some VPNManagerImpl.init) []).
Proof.
  apply (proj1 (proj2 (vpn_web_scraper_rotate_needs_an_endpoint
                         (mkVPNWebScraper (Some VPNManagerImpl.init) [])
                         VPNManagerImpl.init))); reflexivity.
Defined.

End SessionFacts.

Section MonitorFacts.

Import CompetitorIntelligence.

Lemma get3_returns_or_attribute_error (d : Dict) (k1 k2 k3 : string)
    (dflt : Value) (w : World) :
  (exists v, get3 d k1 k2 k3 dflt w = (Returned v, w)) \/
  get3 d k1 k2 k3 dflt w = (Raised AttributeError, w).
Proof.
  unfold get3, PyDict.get.
  destruct (default (VDict []) (PyDict.lookup d k1)); auto.
  destruct (default (VDict []) (PyDict.lookup items k2)); auto.
  left. eexists. reflexivity.
Qed.

Lemma get3_not_a_dict (d : Dict) (k1 k2 k3 : string) (dflt v : Value) (w : World) :
  PyDict.lookup d k1 = Some v ->
  (forall items, v <> VDict items) ->
  get3 d k1 k2 k3 dflt w = (Raised AttributeError, w).
Proof.
  intros Hv Hnd. unfold get3, PyDict.get. rewrite Hv. cbn [default from_option].
  destruct v; try reflexivity. exfalso. now apply (Hnd items).
Qed.

Lemma monitor_changes_current_not_a_dict
    (an : Analysis) (url : string) (prev : Dict) (v : Value) (w : World) :
  falsy (Some prev) = false ->
  PyDict.lookup (fst (full_analysis an url w)) "seo_analysis" = Some v ->
  (forall items, v <> VDict items) ->
  fst (monitor_changes an url (Some prev) w) = Raised AttributeError.
Proof.
  intros Hprev Hv Hnd. unfold monitor_changes. unfold bind at 1.
  destruct (full_analysis an url w) as [cur w1]. cbn [fst snd] in *.
  rewrite Hprev. unfold default, from_option, id.
  unfold bind at 1. unfold get_now at 1. cbv beta iota.
  unfold bind at 1.
  destruct (get3_returns_or_attribute_error prev "seo_analysis" "title" "text"
              (VStr "") w1) as [[old Hold] | Hold]; rewrite Hold; [|reflexivity].
  unfold bind at 1.
  now rewrite (get3_not_a_dict cur _ _ _ _ v w1 Hv Hnd).
Qed.

(** X19: [monitor_changes] called with a non-empty previous report
    raises [AttributeError] whenever the previous or the current report
    holds under ['seo_analysis'] a value that is not a dictionary, such
    as the [None] a report keeps when its analysis stopped early: the
    default [{}] of [.get('seo_analysis', {})] only replaces a missing
    key.  No result is returned and nothing but the analysis itself has
    run. *)
Theorem monitor_changes_raises_on_report_without_seo_analysis
    (an : Analysis) (url : string) (prev : Dict) (v : Value) (w : World) :
  falsy (Some prev) = false ->
  PyDict.lookup prev "seo_analysis" = Some v \/
  PyDict.lookup (fst (full_analysis an url w)) "seo_analysis" = Some v ->
  (forall items, v <> VDict items) ->
  monitor_changes an url (Some prev) w
  = (Raised AttributeError, snd (full_analysis an url w)).
Proof.
  intros Hprev Hv Hnd. unfold monitor_changes. unfold bind at 1.
  destruct (full_analysis an url w) as [cur w1]. cbn [fst snd] in *.
  rewrite Hprev. unfold default, from_option, id.
  unfold bind at 1. unfold get_now at 1. cbv beta iota.
  unfold bind at 1.
  destruct Hv as [Hv | Hv].
  - now rewrite (get3_not_a_dict prev _ _ _ _ v w1 Hv Hnd).
  - destruct (get3_returns_or_attribute_error prev "seo_analysis" "title" "text"
                (VStr "") w1) as [[old Hold] | Hold]; rewrite Hold; [|reflexivity].
    unfold bind at 1.
    now rewrite (get3_not_a_dict cur _ _ _ _ v w1 Hv Hnd).
Qed.

Lemma monitor_changes_raises_on_report_without_seo_analysis_witness :
  monitor_changes analysis_failed page_url (Some report_failed) world_empty
  = (Raised AttributeError, snd (full_analysis analysis_failed page_url world_empty)).
Proof.
  apply (monitor_changes_raises_on_report_without_seo_analysis
           analysis_failed page_url report_failed VNone world_empty).
  - reflexivity.
  - left. reflexivity.
  - intros items H. discriminate H.
Defined.

End MonitorFacts.


Section TechnologyFacts.

Import CompetitorIntelligenceMore.

Lemma contains_of_string (key s : string) :
  exists b, PyValue.contains key (VStr s) = Ok b.
Proof. eexists. reflexivity. Qed.

Lemma any_in_of_string (names : list string) (s : string) :
  exists b, any_in names (VStr s) = Ok b.
Proof.
  induction names as [|name names IH]; cbn.
  - now exists false.
  - destruct (PyStr2.contains name s); [now exists true | exact IH].
Qed.

Lemma categorize_of_string (s : string) :
  exists c, categorize (VStr s) = Ok c.
Proof.
  unfold categorize.
  destruct (any_in_of_string frontend_tech s) as [b1 ->].
  destruct (any_in_of_string analytics_tech s) as [b2 ->].
  destruct (any_in_of_string marketing_tech s) as [b3 ->].
  cbn. destruct b1; [eauto|]. destruct b2; [eauto|]. destruct b3; eauto.
Qed.

Lemma categorize_all_of_strings (names : list string) :
  forall t0, exists t, categorize_all (map VStr names) t0 = Ok t.
Proof.
  induction names as [|name names IH]; intros t0; cbn.
  - eauto.
  - destruct (categorize_of_string name) as [c ->]. cbn. apply IH.
Qed.

Lemma in_category_unique (tech : Value) (c : Category) :
  categorize tech = Ok c ->
  forall d, in_category d tech = category_eqb d c.
Proof. intros H d. unfold in_category. now rewrite H. Qed.

Lemma categorize_all_filed (items : list Value) :
  forall t0 t,
    categorize_all items t0 = Ok t ->
    forall c, filed c t = filed c t0 ++ List.filter (in_category c) items.
Proof.
  induction items as [|tech items IH]; intros t0 t H c; cbn in H.
  - injection H as <-. cbn. now rewrite app_nil_r.
  - destruct (categorize tech) as [d|e] eqn:Hd; cbn in H; [|discriminate].
    rewrite (IH _ _ H c). cbn [List.filter].
    rewrite (in_category_unique tech d Hd c).
    destruct c, d; cbn; rewrite <- ?app_assoc; reflexivity.
Qed.

Lemma categorize_all_permutation (items : list Value) :
  forall t0 t,
    categorize_all items t0 = Ok t ->
    Permutation (frontend t ++ analytics t ++ marketing t ++ frameworks t)
                ((frontend t0 ++ analytics t0 ++ marketing t0 ++ frameworks t0)
                 ++ items).
Proof.
  induction items as [|tech items IH]; intros t0 t H; cbn in H.
  - injection H as <-. now rewrite app_nil_r.
  - destruct (categorize tech) as [d|e] eqn:Hd; cbn in H; [|discriminate].
    rewrite (IH _ _ H).
    change (tech :: items) with ([tech] ++ items). rewrite (app_assoc _ [tech] items).
    apply Permutation_app_tail.
    destruct d; cbn [file_under frontend analytics marketing frameworks];
      rewrite <- ?app_assoc.
    + apply Permutation_app_head.
      rewrite (Permutation_app_comm [tech]). now rewrite <- !app_assoc.
    + do 2 apply Permutation_app_head.
      rewrite (Permutation_app_comm [tech]). now rewrite <- !app_assoc.
    + do 3 apply Permutation_app_head. apply Permutation_app_comm.
    + reflexivity.
Qed.

(** X20: [CompetitorIntelligence._detect_technologies] returns whenever
    the basic analysis is a dictionary whose ['technology_stack'] is a
    list of strings.  Whenever it returns, either the basic analysis was
    falsy or carried an ['error'] key and all four categories are
    empty, or every detected technology is filed under exactly one
    category, the first of frontend, analytics and marketing one of
    whose names occurs in it and else frameworks: each category lists
    its technologies in the order of detection, and the four lists
    together are a permutation of the detected ones, none lost and none
    twice. *)
Theorem detected_technologies_are_partitioned (basic : Value) :
  (forall d names,
     basic = VDict d ->
     PyDict.lookup d "technology_stack" = Some (VList (map VStr names)) ->
     exists t, _detect_technologies basic = Ok t) /\
  (forall t,
     _detect_technologies basic = Ok t ->
     (PyValue.truthy basic = false \/ PyValue.contains "error" basic = Ok true ->
      t = no_technologies) /\
     (forall items,
        PyValue.truthy basic = true ->
        PyValue.contains "error" basic = Ok false ->
        (let* detected := PyValue.get basic "technology_stack" (VList []) in
         PyValue.iter detected) = Ok items ->
        (forall c, filed c t = List.filter (in_category c) items) /\
        Permutation (frontend t ++ analytics t ++ marketing t ++ frameworks t)
                    items)).
Proof.
  split.
  - intros d names -> Hstack. unfold _detect_technologies.
    destruct (PyValue.truthy (VDict d)); cbn [negb]; [|eauto].
    cbn [PyValue.contains and_then].
    destruct (PyDict.contains d "error"); [eauto|].
    unfold PyValue.get, PyDict.get. rewrite Hstack. cbn.
    apply categorize_all_of_strings.
  - intros t H. unfold _detect_technologies in H. split.
    + intros [Hf | He].
      * rewrite Hf in H. cbn in H. now injection H as <-.
      * destruct (PyValue.truthy basic); cbn [negb] in H.
        -- rewrite He in H. cbn in H. now injection H as <-.
        -- now injection H as <-.
    + intros items Ht He Hitems. rewrite Ht, He in H. cbn [negb and_then] in H.
      destruct (PyValue.get basic "technology_stack" (VList [])) as [detected|e];
        cbn [and_then] in H, Hitems; [|discriminate].
      rewrite Hitems in H. cbn [and_then] in H. split.
      * intros c. rewrite (categorize_all_filed items _ _ H c). now destruct c.
      * now rewrite (categorize_all_permutation items _ _ H).
Qed.

Lemma detected_technologies_are_partitioned_witness :
  exists t, _detect_technologies basic_sample = Ok t /\
            filed Frontend t = [VStr "React"] /\
            filed Analytics t = [VStr "Google Analytics 4"] /\
            filed Marketing t = [VStr "HubSpot CMS"] /\
            filed Frameworks t = [VStr "Bootstrap"].
Proof.
  destruct (proj1 (detected_technologies_are_partitioned basic_sample)
              _ ["React"; "Bootstrap"; "HubSpot CMS"; "Google Analytics 4"]
              eq_refl eq_refl) as [t Ht].
  exists t. split; [exact Ht|].
  destruct (proj2 (proj2 (detected_technologies_are_partitioned basic_sample) t Ht)
              [VStr "React"; VStr "Bootstrap"; VStr "HubSpot CMS";
               VStr "Google Analytics 4"] eq_refl eq_refl eq_refl) as [Hf _].
  repeat split; rewrite Hf; reflexivity.
Defined.

End TechnologyFacts.


Section InsightFacts.

Import CompetitorIntelligenceMore.

Ltac result_cases H :=
  repeat match type of H with
         | context [and_then ?c _] =>
             destruct c eqn:?; cbn [and_then] in H; [|discriminate H]
         | context [if ?b then _ else _] => destruct b eqn:?
         end.

Ltac count_entries :=
  unfold grows, strength, weakness, opportunity, recommendation;
  cbn [strengths weaknesses opportunities recommendations];
  rewrite ?length_app; cbn [length]; lia.

Lemma seo_insights_grows (seo : Value) (i i' : Insights) :
  seo_insights seo i = Ok i' -> grows i i' 0 0 2 0.
Proof.
  unfold seo_insights. intros H. result_cases H;
    injection H as <-; count_entries.
Qed.

Lemma content_insights_grows (basic : Value) (i i' : Insights) :
  content_insights basic i = Ok i' -> grows i i' 0 0 2 0.
Proof.
  unfold content_insights. intros H. result_cases H;
    injection H as <-; count_entries.
Qed.

Lemma pricing_insights_grows (pricing : Value) (i i' : Insights) :
  pricing_insights pricing i = Ok i' -> grows i i' 1 1 1 1.
Proof.
  unfold pricing_insights. intros H.
  destruct (PyValue.truthy pricing).
  - destruct (PyValue.get pricing "has_pricing_page" VNone); cbn [and_then] in H;
      [|discriminate H].
    destruct (PyValue.truthy a); injection H as <-; count_entries.
  - cbn [and_then] in H. injection H as <-. count_entries.
Qed.

(** X21: the lists [_generate_insights] returns are tied to each other.
    Every weakness but 'No clear pricing information' is entered
    together with one recommendation, and the only opportunity together
    with the strength 'Clear pricing page available', one of which two
    is always entered: so the weaknesses and opportunities are one more
    than the recommendations, there is at most one opportunity, and the
    strengths and weaknesses are between one and five.  The function
    returns for every report whose ['seo_analysis'], ['basic_analysis']
    and ['pricing_info'] are dictionaries that carry an ['error'] key or
    hold dictionaries under ['title'], ['description'],
    ['content_analysis'] and ['social_presence'] and an integer under
    ['word_count'], where these are present. *)
Theorem insights_are_balanced (analysis : Dict) :
  (forall ins,
     _generate_insights analysis = Ok ins ->
     (length (weaknesses ins) + length (opportunities ins)
      = length (recommendations ins) + 1)%nat /\
     (length (opportunities ins) <= 1)%nat /\
     (1 <= length (strengths ins) + length (weaknesses ins) <= 5)%nat) /\
  (forall seo basic pricing,
     PyDict.lookup analysis "seo_analysis" = Some (VDict seo) ->
     PyDict.lookup analysis "basic_analysis" = Some (VDict basic) ->
     PyDict.lookup analysis "pricing_info" = Some (VDict pricing) ->
     (PyDict.contains seo "error" = true \/
      exists title description,
        default (VDict []) (PyDict.lookup seo "title") = VDict title /\
        default (VDict []) (PyDict.lookup seo "description") = VDict description) ->
     (PyDict.contains basic "error" = true \/
      exists content n social,
        default (VDict []) (PyDict.lookup basic "content_analysis") = VDict content /\
        default (VInt 0) (PyDict.lookup content "word_count") = VInt n /\
        default (VDict []) (PyDict.lookup basic "social_presence") = VDict social) ->
     exists ins, _generate_insights analysis = Ok ins).
Proof.
  split.
  - intros ins H. unfold _generate_insights in H.
    destruct (PyValue.get (VDict analysis) "basic_analysis" (VDict []))
      as [basic|e]; cbn [and_then] in H; [|discriminate H].
    destruct (PyValue.get (VDict analysis) "seo_analysis" (VDict []))
      as [seo|e]; cbn [and_then] in H; [|discriminate H].
    destruct (seo_insights seo no_insights) as [i1|e] eqn:H1;
      cbn [and_then] in H; [|discriminate H].
    destruct (content_insights basic i1) as [i2|e] eqn:H2;
      cbn [and_then] in H; [|discriminate H].
    destruct (PyValue.get (VDict analysis) "pricing_info" (VDict []))
      as [pricing|e]; cbn [and_then] in H; [|discriminate H].
    apply seo_insights_grows in H1. apply content_insights_grows in H2.
    apply pricing_insights_grows in H. unfold grows in *.
    cbn [no_insights strengths weaknesses opportunities recommendations length]
      in H1.
    lia.
  - intros seo basic pricing Hseo Hbasic Hpricing Sseo Sbasic.
    unfold _generate_insights, PyValue.get, PyDict.get.
    rewrite Hseo, Hbasic, Hpricing. unfold default, from_option, id.
    cbn [of_outcome and_then].
    assert (E1 : exists i1, seo_insights (VDict seo) no_insights = Ok i1).
    { unfold seo_insights, usable. cbn [PyValue.contains].
      destruct (PyValue.truthy (VDict seo)); cbn [and_then]; [|eauto].
      destruct Sseo as [-> | (title & description & Ht & Hd)];
        cbn [negb and_then]; [eauto|].
      destruct (PyDict.contains seo "error"); cbn [negb]; [eauto|].
      unfold PyValue.get, PyDict.get. rewrite Ht, Hd.
      cbn [of_outcome and_then]. eauto. }
    destruct E1 as [i1 ->]. cbn [and_then].
    assert (E2 : exists i2, content_insights (VDict basic) i1 = Ok i2).
    { unfold content_insights, usable. cbn [PyValue.contains].
      destruct (PyValue.truthy (VDict basic)); cbn [and_then]; [|eauto].
      destruct Sbasic as [-> | (content & n & social & Hc & Hn & Hs)];
        cbn [negb and_then]; [eauto|].
      destruct (PyDict.contains basic "error"); cbn [negb]; [eauto|].
      unfold PyValue.get, PyDict.get. rewrite Hc.
      cbn [of_outcome and_then]. rewrite Hn. cbn [PyValue.number and_then].
      rewrite Hs. cbn [PyValue.len and_then]. eauto. }
    destruct E2 as [i2 ->]. cbn [and_then].
    unfold pricing_insights, PyValue.get, PyDict.get.
    destruct (PyValue.truthy (VDict pricing)); cbn [of_outcome and_then]; eauto.
Qed.

Lemma insights_are_balanced_witness :
  exists ins, _generate_insights report_sample = Ok ins.
Proof.
  apply (proj2 (insights_are_balanced report_sample)
           [("title", VDict [("text", VStr "Acme"); ("optimal", VBool false)]);
            ("description", VDict [("text", VStr ""); ("optimal", VBool true)])]
           [("url", VStr page_url);
            ("content_analysis", VDict [("word_count", VInt 1200)]);
            ("technology_stack",
             VList [VStr "React"; VStr "Bootstrap"; VStr "HubSpot CMS";
                    VStr "Google Analytics 4"]);
            ("social_presence", VDict [("twitter", VStr "https://x.com/acme")])]
           [("has_pricing_page", VBool true)]).
  - reflexivity.
  - reflexivity.
  - reflexivity.
  - right. do 2 eexists. split; reflexivity.
  - right. do 3 eexists. split; [reflexivity|]. split; reflexivity.
Defined.

End InsightFacts.

Section PricingFacts.

Import PricingAndFeatures.

Variables (js : JsEnv) (lib : HtmlLib) (base_url : string).

Lemma probe_pricing_spec (paths : list string) (pricing_data : PricingData) :
  forall w,
    let r := probe_pricing js lib base_url paths pricing_data w in
    let urls := test_urls base_url paths in
    let n := length (requests w) in
    (fst r = pricing_data /\
     requests (snd r) = requests w ++ urls /\
     forall j url, urls !! j = Some url -> fails js (n + j) url) \/
    (exists j url html text_content,
       urls !! j = Some url /\
       js_scrape_page js (n + j) url = JsPage html text_content /\
       fst r = mkPricingData true (Some url)
                 (_extract_pricing_plans js lib text_content)
                 (price_points pricing_data) /\
       requests (snd r) = requests w ++ firstn (Datatypes.S j) urls /\
       forall i url', (i < j)%nat -> urls !! i = Some url' -> fails js (n + i) url').
Proof.
  induction paths as [|path paths IH]; intros w; cbv zeta.
  - left. cbn. rewrite app_nil_r. repeat split. intros j url H. discriminate H.
  - cbn [probe_pricing test_urls map].
    set (test_url := (PyStr2.rstrip_slash base_url ++ path)%string).
    fold (test_urls base_url paths).
    assert (Hlen : length (requests (after_request w test_url))
                   = Datatypes.S (length (requests w)))
      by (cbn; rewrite length_app; cbn; lia).
    assert (Hshift :
      forall (P : nat -> string -> Prop),
        P (length (requests w)) test_url ->
        (forall j url, test_urls base_url paths !! j = Some url ->
                       P (Datatypes.S (length (requests w)) + j)%nat url) ->
        forall j url, (test_url :: test_urls base_url paths) !! j = Some url ->
                      P (length (requests w) + j)%nat url).
    { intros P H0 HS [|j] url Hj; cbn in Hj.
      - injection Hj as <-. now rewrite Nat.add_0_r.
      - rewrite Nat.add_succ_r. now apply HS. }
    destruct (js_scrape_page js (length (requests w)) test_url)
      as [html text_content|error|] eqn:Hpage.
    + right. exists 0%nat, test_url, html, text_content.
      rewrite Nat.add_0_r. cbn [fst snd]. repeat split; auto. intros i url' Hi. lia.
    + specialize (IH (after_request w test_url)). cbv zeta in IH. rewrite Hlen in IH.
      destruct IH as [(Hp & Hreq & Hall) | (j & url & h & t & Hj & Hload & Hp & Hreq & Hbefore)].
      * left. split; [exact Hp|]. split.
        -- rewrite Hreq. cbn. now rewrite <- app_assoc.
        -- apply Hshift; [|exact Hall]. intros h t. rewrite Hpage. discriminate.
      * right. exists (Datatypes.S j), url, h, t. rewrite Nat.add_succ_r.
        split; [exact Hj|]. split; [exact Hload|]. split; [exact Hp|]. split.
        -- rewrite Hreq. cbn. now rewrite <- app_assoc.
        -- intros [|i] url' Hi Hu; cbn in Hu.
           ++ injection Hu as <-. rewrite Nat.add_0_r. intros h' t'.
              rewrite Hpage. discriminate.
           ++ rewrite Nat.add_succ_r. apply (Hbefore i url'); [lia|exact Hu].
    + specialize (IH (after_request w test_url)). cbv zeta in IH. rewrite Hlen in IH.
      destruct IH as [(Hp & Hreq & Hall) | (j & url & h & t & Hj & Hload & Hp & Hreq & Hbefore)].
      * left. split; [exact Hp|]. split.
        -- rewrite Hreq. cbn. now rewrite <- app_assoc.
        -- apply Hshift; [|exact Hall]. intros h t. rewrite Hpage. discriminate.
      * right. exists (Datatypes.S j), url, h, t. rewrite Nat.add_succ_r.
        split; [exact Hj|]. split; [exact Hload|]. split; [exact Hp|]. split.
        -- rewrite Hreq. cbn. now rewrite <- app_assoc.
        -- intros [|i] url' Hi Hu; cbn in Hu.
           ++ injection Hu as <-. rewrite Nat.add_0_r. intros h' t'.
              rewrite Hpage. discriminate.
           ++ rewrite Nat.add_succ_r. apply (Hbefore i url'); [lia|exact Hu].
Qed.

(** X22: [_analyze_pricing] never raises and tries the four paths
    [/pricing], [/plans], [/pricing-plans], [/buy] behind the base URL
    without its trailing slashes, in this order, until one loads.
    Either no page is reported ([has_pricing_page] false, no URL, no
    plans): then the scraper did not start and nothing was requested, or
    all four pages were requested and none loaded.  Or the reported
    [pricing_url] is the first of the four that loaded, the pages before
    it were requested and failed, none after it was requested, and the
    plans are those read from its text. *)
Theorem pricing_page_is_the_first_path_that_loads (w : World) :
  let r := _analyze_pricing js lib base_url w in
  let urls := test_urls base_url common_paths in
  let n := length (requests w) in
  (fst r = no_pricing /\
   ((js_enter js n = false /\ snd r = w) \/
    (js_enter js n = true /\
     requests (snd r) = requests w ++ urls /\
     forall j url, urls !! j = Some url -> fails js (n + j) url))) \/
  (exists j url html text_content,
     js_enter js n = true /\
     urls !! j = Some url /\
     js_scrape_page js (n + j) url = JsPage html text_content /\
     fst r = mkPricingData true (Some url)
               (_extract_pricing_plans js lib text_content) [] /\
     requests (snd r) = requests w ++ firstn (Datatypes.S j) urls /\
     forall i url', (i < j)%nat -> urls !! i = Some url' -> fails js (n + i) url').
Proof.
  cbv zeta. unfold _analyze_pricing.
  destruct (js_enter js (length (requests w))) eqn:Henter.
  - destruct (probe_pricing_spec common_paths no_pricing w)
      as [(Hp & Hreq & Hall) | (j & url & h & t & Hj & Hload & Hp & Hreq & Hbefore)].
    + left. split; [exact Hp|]. right. auto.
    + right. exists j, url, h, t. auto 10.
  - left. cbn [fst snd]. auto.
Qed.

End PricingFacts.

(** The text of a list item is stripped of no-break spaces and holds no
    script text; its length is counted in characters. *)
Example list_item_texts_of_a_page :
  PricingAndFeatures.list_item_texts soup_with_scripts = ["Unlimited projects"].
Proof. reflexivity. Qed.

Section FeatureFacts.

Import PricingAndFeatures.

Variables (js : JsEnv) (lib : HtmlLib) (base_url : string).

Lemma list_item_texts_long (soup : Soup) :
  List.Forall (fun feature => 10 < PyStr.len feature) (list_item_texts soup).
Proof.
  unfold list_item_texts. apply List.Forall_forall. intros x Hx.
  apply in_flat_map in Hx. destruct Hx as [ul [_ Hx]].
  apply in_flat_map in Hx. destruct Hx as [li [_ Hx]].
  destruct (PyStr.nonempty _ && (10 <? _)) eqn:Hc; [|destruct Hx].
  destruct Hx as [<-|[]].
  apply andb_true_iff in Hc. destruct Hc as [_ Hc].
  now apply Z.ltb_lt in Hc.
Qed.

Lemma probe_features_spec (paths : list string) :
  forall features w,
    let r := probe_features js lib base_url paths features w in
    let urls := test_urls base_url paths in
    let n := length (requests w) in
    (fst r = features /\
     requests (snd r) = requests w ++ urls /\
     forall j url, urls !! j = Some url -> fails js (n + j) url) \/
    (exists j url html text_content,
       urls !! j = Some url /\
       js_scrape_page js (n + j) url = JsPage html text_content /\
       fst r = features ++ list_item_texts (parse lib html) /\
       requests (snd r) = requests w ++ firstn (Datatypes.S j) urls /\
       forall i url', (i < j)%nat -> urls !! i = Some url' -> fails js (n + i) url').
Proof.
  induction paths as [|path paths IH]; intros features w; cbv zeta.
  - left. cbn. rewrite app_nil_r. repeat split. intros j url H. discriminate H.
  - cbn [probe_features test_urls map].
    set (test_url := (PyStr2.rstrip_slash base_url ++ path)%string).
    fold (test_urls base_url paths).
    assert (Hlen : length (requests (after_request w test_url))
                   = Datatypes.S (length (requests w)))
      by (cbn; rewrite length_app; cbn; lia).
    assert (Hshift :
      forall (P : nat -> string -> Prop),
        P (length (requests w)) test_url ->
        (forall j url, test_urls base_url paths !! j = Some url ->
                       P (Datatypes.S (length (requests w)) + j)%nat url) ->
        forall j url, (test_url :: test_urls base_url paths) !! j = Some url ->
                      P (length (requests w) + j)%nat url).
    { intros P H0 HS [|j] url Hj; cbn in Hj.
      - injection Hj as <-. now rewrite Nat.add_0_r.
      - rewrite Nat.add_succ_r. now apply HS. }
    destruct (js_scrape_page js (length (requests w)) test_url)
      as [html text_content|error|] eqn:Hpage.
    + right. exists 0%nat, test_url, html, text_content.
      rewrite Nat.add_0_r. cbn [fst snd]. repeat split; auto. intros i url' Hi. lia.
    + specialize (IH features (after_request w test_url)). cbv zeta in IH.
      rewrite Hlen in IH.
      destruct IH as [(Hp & Hreq & Hall) | (j & url & h & t & Hj & Hload & Hp & Hreq & Hbefore)].
      * left. split; [exact Hp|]. split.
        -- rewrite Hreq. cbn. now rewrite <- app_assoc.
        -- apply Hshift; [|exact Hall]. intros h t. rewrite Hpage. discriminate.
      * right. exists (Datatypes.S j), url, h, t. rewrite Nat.add_succ_r.
        split; [exact Hj|]. split; [exact Hload|]. split; [exact Hp|]. split.
        -- rewrite Hreq. cbn. now rewrite <- app_assoc.
        -- intros [|i] url' Hi Hu; cbn in Hu.
           ++ injection Hu as <-. rewrite Nat.add_0_r. intros h' t'.
              rewrite Hpage. discriminate.
           ++ rewrite Nat.add_succ_r. apply (Hbefore i url'); [lia|exact Hu].
    + specialize (IH features (after_request w test_url)). cbv zeta in IH.
      rewrite Hlen in IH.
      destruct IH as [(Hp & Hreq & Hall) | (j & url & h & t & Hj & Hload & Hp & Hreq & Hbefore)].
      * left. split; [exact Hp|]. split.
        -- rewrite Hreq. cbn. now rewrite <- app_assoc.
        -- apply Hshift; [|exact Hall]. intros h t. rewrite Hpage. discriminate.
      * right. exists (Datatypes.S j), url, h, t. rewrite Nat.add_succ_r.
        split; [exact Hj|]. split; [exact Hload|]. split; [exact Hp|]. split.
        -- rewrite Hreq. cbn. now rewrite <- app_assoc.
        -- intros [|i] url' Hi Hu; cbn in Hu.
           ++ injection Hu as <-. rewrite Nat.add_0_r. intros h' t'.
              rewrite Hpage. discriminate.
           ++ rewrite Nat.add_succ_r. apply (Hbefore i url'); [lia|exact Hu].
Qed.

(** X23: [_extract_features] never raises and tries the three paths
    [/features], [/product], [/solutions] behind the URL without its
    trailing slashes, in this order, until one loads.  Either the
    scraper did not start and nothing was requested, or all three pages
    were requested and none loaded: then no feature is returned.  Or the
    features all come from the first of the three pages that loaded, the
    pages before it having been requested and failed and none after it
    requested: they are the first 20 of the texts of that page's list
    items (every [li] below every [ul] or [ol], in document order; the
    text stripped, without the strings inside [script] and [style]) that
    are longer than 10 characters, whether the page holds such items or
    not.  At most 20 features are returned, each longer than 10
    characters. *)
Theorem extracted_features_are_capped (w : World) :
  let r := _extract_features js lib base_url w in
  let urls := test_urls base_url feature_paths in
  let n := length (requests w) in
  (length (fst r) <= 20)%nat /\
  List.Forall (fun feature => 10 < PyStr.len feature) (fst r) /\
  ((fst r = [] /\
    ((js_enter js n = false /\ snd r = w) \/
     (js_enter js n = true /\
      requests (snd r) = requests w ++ urls /\
      forall j url, urls !! j = Some url -> fails js (n + j) url))) \/
   (exists j url html text_content,
      js_enter js n = true /\
      urls !! j = Some url /\
      js_scrape_page js (n + j) url = JsPage html text_content /\
      fst r = firstn 20 (list_item_texts (parse lib html)) /\
      requests (snd r) = requests w ++ firstn (Datatypes.S j) urls /\
      forall i url', (i < j)%nat -> urls !! i = Some url' -> fails js (n + i) url')).
Proof.
  cbv zeta. unfold _extract_features.
  destruct (js_enter js (length (requests w))) eqn:Henter.
  - destruct (probe_features_spec feature_paths [] w)
      as [(Hp & Hreq & Hall) | (j & url & h & t & Hj & Hload & Hp & Hreq & Hbefore)];
      destruct (probe_features js lib base_url feature_paths [] w) as [features w'];
      cbn [fst snd app] in *; subst features.
    + split; [cbn; lia|]. split; [constructor|].
      left. split; [reflexivity|]. right. auto.
    + split; [apply firstn_le_length|].
      split; [apply Forall_take, list_item_texts_long|].
      right. exists j, url, h, t. auto 10.
  - cbn [fst snd]. split; [cbn; lia|]. split; [constructor|].
    left. split; [reflexivity|]. left. auto.
Qed.

End FeatureFacts.

Section FullAnalysisFacts.

Import FullAnalysis.

Variables (st : Stages) (js : JsEnv) (lib : HtmlLib) (url : string).

Ltac run_stages :=
  unfold full_analysis;
  repeat match goal with
         | |- context [analyze_website st url ?w] =>
             destruct (analyze_website st url w) as [[?basic|?message] ?w1]
         | |- context [seo_analyzer st] =>
             destruct (seo_analyzer st) as [?analyze_seo|]
         | |- context [match ?f url ?w with _ => _ end] =>
             destruct (f url w) as [[?seo|?message] ?w2]
         | |- context [PricingAndFeatures._analyze_pricing js lib url ?w] =>
             destruct (PricingAndFeatures._analyze_pricing js lib url w)
               as [?pricing ?w3]
         | |- context [PricingAndFeatures._extract_features js lib url ?w] =>
             destruct (PricingAndFeatures._extract_features js lib url w)
               as [?features ?w4]
         | |- context [CompetitorIntelligenceMore._detect_technologies ?b] =>
             destruct (CompetitorIntelligenceMore._detect_technologies b)
               as [?technologies|?e]
         | |- context [CompetitorIntelligenceMore._generate_insights ?r] =>
             destruct (CompetitorIntelligenceMore._generate_insights r)
               as [?insights|?e]
         end.

(** X24: [full_analysis] never raises, and its report always has the
    seven keys set at the start, in their order, followed by exactly one
    of ['insights'] and ['error'].  A report with ['insights'] has a
    value other than [None] under each of the five stage keys.  The
    stages run in order and the first exception ends the analysis: a
    report whose ['seo_analysis'] is [None] has [None] under
    ['pricing_info'], ['features'] and ['technologies'] as well, and
    carries ['error']. *)
Theorem full_analysis_report_shape (w : World) :
  let report := fst (full_analysis st js lib url w) in
  (map fst report = stage_keys ++ ["insights"] \/
   map fst report = stage_keys ++ ["error"]) /\
  (PyDict.contains report "insights" = true ->
   PyDict.contains report "error" = false /\
   forall key,
     In key ["basic_analysis"; "seo_analysis"; "pricing_info"; "features";
             "technologies"] ->
     exists v, PyDict.lookup report key = Some v /\ v <> VNone) /\
  (PyDict.lookup report "seo_analysis" = Some VNone ->
   PyDict.lookup report "pricing_info" = Some VNone /\
   PyDict.lookup report "features" = Some VNone /\
   PyDict.lookup report "technologies" = Some VNone /\
   PyDict.contains report "error" = true).
Proof.
  cbv zeta. run_stages; cbn [fst];
    (split; [cbn; auto|]); (split; [|cbn; intros H; try discriminate H; auto]);
    cbn; intros H; try discriminate H.
  split; [reflexivity|].
  intros key Hkey.
  repeat (destruct Hkey as [<- | Hkey];
          [cbn; eexists; split; [reflexivity|discriminate]|]).
  destruct Hkey.
Qed.

Lemma failed_analysis_has_no_seo_analysis (w : World) :
  (exists message w1, analyze_website st url w = (StageRaised message, w1)) \/
  seo_analyzer st = None \/
  (exists basic w1 analyze_seo message w2,
     analyze_website st url w = (StageOk basic, w1) /\
     seo_analyzer st = Some analyze_seo /\
     analyze_seo url w1 = (StageRaised message, w2)) ->
  PyDict.lookup (fst (full_analysis st js lib url w)) "seo_analysis" = Some VNone.
Proof.
  intros [(m & w1 & H) | [H | (basic & w1 & f & m & w2 & H1 & H2 & H3)]];
    unfold full_analysis.
  - rewrite H. reflexivity.
  - rewrite H. destruct (analyze_website st url w) as [[basic|m] w1]; reflexivity.
  - rewrite H1, H2, H3. reflexivity.
Qed.

(** X25: when the basic or the SEO stage of [full_analysis] raises, or
    the service has no SEO analyser, [monitor_changes] with any
    non-empty previous report raises [AttributeError] instead of
    reporting changes: the current report then holds [None] under
    ['seo_analysis'], on which [.get('title', {})] is called. *)
Theorem monitor_changes_raises_after_a_failed_analysis
    (prev : Dict) (w : World) :
  prev <> [] ->
  (exists message w1, analyze_website st url w = (StageRaised message, w1)) \/
  seo_analyzer st = None \/
  (exists basic w1 analyze_seo message w2,
     analyze_website st url w = (StageOk basic, w1) /\
     seo_analyzer st = Some analyze_seo /\
     analyze_seo url w1 = (StageRaised message, w2)) ->
  fst (CompetitorIntelligence.monitor_changes (analysis_of st js lib) url
         (Some prev) w)
  = Raised AttributeError.
Proof.
  intros Hprev Hfail.
  apply (monitor_changes_current_not_a_dict (analysis_of st js lib) url prev VNone w).
  - destruct prev; [contradiction|reflexivity].
  - cbn [analysis_of full_analysis].
    now apply failed_analysis_has_no_seo_analysis.
  - intros items H. discriminate H.
Qed.

End FullAnalysisFacts.

Lemma monitor_changes_raises_after_a_failed_analysis_witness :
  fst (CompetitorIntelligence.monitor_changes
         (FullAnalysis.analysis_of stages_unreachable js_plans lib_plain)
         page_url (Some report_sample) world_empty)
  = Raised AttributeError.
Proof.
  apply (monitor_changes_raises_after_a_failed_analysis
           stages_unreachable js_plans lib_plain page_url report_sample world_empty).
  - discriminate.
  - left. do 2 eexists. reflexivity.
Defined.

Section AnalyzeWebsiteFacts.

Import AnalyzeWebsite WebScraperFetch.

Variables (env : Env) (lib : HtmlLib) (an : Analysers) (scraper : WebScraper)
          (url : string).

Lemma body_valid_url (w : World) :
  validators_url env url = true ->
  fst (fetch_page_body env scraper url w) <> Returned None.
Proof.
  intros Hv. unfold fetch_page_body, try_except, bind, http_get, raise, ret.
  rewrite Hv. cbn [negb].
  destruct (session_get env (length (requests w)) url) as [status text|e].
  - destruct ((400 <=? status) && (status <? 600)); cbn; [discriminate|].
    unfold sleep. destruct (delay scraper <? 0); cbn; discriminate.
  - cbn. discriminate.
Qed.

Lemma fetch_page_valid_url (w : World) :
  validators_url env url = true ->
  fst (fetch_page env scraper url w) <> Returned None.
Proof.
  intros Hv. unfold fetch_page, Tenacity.retry. cbn [Nat.pred Tenacity.retrying].
  pose proof (body_valid_url w Hv) as B1.
  destruct (fetch_page_body env scraper url w) as [[a|e] w1]; [exact B1|].
  unfold bind at 1.
  destruct (sleep _ w1) as [[[]|e1] w1']; [|cbn; discriminate].
  pose proof (body_valid_url w1' Hv) as B2.
  destruct (fetch_page_body env scraper url w1') as [[a|e2] w2]; [exact B2|].
  unfold bind at 1.
  destruct (sleep _ w2) as [[[]|e3] w2']; [|cbn; discriminate].
  pose proof (body_valid_url w2' Hv) as B3.
  destruct (fetch_page_body env scraper url w2') as [[a|e4] w3]; [exact B3|].
  cbn. discriminate.
Qed.

Lemma scraped_url_is_valid (w w1 : World) (u : string) (data : Extracted) (t : Z) :
  WebScraperExtract.scrape_page env lib scraper url w = (Returned (Scraped u data t), w1) ->
  validators_url env url = true.
Proof.
  intros H. destruct (validators_url env url) eqn:Hv; [reflexivity|].
  unfold WebScraperExtract.scrape_page, bind in H.
  rewrite (fetch_invalid_url env scraper url w Hv) in H. cbn in H. discriminate H.
Qed.

Lemma analyze_website_two_answers (w : World)
    (status1 status2 : Z) (text1 text2 : string) :
  validators_url env url = true ->
  0 <= delay scraper ->
  session_get env (length (requests w)) url = HttpResponse status1 text1 ->
  raised_for (HttpResponse status1 text1) = None ->
  text1 <> "" ->
  session_get env (length (requests w) + 1) url = HttpResponse status2 text2 ->
  raised_for (HttpResponse status2 text2) = None ->
  let soup := parse lib text2 in
  let w1 := after_sleep (after_request w url) (delay scraper) in
  let w2 := after_sleep (after_request w1 url) (delay scraper) in
  analyze_website env lib an scraper url w
  = match fst (WebScraperExtract.extract_all lib url (parse lib text1)) with
    | Returned page_data =>
        (Ok (WebsiteAnalysed
               (mkWebsiteAnalysis url
                  (ex_metadata page_data)
                  (_analyze_seo soup page_data)
                  (CompetitorAnalyzerImpl._analyze_content soup page_data)
                  (_detect_technologies lib soup)
                  (CompetitorAnalyzerImpl._extract_social_links lib soup)
                  (_extract_ctas an soup)
                  (_extract_contact_info an soup)
                  (now w2))), w2)
    | Raised _ => (Err (Base ValueError), w1)
    end.
Proof.
  intros Hv Hd H1 R1 Hne H2 R2. cbv zeta.
  unfold analyze_website, WebScraperExtract.scrape_page. unfold bind at 1.
  rewrite (fetch_first_attempt_succeeds env scraper url w status1 text1 Hv H1 R1 Hd).
  assert (Ht : Py.truthy (Some text1) = true).
  { cbn. destruct (String.eqb_spec text1 ""); [contradiction|reflexivity]. }
  rewrite Ht. cbn [negb]. unfold default, from_option, id.
  destruct (extract_all_cases lib url (parse lib text1))
    as [[Hr _] | (links & internal & images & _ & _ & _ & Hrun)].
  - rewrite Hr. reflexivity.
  - rewrite Hrun. cbn [fst]. unfold bind, get_now, ret.
    set (w1 := after_sleep (after_request w url) (delay scraper)).
    assert (L1 : length (requests w1) = (length (requests w) + 1)%nat)
      by (cbn; rewrite length_app; reflexivity).
    rewrite (fetch_first_attempt_succeeds env scraper url w1 status2 text2 Hv)
      by (rewrite ?L1; auto).
    reflexivity.
Qed.

(** X26: [analyze_website] downloads the page twice.  When the URL is
    valid and the next two requests are answered at the first attempt
    without an error status, the first with a non-empty body whose
    extraction returns, the call returns an analysis after exactly two
    requests for [url] and two sleeps of [delay]: metadata, links,
    images and text are those of the first answer, while the paragraph
    count, the headings, the technology stack, the social links, the
    calls to action and the contact details are read from the second.
    When the extraction of the first answer raises (the [ValueError] of
    [urljoin] or [urlparse] on a reference of the page), the call raises
    that [ValueError] after one request and one sleep, and the page is
    not downloaded again.  The unchecked
    [parse_html(fetch_page(url))] never receives [None]: the call never
    ends in the [TypeError] this would raise. *)
Theorem analyze_website_downloads_the_page_twice (w : World) :
  fst (analyze_website env lib an scraper url w) <> Err TypeError /\
  (forall status1 text1 status2 text2,
     let n := length (requests w) in
     validators_url env url = true ->
     0 <= delay scraper ->
     session_get env n url = HttpResponse status1 text1 ->
     raised_for (HttpResponse status1 text1) = None ->
     text1 <> "" ->
     session_get env (n + 1) url = HttpResponse status2 text2 ->
     raised_for (HttpResponse status2 text2) = None ->
     let soup := parse lib text2 in
     let r := analyze_website env lib an scraper url w in
     match fst (WebScraperExtract.extract_all lib url (parse lib text1)) with
     | Returned page_data =>
         fst r
         = Ok (WebsiteAnalysed
                 (mkWebsiteAnalysis url
                    (ex_metadata page_data)
                    (_analyze_seo soup page_data)
                    (CompetitorAnalyzerImpl._analyze_content soup page_data)
                    (_detect_technologies lib soup)
                    (CompetitorAnalyzerImpl._extract_social_links lib soup)
                    (_extract_ctas an soup)
                    (_extract_contact_info an soup)
                    (now w + delay scraper + delay scraper))) /\
         requests (snd r) = requests w ++ [url; url] /\
         sleeps (snd r) = sleeps w ++ [delay scraper; delay scraper]
     | Raised _ =>
         fst r = Err (Base ValueError) /\
         requests (snd r) = requests w ++ [url] /\
         sleeps (snd r) = sleeps w ++ [delay scraper]
     end).
Proof.
  split.
  - unfold analyze_website.
    destruct (WebScraperExtract.scrape_page env lib scraper url w)
      as [[[error u|u data t]|e] w1] eqn:Hs; cbn [fst]; try discriminate.
    pose proof (fetch_page_valid_url w1 (scraped_url_is_valid w w1 u data t Hs)) as F.
    destruct (fetch_page env scraper url w1) as [[[html|]|e] w2]; cbn [fst] in *;
      try discriminate.
    now contradiction F.
  - intros status1 text1 status2 text2 n Hv Hd H1 R1 Hne H2 R2. cbv zeta.
    rewrite (analyze_website_two_answers w status1 status2 text1 text2
               Hv Hd H1 R1 Hne H2 R2).
    destruct (fst (WebScraperExtract.extract_all lib url (parse lib text1)))
      as [page_data|e]; cbn [fst snd].
    + split; [cbn; reflexivity|].
      cbn. rewrite <- !app_assoc. split; reflexivity.
    + split; [reflexivity|]. cbn. split; reflexivity.
Qed.

Lemma script_technology_names (src technology : string) :
  script_technology lib src = Some technology -> In technology script_names.
Proof.
  unfold script_technology, script_names.
  repeat (destruct (PyStr2.contains _ _);
          [intros H; injection H as <-; cbn; auto 10|]).
  discriminate.
Qed.

(** X27: [CompetitorAnalyzer._detect_technologies] lists each
    technology once and reports nothing but the five names it knows
    ('React', 'Vue.js', 'Angular', 'jQuery', 'Bootstrap') and the
    non-empty content of the generator meta tag: at most six entries,
    however many scripts the page loads. *)
Theorem technology_stack_is_a_short_list (soup : Soup) :
  lists_sets lib ->
  let stack := _detect_technologies lib soup in
  List.NoDup stack /\
  (forall technology,
     In technology stack ->
     In technology script_names \/
     (technology = WebScraperExtract.meta_content soup "name" "generator" /\
      technology <> "")) /\
  (length stack <= 6)%nat.
Proof.
  intros Hset. cbv zeta. unfold _detect_technologies.
  destruct (Hset (technologies_found lib soup)) as [Hnd Hin].
  assert (Hnames : forall technology,
            In technology (list_of_set lib (technologies_found lib soup)) ->
            In technology
               (script_names ++ [WebScraperExtract.meta_content soup "name" "generator"]) /\
            (In technology script_names \/
             (technology = WebScraperExtract.meta_content soup "name" "generator" /\
              technology <> ""))).
  { intros technology H. apply Hin in H. unfold technologies_found in H.
    apply in_app_or in H. destruct H as [H | H].
    - apply in_flat_map in H. destruct H as [script [_ H]].
      destruct (script_technology _) as [name|] eqn:Hs; [|destruct H].
      destruct H as [<-|[]]. apply script_technology_names in Hs.
      split; [apply in_or_app|]; auto.
    - destruct (PyStr.nonempty _) eqn:Hg; [|destruct H].
      destruct H as [<-|[]]. split.
      + apply in_or_app. right. now left.
      + right. split; [reflexivity|]. intros E. rewrite E in Hg. discriminate Hg. }
  split; [exact Hnd|]. split.
  - intros technology H. exact (proj2 (Hnames technology H)).
  - change 6%nat with (length (script_names
                                 ++ [WebScraperExtract.meta_content soup "name" "generator"])).
    apply NoDup_incl_length; [exact Hnd|].
    intros technology H. exact (proj1 (Hnames technology H)).
Qed.

End AnalyzeWebsiteFacts.

Lemma analyze_website_downloads_the_page_twice_witness :
  let r := AnalyzeWebsite.analyze_website env_serving lib_dedup analysers_none
             AnalyzeWebsite.init page_url world_empty in
  requests (snd r) = requests world_empty ++ [page_url; page_url] /\
  sleeps (snd r) = sleeps world_empty ++ [Py.seconds 2; Py.seconds 2].
Proof.
  refine (proj2 (proj2 (analyze_website_downloads_the_page_twice
                          env_serving lib_dedup analysers_none AnalyzeWebsite.init
                          page_url world_empty)
                   200 page_html 200 page_html _ _ _ _ _ _ _)).
  - reflexivity.
  - vm_compute. discriminate.
  - reflexivity.
  - reflexivity.
  - discriminate.
  - reflexivity.
  - reflexivity.
Defined.

Lemma technology_stack_is_a_short_list_witness :
  AnalyzeWebsite._detect_technologies lib_dedup soup_scripts
  = ["React"; "WordPress 6.4"] /\
  (length (AnalyzeWebsite._detect_technologies lib_dedup soup_scripts) <= 6)%nat.
Proof.
  split; [reflexivity|].
  apply (technology_stack_is_a_short_list lib_dedup soup_scripts).
  intros l. split; [apply List.NoDup_nodup|].
  intros x. apply List.nodup_In.
Defined.
Section SafeAnalyzerFacts.

Import SafeScraperImpl SafeCompetitorAnalyzerImpl.

Variables (env : Env) (lib : HtmlLib) (an : Analysers) (url : string).

(** The first fetch of an analysis that goes to the network. *)
Lemma safe_scrape_page_physical (self : SafeScraper) (w : World)
    (status : Z) (text : string) :
  let d := random_uniform env (draws w) (min_delay self) (max_delay self) in
  let pause := if request_count self >? 0 then [d] else [] in
  let w3 := mkWorld (now w + fold_right Z.add 0 pause + delay (base self))
              (requests w ++ [url]) (sleeps w ++ pause ++ [delay (base self)])
              (Datatypes.S (draws w)) (files w) in
  let st1 :=
    (with_request_count self (request_count self + 1),
     if cache_enabled self && open_for_write env (cache_file url)
     then with_files w3 (<[cache_file url := CacheJson url text (now w3)]> (files w))
     else w3) in
  request_count self < max_requests self ->
  _get_cached_response url (self, w) = (Returned None, (self, w)) ->
  validators_url env url = true ->
  session_get env (length (requests w)) url = HttpResponse status text ->
  WebScraperFetch.raised_for (HttpResponse status text) = None ->
  text <> "" ->
  0 <= delay (base self) ->
  (request_count self > 0 -> 0 <= d) ->
  scrape_page env lib url (self, w)
  = (match fst (WebScraperExtract.extract_all lib url (parse lib text)) with
     | Returned data => Returned (Scraped url data (now (snd st1)))
     | Raised _ => Raised ValueError
     end, st1).
Proof.
  intros d pause w3 st1 Hlt Hmiss Hv Hr He Hne Hd Hpos.
  unfold scrape_page. unfold bind at 1.
  rewrite (fetch_page_physical env url self w status text Hlt Hmiss Hv Hr He Hd Hpos).
  rewrite (truthy_Some text Hne). cbn [negb]. unfold default, from_option, id.
  destruct (extract_all_cases lib url (parse lib text))
    as [[Hx _] | (links & internal & images & _ & _ & _ & Hrun)].
  - rewrite Hx. reflexivity.
  - rewrite Hrun. reflexivity.
Qed.

(** X28: [SafeCompetitorAnalyzer.analyze_website] raises when its first
    fetch uses up the request budget.  With one request left
    ([request_count + 1 = max_requests]), no usable cache entry and a
    server that answers the first attempt with a non-empty page,
    [scrape_page] obtains the page with one request.  When the
    extraction of the page returns, the second [fetch_page] finds the
    budget exhausted and returns [None] before it looks at the cache,
    and [parse_html(None)] raises [TypeError]; when the extraction
    raises (the [ValueError] of [urljoin] or [urlparse] on a reference
    of the page), that [ValueError] ends the call.  Either way the
    budget is spent, one request was issued and no analysis is
    returned. *)
Theorem safe_analysis_raises_on_the_last_request_of_the_budget
    (self : SafeScraper) (w : World) (status : Z) (text : string) :
  let d := random_uniform env (draws w) (min_delay self) (max_delay self) in
  let r := analyze_website env lib an url (self, w) in
  request_count self + 1 = max_requests self ->
  _get_cached_response url (self, w) = (Returned None, (self, w)) ->
  validators_url env url = true ->
  session_get env (length (requests w)) url = HttpResponse status text ->
  WebScraperFetch.raised_for (HttpResponse status text) = None ->
  text <> "" ->
  0 <= delay (base self) ->
  (request_count self > 0 -> 0 <= d) ->
  fst r = match fst (WebScraperExtract.extract_all lib url (parse lib text)) with
          | Returned _ => Err TypeError
          | Raised _ => Err (Base ValueError)
          end /\
  request_count (fst (snd r)) = max_requests self /\
  requests (snd (snd r)) = requests w ++ [url].
Proof.
  intros d r Hlast Hmiss Hv Hr He Hne Hd Hpos. subst r.
  unfold analyze_website.
  rewrite (safe_scrape_page_physical self w status text) by (auto; lia).
  destruct (fst (WebScraperExtract.extract_all lib url (parse lib text)))
    as [data|e].
  - rewrite fetch_page_budget_exhausted by (cbn; lia).
    cbn [fst snd with_request_count request_count]. split; [reflexivity|].
    split; [exact Hlast|].
    destruct (cache_enabled self && open_for_write env (cache_file url)); reflexivity.
  - cbn [fst snd with_request_count request_count]. split; [reflexivity|].
    split; [exact Hlast|].
    destruct (cache_enabled self && open_for_write env (cache_file url)); reflexivity.
Qed.

(** X29: with more than one request left, the cache enabled and its file
    writable, [SafeCompetitorAnalyzer.analyze_website] of a page that is
    not in the cache, when the server answers the first attempt with a
    non-empty page, issues exactly one request.  When the extraction of
    the page returns, the page saved by the first fetch is what the
    second fetch returns, so every part of the analysis is computed from
    the one answer; when the extraction raises (the [ValueError] of
    [urljoin] or [urlparse] on a reference of the page), the call raises
    that [ValueError] and returns no analysis.  Either way
    [request_count] grows by one and the page is in the cache. *)
Theorem safe_analysis_issues_one_request
    (self : SafeScraper) (w : World) (status : Z) (text : string) :
  let d := random_uniform env (draws w) (min_delay self) (max_delay self) in
  let r := analyze_website env lib an url (self, w) in
  let soup := parse lib text in
  request_count self + 1 < max_requests self ->
  cache_enabled self = true ->
  open_for_write env (cache_file url) = true ->
  _get_cached_response url (self, w) = (Returned None, (self, w)) ->
  validators_url env url = true ->
  session_get env (length (requests w)) url = HttpResponse status text ->
  WebScraperFetch.raised_for (HttpResponse status text) = None ->
  text <> "" ->
  0 <= delay (base self) ->
  (request_count self > 0 -> 0 <= d) ->
  match fst (WebScraperExtract.extract_all lib url soup) with
  | Returned page_data =>
      fst r = Ok (SafeWebsiteAnalysed
                    (mkWebsiteAnalysis url
                       (ex_metadata page_data)
                       (AnalyzeWebsite._analyze_seo soup page_data)
                       (CompetitorAnalyzerImpl._analyze_content soup page_data)
                       (AnalyzeWebsite._detect_technologies lib soup)
                       (CompetitorAnalyzerImpl._extract_social_links lib soup)
                       (_extract_ctas an soup)
                       (_extract_contact_info an soup)
                       (now (snd (snd r))))
                    note)
  | Raised _ => fst r = Err (Base ValueError)
  end /\
  now (snd (snd r))
  = now w
    + (if request_count self >? 0 then d else 0)
    + delay (base self) /\
  request_count (fst (snd r)) = request_count self + 1 /\
  requests (snd (snd r)) = requests w ++ [url] /\
  files (snd (snd r)) !! cache_file url
  = Some (CacheJson url text (now (snd (snd r)))).
Proof.
  intros d r soup Hlt Hen Hw Hmiss Hv Hr He Hne Hd Hpos.
  subst r soup. unfold analyze_website.
  rewrite (safe_scrape_page_physical self w status text) by (auto; lia).
  rewrite Hen, Hw. cbn [andb].
  set (w3 := mkWorld _ _ _ _ _).
  assert (Hnow : now w3 = now w + (if request_count self >? 0 then d else 0)
                          + delay (base self)).
  { subst w3. cbn [now]. destruct (request_count self >? 0); cbn; lia. }
  destruct (fst (WebScraperExtract.extract_all lib url (parse lib text)))
    as [data|e].
  - rewrite (fetch_page_cache_hit env url url text (now w3)).
    + cbn [fst snd with_request_count request_count with_files files now requests].
      split; [reflexivity|]. split; [exact Hnow|].
      split; [reflexivity|]. split; [reflexivity|].
      apply lookup_insert_eq.
    + cbn. lia.
    + exact Hen.
    + cbn [with_files files]. apply lookup_insert_eq.
    + cbn [with_files now]. assert (0 <= ttl) by (vm_compute; discriminate). lia.
    + exact Hne.
  - cbn [fst snd with_request_count request_count with_files files now requests].
    split; [reflexivity|]. split; [exact Hnow|].
    split; [reflexivity|]. split; [reflexivity|].
    apply lookup_insert_eq.
Qed.

End SafeAnalyzerFacts.

Lemma safe_analysis_raises_on_the_last_request_of_the_budget_witness :
  let r := SafeCompetitorAnalyzerImpl.analyze_website env_serving lib_dedup
             analysers_none page_url (scraper_fresh 1, world_empty) in
  let r' := SafeCompetitorAnalyzerImpl.analyze_website env_serving lib_strict
              analysers_none page_url (scraper_fresh 1, world_empty) in
  (fst r = Err TypeError /\
   request_count (fst (snd r)) = max_requests (scraper_fresh 1) /\
   requests (snd (snd r)) = requests world_empty ++ [page_url]) /\
  (fst r' = Err (Base ValueError) /\
   request_count (fst (snd r')) = max_requests (scraper_fresh 1) /\
   requests (snd (snd r')) = requests world_empty ++ [page_url]).
Proof.
  split.
  - apply (safe_analysis_raises_on_the_last_request_of_the_budget
             env_serving lib_dedup analysers_none page_url
             (scraper_fresh 1) world_empty 200 page_html).
    + reflexivity.
    + reflexivity.
    + reflexivity.
    + reflexivity.
    + reflexivity.
    + discriminate.
    + vm_compute. discriminate.
    + intros H. vm_compute in H. discriminate H.
  - apply (safe_analysis_raises_on_the_last_request_of_the_budget
             env_serving lib_strict analysers_none page_url
             (scraper_fresh 1) world_empty 200 page_html).
    + reflexivity.
    + reflexivity.
    + reflexivity.
    + reflexivity.
    + reflexivity.
    + discriminate.
    + vm_compute. discriminate.
    + intros H. vm_compute in H. discriminate H.
Defined.

Lemma safe_analysis_issues_one_request_witness :
  let r := SafeCompetitorAnalyzerImpl.analyze_website env_serving lib_dedup
             analysers_none page_url (scraper_fresh 10, world_empty) in
  request_count (fst (snd r)) = request_count (scraper_fresh 10) + 1 /\
  requests (snd (snd r)) = requests world_empty ++ [page_url] /\
  files (snd (snd r)) !! SafeScraperImpl.cache_file page_url
  = Some (CacheJson page_url page_html (now (snd (snd r)))).
Proof.
  refine (proj2 (proj2 (safe_analysis_issues_one_request
                   env_serving lib_dedup analysers_none page_url
                   (scraper_fresh 10) world_empty 200 page_html
                   _ _ _ _ _ _ _ _ _ _))).
  - reflexivity.
  - reflexivity.
  - reflexivity.
  - reflexivity.
  - reflexivity.
  - reflexivity.
  - reflexivity.
  - discriminate.
  - vm_compute. discriminate.
  - intros H. vm_compute in H. discriminate H.
Defined.
